(** * gospeak: a shallow embedding of [main.go] and its specification

    The program is a command-line text-to-speech client for three hosted
    providers (OpenAI, ElevenLabs, Deepgram).  The embedding follows the
    last revision of [main.go]: the preset voice tables, the two voice
    resolvers, the three [synthesize*] functions, [playAudio] and [main].

    Go strings are byte sequences and are modelled by [string]; [[]byte] is
    [list byte]; [float64] is the IEEE-754 datatype [spec_float] of the
    Standard Library with its comparison functions; Go maps used as lookup
    tables are [gmap string string].  Effects (standard error, HTTP, audio
    playback, file output, sleeping, [os.Exit]) are threaded through a small
    monad that reads an explicit [World] and emits a trace of events. *)

From Stdlib Require Import ZArith List Bool Ascii String.
From Stdlib Require Import Strings.Byte.
From Stdlib Require Import DecimalString.
From Stdlib Require Import Floats.SpecFloat.
From stdpp Require Import base option gmap strings list.

Import ListNotations.
Set Warnings "-register-all".
Local Open Scope string_scope.
Local Open Scope list_scope.
Local Open Scope Z_scope.

(** ** Characters that cannot be written inside a string literal *)

Definition nl : string := String (ascii_of_nat 10) EmptyString.
Definition dquote : string := String (ascii_of_nat 34) EmptyString.

(** ** float64 *)

Module Float64.

Definition float64 := spec_float.

(** The constants of the source, each the binary64 value nearest to the
    decimal literal: [m * 2^e] with a 53-bit mantissa. *)
Definition f_0_25 : float64 := S754_finite false 4503599627370496 (-54).
Definition f_4_0 : float64 := S754_finite false 4503599627370496 (-50).
Definition f_0_7 : float64 := S754_finite false 6305039478318694 (-53).
Definition f_1_2 : float64 := S754_finite false 5404319552844595 (-52).
Definition f_1_0 : float64 := S754_finite false 4503599627370496 (-52).
Definition f_0_5 : float64 := S754_finite false 4503599627370496 (-53).
Definition f_0_75 : float64 := S754_finite false 6755399441055744 (-53).
Definition f_2_0 : float64 := S754_finite false 4503599627370496 (-51).
Definition f_zero : float64 := S754_zero false.
Definition f_nan : float64 := S754_nan.

(** Go's [<], [>], [==] and [!=] on float64. *)
Definition lt (a b : float64) : bool := SFltb a b.
Definition gt (a b : float64) : bool := SFltb b a.
Definition le (a b : float64) : bool := SFleb a b.
Definition eq (a b : float64) : bool := SFeqb a b.
Definition ne (a b : float64) : bool := negb (SFeqb a b).

Definition isNaN (a : float64) : bool :=
  match a with S754_nan => true | _ => false end.
Definition isInf (a : float64) : bool :=
  match a with S754_infinity _ => true | _ => false end.
Definition isFinite (a : float64) : bool := negb (isNaN a || isInf a).

End Float64.
Import Float64.

(** ** strings.ToLower, strings.Join *)

Definition isASCIIChar (c : ascii) : bool := (nat_of_ascii c <? 128)%nat.

Definition isUpperChar (c : ascii) : bool :=
  ((65 <=? nat_of_ascii c) && (nat_of_ascii c <=? 90))%nat.

Definition lowerChar (c : ascii) : ascii :=
  if isUpperChar c then ascii_of_nat (nat_of_ascii c + 32) else c.

Fixpoint isASCII (s : string) : bool :=
  match s with
  | EmptyString => true
  | String c r => isASCIIChar c && isASCII r
  end.

Fixpoint mapChars (f : ascii -> ascii) (s : string) : string :=
  match s with
  | EmptyString => EmptyString
  | String c r => String (f c) (mapChars f r)
  end.

(** [strings.ToLower]: an all-ASCII string is lowered byte by byte; any
    other string goes through [strings.Map(unicode.ToLower, s)], whose
    Unicode tables are not part of the repository and are taken as the
    parameter [unicodeLower]. *)
Definition ToLower (unicodeLower : string -> string) (s : string) : string :=
  if isASCII s then mapChars lowerChar s else unicodeLower s.

(** [strings.Join]. *)
Fixpoint Join (elems : list string) (sep : string) : string :=
  match elems with
  | [] => EmptyString
  | [x] => x
  | x :: rest => x +:+ sep +:+ Join rest sep
  end.

Definition nonEmpty (s : string) : bool :=
  match s with EmptyString => false | _ => true end.

(** ** Constants and preset tables *)

Definition defaultOpenAIVoice : string := "alloy".
Definition defaultOpenAIModel : string := "tts-1-hd".
Definition openAIAPIURL : string := "https://api.openai.com/v1/audio/speech".

Definition defaultElevenLabsVoice : string := "rachel".
Definition defaultElevenLabsModel : string := "eleven_multilingual_v2".
Definition elevenLabsAPIURL : string := "https://api.elevenlabs.io/v1/text-to-speech".

Definition defaultDeepgramVoice : string := "aura-asteria-en".
Definition deepgramAPIURL : string := "https://api.deepgram.com/v1/speak".

Definition defaultSpeed : float64 := f_1_0.
Definition defaultProvider : string := "openai".

Definition openAIVoices : list string :=
  ["alloy"; "echo"; "fable"; "onyx"; "nova"; "shimmer"].

(** The entries of the ElevenLabs map literal (name, voice_id). *)
Definition elevenLabsPresets : list (string * string) :=
  [ ("rachel", "21m00Tcm4TlvDq8ikWAM");
    ("domi", "AZnzlk1XvdvUeBnXmlld");
    ("bella", "EXAVITQu4vr4xnSDxMaL");
    ("antoni", "ErXwobaYiN019PkySvjV");
    ("elli", "MF3mGyEYCl7XYWbV9V6O");
    ("josh", "TxGEqnHWrfWFTfGW9XjX");
    ("arnold", "VR6AewLTigWG4xSOukaG");
    ("adam", "pNInz6obpgDQGcFmaJgB");
    ("sam", "yoZ06aMxZJJ28mfd3POQ");
    ("george", "JBFqnCBsd6RMkjVDRZzb");
    ("charlie", "IKne3meq5aSn9XLyUdCD");
    ("emily", "LcfcDJNUP1GQjkzn1xUU");
    ("lily", "pFZP5JQG7iQjIQuC4Bku");
    ("michael", "flq6f7yk4E4fJM5XTYuZ") ].

Definition elevenLabsVoices : gmap string string :=
  list_to_map elevenLabsPresets.

(** The entries of the Deepgram map literal (short name, full model name). *)
Definition deepgramPresets : list (string * string) :=
  [ ("asteria", "aura-asteria-en");
    ("luna", "aura-luna-en");
    ("stella", "aura-stella-en");
    ("athena", "aura-athena-en");
    ("hera", "aura-hera-en");
    ("orion", "aura-orion-en");
    ("arcas", "aura-arcas-en");
    ("perseus", "aura-perseus-en");
    ("angus", "aura-angus-en");
    ("orpheus", "aura-orpheus-en");
    ("helios", "aura-helios-en");
    ("zeus", "aura-zeus-en");
    ("thalia", "aura-2-thalia-en");
    ("andromeda", "aura-2-andromeda-en");
    ("helena", "aura-2-helena-en");
    ("jason", "aura-2-jason-en");
    ("apollo", "aura-2-apollo-en");
    ("ares", "aura-2-ares-en") ].

Definition deepgramVoices : gmap string string :=
  list_to_map deepgramPresets.

(** ** Voice validation and resolution *)

Fixpoint isValidVoiceIn (voices : list string) (voice : string) : bool :=
  match voices with
  | [] => false
  | v :: rest => if String.eqb v voice then true else isValidVoiceIn rest voice
  end.

Definition isValidOpenAIVoice (voice : string) : bool :=
  isValidVoiceIn openAIVoices voice.

Definition resolveElevenLabsVoice (unicodeLower : string -> string)
    (voice : string) : string :=
  match elevenLabsVoices !! ToLower unicodeLower voice with
  | Some id => id
  | None => voice
  end.

Definition resolveDeepgramVoice (unicodeLower : string -> string)
    (voice : string) : string :=
  match deepgramVoices !! ToLower unicodeLower voice with
  | Some model => model
  | None => voice
  end.

(** ** JSON documents and request bodies *)

(** The body handed to the HTTP client is the output of [json.Marshal]; it
    is kept as the JSON document it denotes, fields in declaration order. *)
Inductive json :=
| JString (s : string)
| JNumber (f : float64)
| JObject (fields : list (string * json)).

Definition bytes := list byte.

(** [encoding/json] refuses NaN and the infinities
    ([UnsupportedValueError]); every other float is encoded. *)
Definition marshalFloat (f : float64) : json + string :=
  match f with
  | S754_nan => inr "json: unsupported value: NaN"
  | S754_infinity false => inr "json: unsupported value: +Inf"
  | S754_infinity true => inr "json: unsupported value: -Inf"
  | _ => inl (JNumber f)
  end.

(** A float field tagged [omitempty] is left out when it is zero. *)
Definition isEmptyFloat (f : float64) : bool := Float64.eq f f_zero.

Record DeepgramTTSRequest := { dg_Text : string }.

Record OpenAITTSRequest := {
  oa_Model : string;
  oa_Input : string;
  oa_Voice : string;
  oa_ResponseFormat : string;
  oa_Speed : float64
}.

Record ElevenLabsVoiceSettings := {
  vs_Stability : float64;
  vs_SimilarityBoost : float64;
  vs_Style : float64;
  vs_Speed : float64
}.

Record ElevenLabsTTSRequest := {
  el_Text : string;
  el_ModelID : string;
  el_VoiceSettings : option ElevenLabsVoiceSettings
}.

Definition marshalDeepgram (r : DeepgramTTSRequest) : json + string :=
  inl (JObject [("text", JString (dg_Text r))]).

Definition marshalOpenAI (r : OpenAITTSRequest) : json + string :=
  match marshalFloat (oa_Speed r) with
  | inr e => inr e
  | inl speed =>
      inl (JObject [("model", JString (oa_Model r));
                    ("input", JString (oa_Input r));
                    ("voice", JString (oa_Voice r));
                    ("response_format", JString (oa_ResponseFormat r));
                    ("speed", speed)])
  end.

(** One optional float field: nothing when omitted, the error when the value
    cannot be encoded. *)
Definition optionalFloat (name : string) (f : float64)
    : list (string * json) + string :=
  if isEmptyFloat f then inl []
  else match marshalFloat f with
       | inr e => inr e
       | inl j => inl [(name, j)]
       end.

Definition marshalVoiceSettings (v : ElevenLabsVoiceSettings) : json + string :=
  match marshalFloat (vs_Stability v) with
  | inr e => inr e
  | inl stability =>
    match marshalFloat (vs_SimilarityBoost v) with
    | inr e => inr e
    | inl similarity =>
      match optionalFloat "style" (vs_Style v) with
      | inr e => inr e
      | inl style =>
        match optionalFloat "speed" (vs_Speed v) with
        | inr e => inr e
        | inl speed =>
            inl (JObject ([("stability", stability);
                           ("similarity_boost", similarity)]
                          ++ style ++ speed))
        end
      end
    end
  end.

Definition marshalElevenLabs (r : ElevenLabsTTSRequest) : json + string :=
  match el_VoiceSettings r with
  | None =>
      inl (JObject [("text", JString (el_Text r));
                    ("model_id", JString (el_ModelID r))])
  | Some v =>
      match marshalVoiceSettings v with
      | inr e => inr e
      | inl settings =>
          inl (JObject [("text", JString (el_Text r));
                        ("model_id", JString (el_ModelID r));
                        ("voice_settings", settings)])
      end
  end.

(** ** The world outside the program *)

Record Request := {
  req_method : string;
  req_url : string;
  req_headers : list (string * string);
  req_body : json
}.

(** What [client.Do] and the reading of the response body give back. *)
Inductive HttpOutcome :=
| TransportError (msg : string)
| Response (status : Z) (body : bytes) (readErr : option string).

(** What the MP3 decoder and the audio device do with a buffer: the decoder
    refuses it, the audio context cannot be created, or the buffer plays and
    the player is found busy [polls] times before it reports the end. *)
Inductive PlayOutcome :=
| DecodeError (msg : string)
| ContextError (msg : string)
| Played (polls : nat).

(** Standard input: [Stat] fails, a terminal, or a pipe with its content and
    the read error if any. *)
Inductive Stdin :=
| StatFails
| CharDevice
| Piped (data : bytes) (readErr : option string).

Inductive SynthCall :=
| CallOpenAI (apiKey model voice text : string) (speed : float64)
| CallElevenLabs (apiKey model voiceID text : string)
    (speed stability similarityBoost : float64)
| CallDeepgram (apiKey voiceModel text : string).

(** The observable events of a run, in the order they happen.  [ESynth]
    records the entry into one of the [synthesize*] functions with its
    arguments; the others are the effects on the outside. *)
Inductive event :=
| EStderr (msg : string)
| ESynth (call : SynthCall)
| EHttp (timeoutSeconds : Z) (req : Request) (res : HttpOutcome)
| EPlayAudio (data : bytes) (res : PlayOutcome)
| ESleep (milliseconds : Z)
| EWriteFile (path : string) (data : bytes) (perm : Z) (err : option string).

Definition trace := list event.

(** The collaborators the program calls and does not define.  Those whose
    answers may change from call to call take the history of the run. *)
Record World := {
  getenv : string -> string;
  stdin : Stdin;
  unicodeLower : string -> string;
  trimSpace : string -> string;
  newRequestError : string -> string -> option string;
  clientDo : trace -> Request -> HttpOutcome;
  audioDevice : trace -> bytes -> PlayOutcome;
  writeFile : trace -> string -> bytes -> Z -> option string
}.

(** ** The monad of the program *)

Inductive Outcome (A : Type) :=
| Done (a : A)
| Exited (code : Z).
Arguments Done {A} a.
Arguments Exited {A} code.

(** A computation reads the world and the history so far, and gives its
    outcome with the events it added. *)
Definition M (A : Type) : Type := World -> trace -> Outcome A * trace.

Definition ret {A} (a : A) : M A := fun _ _ => (Done a, []).

Definition bind {A B} (m : M A) (f : A -> M B) : M B :=
  fun w h =>
    match m w h with
    | (Done a, t1) =>
        match f a w (h ++ t1) with
        | (o, t2) => (o, t1 ++ t2)
        end
    | (Exited c, t1) => (Exited c, t1)
    end.

Notation "x <- m ;; k" := (bind m (fun x => k))
  (at level 100, m at next level, right associativity).
Notation "m ;;; k" := (bind m (fun _ => k))
  (at level 100, right associativity).

Definition emit (e : event) : M unit := fun _ _ => (Done tt, [e]).
Definition osExit {A} (code : Z) : M A := fun _ _ => (Exited code, []).
Definition ask {A} (f : World -> A) : M A := fun w _ => (Done (f w), []).
Definition stderr (msg : string) : M unit := emit (EStderr msg).
Definition sleep (ms : Z) : M unit := emit (ESleep ms).

Definition when (b : bool) (m : M unit) : M unit :=
  if b then m else ret tt.

Fixpoint forEach {A} (l : list A) (body : A -> M unit) : M unit :=
  match l with
  | [] => ret tt
  | x :: rest => body x ;;; forEach rest body
  end.

Fixpoint repeatM (n : nat) (m : M unit) : M unit :=
  match n with
  | O => ret tt
  | S k => m ;;; repeatM k m
  end.

Definition run {A} (w : World) (m : M A) : Outcome A * trace := m w [].

(** The exit status of the process: 0 when [main] returns. *)
Definition exitStatus {A} (o : Outcome A) : Z :=
  match o with
  | Done _ => 0
  | Exited c => c
  end.

(** ** Calls to the collaborators *)

Definition callHttp (timeoutSeconds : Z) (req : Request) : M HttpOutcome :=
  fun w h =>
    let res := clientDo w h req in
    (Done res, [EHttp timeoutSeconds req res]).

Definition callAudio (data : bytes) : M PlayOutcome :=
  fun w h =>
    let res := audioDevice w h data in
    (Done res, [EPlayAudio data res]).

Definition callWriteFile (path : string) (data : bytes) (perm : Z)
    : M (option string) :=
  fun w h =>
    let err := writeFile w h path data perm in
    (Done err, [EWriteFile path data perm err]).

(** The Go runtime reports a nil dereference on standard error and ends
    the process with status 2. *)
Definition nilPanic {A} : M A :=
  stderr ("panic: runtime error: invalid memory address or nil pointer dereference" +:+ nl) ;;;
  osExit 2.

(** [%d] of [fmt]. *)
Definition formatInt (n : Z) : string := NilEmpty.string_of_int (Z.to_int n).

(** ** The synthesize functions *)

(** A synthesis gives the audio bytes or an error message. *)
Definition SynthResult : Type := bytes + string.

(** How a response is read: a transport error, a status other than 200
    (an API error that carries the status and the body), or the body. *)
Definition interpretResponse (res : HttpOutcome) : SynthResult :=
  match res with
  | TransportError e => inr ("failed to make request: " +:+ e)
  | Response status body readErr =>
      if negb (status =? 200) then
        inr ("API error (" +:+ formatInt status +:+ "): "
             +:+ string_of_list_byte body)
      else
        match readErr with
        | Some e => inr e
        | None => inl body
        end
  end.

(** The tail shared by the three functions: a client with a 60 second
    timeout sends the request and the response is read. *)
Definition roundTrip (req : Request) : M SynthResult :=
  res <- callHttp 60 req ;;
  ret (interpretResponse res).

(** [http.NewRequest] followed by the two [Header.Set] calls. *)
Definition newRequest (url : string) (body : json)
    (authHeader authValue : string) : M (Request + string) :=
  err <- ask (fun w => newRequestError w "POST" url) ;;
  match err with
  | Some e => ret (inr ("failed to create request: " +:+ e))
  | None =>
      ret (inl {| req_method := "POST";
                  req_url := url;
                  req_headers := [("Content-Type", "application/json");
                                  (authHeader, authValue)];
                  req_body := body |})
  end.

Definition synthesizeOpenAI (apiKey model voice text : string)
    (speed : float64) : M SynthResult :=
  emit (ESynth (CallOpenAI apiKey model voice text speed)) ;;;
  let reqBody := {| oa_Model := model;
                    oa_Input := text;
                    oa_Voice := voice;
                    oa_ResponseFormat := "mp3";
                    oa_Speed := speed |} in
  match marshalOpenAI reqBody with
  | inr e => ret (inr ("failed to marshal request: " +:+ e))
  | inl jsonData =>
      r <- newRequest openAIAPIURL jsonData "Authorization" ("Bearer " +:+ apiKey) ;;
      match r with
      | inr e => ret (inr e)
      | inl req => roundTrip req
      end
  end.

Definition synthesizeElevenLabs (apiKey model voiceID text : string)
    (speed stability similarityBoost : float64) : M SynthResult :=
  emit (ESynth (CallElevenLabs apiKey model voiceID text
                  speed stability similarityBoost)) ;;;
  let reqBody := {| el_Text := text;
                    el_ModelID := model;
                    el_VoiceSettings :=
                      Some {| vs_Stability := stability;
                              vs_SimilarityBoost := similarityBoost;
                              vs_Style := f_zero;
                              vs_Speed := speed |} |} in
  match marshalElevenLabs reqBody with
  | inr e => ret (inr ("failed to marshal request: " +:+ e))
  | inl jsonData =>
      let url := elevenLabsAPIURL +:+ "/" +:+ voiceID
                 +:+ "?output_format=mp3_44100_128" in
      r <- newRequest url jsonData "xi-api-key" apiKey ;;
      match r with
      | inr e => ret (inr e)
      | inl req => roundTrip req
      end
  end.

Definition synthesizeDeepgram (apiKey voiceModel text : string)
    : M SynthResult :=
  emit (ESynth (CallDeepgram apiKey voiceModel text)) ;;;
  let reqBody := {| dg_Text := text |} in
  match marshalDeepgram reqBody with
  | inr e => ret (inr ("failed to marshal request: " +:+ e))
  | inl jsonData =>
      let url := deepgramAPIURL +:+ "?model=" +:+ voiceModel
                 +:+ "&encoding=mp3" in
      r <- newRequest url jsonData "Authorization" ("Token " +:+ apiKey) ;;
      match r with
      | inr e => ret (inr e)
      | inl req => roundTrip req
      end
  end.

(** ** playAudio *)

(** The buffer is decoded, an audio context is created, the player is
    started and polled every 10 ms until it stops. *)
Definition playAudio (audioData : bytes) : M (option string) :=
  res <- callAudio audioData ;;
  match res with
  | DecodeError e => ret (Some ("failed to decode MP3: " +:+ e))
  | ContextError e => ret (Some ("failed to create audio context: " +:+ e))
  | Played polls => repeatM polls (sleep 10) ;;; ret None
  end.

(** ** main *)

(** The lines of [flag.Usage], one per [Fprintf]. *)
Definition usageLines : list string :=
  [ "gospeak - Text-to-speech using OpenAI, ElevenLabs, or Deepgram TTS API" +:+ nl +:+ nl;
    "Usage: gospeak [options] [text]" +:+ nl;
    "       echo 'text' | gospeak [options]" +:+ nl +:+ nl;
    "Options:" +:+ nl;
    "  -p, --provider    TTS provider: openai, elevenlabs, deepgram (default: openai)" +:+ nl;
    "  -v, --voice       Voice to use (see below for options)" +:+ nl;
    "  -m, --model       Model to use" +:+ nl;
    "  -o, --output      Save audio to this file" +:+ nl;
    "  -x, --speed       Speed of the voice (default: 1.0)" +:+ nl;
    "  -s, --speak       Speak the text even when saving to a file" +:+ nl;
    "      --token       API key (or set env var)" +:+ nl;
    "      --all         Speak with all voices (OpenAI only)" +:+ nl;
    "      --stability   Voice stability, 0.0-1.0 (ElevenLabs only)" +:+ nl;
    "      --similarity  Similarity boost, 0.0-1.0 (ElevenLabs only)" +:+ nl;
    "  -h, --help        Show this help message" +:+ nl +:+ nl;
    "OpenAI:" +:+ nl;
    "  Env var: OPENAI_API_KEY" +:+ nl;
    "  Voices:  alloy, echo, fable, onyx, nova, shimmer" +:+ nl;
    "  Models:  tts-1, tts-1-hd (default: tts-1-hd)" +:+ nl;
    "  Speed:   0.25 to 4.0" +:+ nl +:+ nl;
    "ElevenLabs:" +:+ nl;
    "  Env var: ELEVENLABS_API_KEY" +:+ nl;
    "  Voices:  rachel, domi, bella, antoni, elli, josh, arnold," +:+ nl;
    "           adam, sam, george, charlie, emily, lily, michael" +:+ nl;
    "           (or use a voice_id directly)" +:+ nl;
    "  Models:  eleven_multilingual_v2 (default), eleven_turbo_v2_5," +:+ nl;
    "           eleven_turbo_v2, eleven_monolingual_v1" +:+ nl;
    "  Speed:   0.7 to 1.2" +:+ nl +:+ nl;
    "Deepgram:" +:+ nl;
    "  Env var: DEEPGRAM_API_KEY" +:+ nl;
    "  Voices:  asteria (default), luna, stella, athena, hera, orion," +:+ nl;
    "           arcas, perseus, angus, orpheus, helios, zeus" +:+ nl;
    "           Aura 2: thalia, andromeda, helena, jason, apollo, ares" +:+ nl;
    "           (or use a model name directly like aura-asteria-en)" +:+ nl;
    "  Note:    Speed adjustment not supported" +:+ nl +:+ nl;
    "Examples:" +:+ nl;
    "  gospeak " +:+ dquote +:+ "Hello, world!" +:+ dquote +:+ nl;
    "  gospeak -p elevenlabs -v rachel " +:+ dquote +:+ "Hello from ElevenLabs" +:+ dquote +:+ nl;
    "  gospeak -p deepgram -v asteria " +:+ dquote +:+ "Hello from Deepgram" +:+ dquote +:+ nl;
    "  echo " +:+ dquote +:+ "Hello" +:+ dquote +:+ " | gospeak -v nova" +:+ nl;
    "  gospeak -o output.mp3 " +:+ dquote +:+ "Save this to a file" +:+ dquote +:+ nl ].

Definition Usage : M unit := forEach usageLines stderr.

(** The variables that [flag.Parse] fills, and the positional arguments. *)
Record Flags := {
  flagProvider : string;
  flagVoice : string;
  flagModel : string;
  flagOutput : string;
  flagSpeed : float64;
  flagSpeak : bool;
  flagToken : string;
  flagHelp : bool;
  flagAll : bool;
  flagStability : float64;
  flagSimilarity : float64;
  flagArgs : list string
}.

(** The values the flags have when the command line sets none of them. *)
Definition defaultFlags (args : list string) : Flags :=
  {| flagProvider := defaultProvider;
     flagVoice := EmptyString;
     flagModel := EmptyString;
     flagOutput := EmptyString;
     flagSpeed := defaultSpeed;
     flagSpeak := false;
     flagToken := EmptyString;
     flagHelp := false;
     flagAll := false;
     flagStability := f_0_5;
     flagSimilarity := f_0_75;
     flagArgs := args |}.

Definition isEmpty (s : string) : bool := String.eqb s EmptyString.

Definition isProvider (provider : string) : bool :=
  String.eqb provider "openai" || String.eqb provider "elevenlabs"
  || String.eqb provider "deepgram".

(** The [switch provider] statements of [main]: one value per case, and
    [other] when no case matches. *)
Definition switchProvider {A} (provider : string)
    (openai elevenlabs deepgram other : A) : A :=
  if String.eqb provider "openai" then openai
  else if String.eqb provider "elevenlabs" then elevenlabs
  else if String.eqb provider "deepgram" then deepgram
  else other.

Definition defaultVoice (provider voice : string) : string :=
  if isEmpty voice then
    switchProvider provider defaultOpenAIVoice defaultElevenLabsVoice
      defaultDeepgramVoice voice
  else voice.

Definition defaultModel (provider model : string) : string :=
  if isEmpty model then
    switchProvider provider defaultOpenAIModel defaultElevenLabsModel
      EmptyString model
  else model.

Definition envVars : gmap string string :=
  list_to_map [("openai", "OPENAI_API_KEY");
               ("elevenlabs", "ELEVENLABS_API_KEY");
               ("deepgram", "DEEPGRAM_API_KEY")].

(** [envVars[provider]]: the zero value when the key is missing. *)
Definition envVarOf (provider : string) : string :=
  default EmptyString (envVars !! provider).

(** The key: the token when given, else the provider's variable. *)
Definition getAPIKey (provider token : string) : M string :=
  if isEmpty token then
    env <- ask getenv ;;
    ret (switchProvider provider (env "OPENAI_API_KEY")
           (env "ELEVENLABS_API_KEY") (env "DEEPGRAM_API_KEY") token)
  else ret token.

Definition validateSpeed (provider : string) (speed : float64) : M unit :=
  switchProvider provider
    (when (Float64.lt speed f_0_25 || Float64.gt speed f_4_0)
       (stderr ("Error: Speed must be between 0.25 and 4.0 for OpenAI" +:+ nl) ;;;
        osExit 1))
    (when (Float64.lt speed f_0_7 || Float64.gt speed f_1_2)
       (stderr ("Error: Speed must be between 0.7 and 1.2 for ElevenLabs" +:+ nl) ;;;
        osExit 1))
    (when (Float64.ne speed defaultSpeed)
       (stderr ("Warning: Speed adjustment is not supported for Deepgram, ignoring" +:+ nl)))
    (ret tt).

(** The text: the arguments joined by a space, else standard input when it
    is not a terminal, trimmed. *)
Definition getText (args : list string) : M string :=
  match args with
  | _ :: _ => ret (Join args " ")
  | [] =>
      s <- ask stdin ;;
      match s with
      | StatFails => nilPanic
      | CharDevice => ret EmptyString
      | Piped data (Some e) =>
          stderr ("Error reading stdin: " +:+ e +:+ nl) ;;; osExit 1
      | Piped data None =>
          trim <- ask trimSpace ;;
          ret (trim (string_of_list_byte data))
      end
  end.

(** One iteration of the [--all] loop; every [continue] of the source ends
    the iteration. *)
Definition speakVoice (apiKey model text : string) (speed : float64)
    (v : string) : M unit :=
  stderr ("Speaking with voice: " +:+ v +:+ nl) ;;;
  r <- synthesizeOpenAI apiKey model v v speed ;;
  match r with
  | inr e => stderr ("Error synthesizing voice announcement: " +:+ e +:+ nl)
  | inl audioData =>
      p <- playAudio audioData ;;
      match p with
      | Some e => stderr ("Error playing audio: " +:+ e +:+ nl)
      | None =>
          sleep 500 ;;;
          r2 <- synthesizeOpenAI apiKey model v text speed ;;
          match r2 with
          | inr e => stderr ("Error synthesizing: " +:+ e +:+ nl)
          | inl audioData2 =>
              p2 <- playAudio audioData2 ;;
              match p2 with
              | Some e => stderr ("Error playing audio: " +:+ e +:+ nl)
              | None => ret tt
              end ;;;
              sleep 1000
          end
      end
  end.

(** The [--all] branch. *)
Definition speakAll (provider apiKey model text : string) (speed : float64)
    : M unit :=
  when (negb (String.eqb provider "openai"))
    (stderr ("Error: --all flag is only supported for OpenAI provider" +:+ nl) ;;;
     osExit 1) ;;;
  forEach openAIVoices (speakVoice apiKey model text speed).

(** The [switch provider] that synthesizes in single-shot mode. *)
Definition synthesize (provider apiKey model voice text : string)
    (speed stability similarityBoost : float64) : M SynthResult :=
  switchProvider provider
    (when (negb (isValidOpenAIVoice voice))
       (stderr ("Error: Invalid OpenAI voice '" +:+ voice +:+ "'. Valid voices: "
                +:+ Join openAIVoices ", " +:+ nl) ;;;
        osExit 1) ;;;
     synthesizeOpenAI apiKey model voice text speed)
    (lower <- ask unicodeLower ;;
     let voiceID := resolveElevenLabsVoice lower voice in
     synthesizeElevenLabs apiKey model voiceID text speed stability similarityBoost)
    (lower <- ask unicodeLower ;;
     let voiceModel := resolveDeepgramVoice lower voice in
     synthesizeDeepgram apiKey voiceModel text)
    (ret (inl [])).

(** Saving and playing the audio of a single-shot run. *)
Definition deliver (output : string) (speak : bool) (audioData : bytes)
    : M unit :=
  when (negb (isEmpty output))
    (err <- callWriteFile output audioData 420 ;;
     match err with
     | Some e => stderr ("Error saving file: " +:+ e +:+ nl) ;;; osExit 1
     | None => stderr ("Saved to " +:+ output +:+ nl)
     end) ;;;
  when (isEmpty output || speak)
    (err <- playAudio audioData ;;
     match err with
     | Some e => stderr ("Error playing audio: " +:+ e +:+ nl) ;;; osExit 1
     | None => ret tt
     end).

(** The single-shot branch: synthesize, then save and play. *)
Definition speakOnce (provider apiKey model voice text : string)
    (speed stability similarityBoost : float64) (output : string)
    (speak : bool) : M unit :=
  r <- synthesize provider apiKey model voice text speed
         stability similarityBoost ;;
  match r with
  | inr e => stderr ("Error synthesizing speech: " +:+ e +:+ nl) ;;; osExit 1
  | inl audioData => deliver output speak audioData
  end.

Definition main (c : Flags) : M unit :=
  when (flagHelp c) (Usage ;;; osExit 0) ;;;
  lower <- ask unicodeLower ;;
  let provider := ToLower lower (flagProvider c) in
  when (negb (isProvider provider))
    (stderr ("Error: Invalid provider '" +:+ provider
             +:+ "'. Use 'openai', 'elevenlabs', or 'deepgram'" +:+ nl) ;;;
     osExit 1) ;;;
  let voice := defaultVoice provider (flagVoice c) in
  let model := defaultModel provider (flagModel c) in
  apiKey <- getAPIKey provider (flagToken c) ;;
  when (isEmpty apiKey)
    (stderr ("Error: " +:+ envVarOf provider
             +:+ " environment variable not set and --token not provided" +:+ nl) ;;;
     osExit 1) ;;;
  validateSpeed provider (flagSpeed c) ;;;
  text <- getText (flagArgs c) ;;
  when (isEmpty text)
    (stderr ("Error: No text provided" +:+ nl) ;;; Usage ;;; osExit 1) ;;;
  if flagAll c then
    speakAll provider apiKey model text (flagSpeed c)
  else
    speakOnce provider apiKey model voice text (flagSpeed c)
      (flagStability c) (flagSimilarity c) (flagOutput c) (flagSpeak c).

(** ** What a run is made of

    The values [main] computes before it synthesizes, as functions of the
    world and the flags, and the observations made on a trace. *)

Definition providerOf (w : World) (c : Flags) : string :=
  ToLower (unicodeLower w) (flagProvider c).

Definition voiceOf (w : World) (c : Flags) : string :=
  defaultVoice (providerOf w c) (flagVoice c).

Definition modelOf (w : World) (c : Flags) : string :=
  defaultModel (providerOf w c) (flagModel c).

Definition apiKeyOf (w : World) (c : Flags) : string :=
  if isEmpty (flagToken c) then
    switchProvider (providerOf w c) (getenv w "OPENAI_API_KEY")
      (getenv w "ELEVENLABS_API_KEY") (getenv w "DEEPGRAM_API_KEY")
      (flagToken c)
  else flagToken c.

(** The speed passes the validation of the provider. *)
Definition speedAccepted (provider : string) (speed : float64) : bool :=
  switchProvider provider
    (negb (Float64.lt speed f_0_25 || Float64.gt speed f_4_0))
    (negb (Float64.lt speed f_0_7 || Float64.gt speed f_1_2))
    true true.

Definition speedWarning : string :=
  "Warning: Speed adjustment is not supported for Deepgram, ignoring" +:+ nl.

(** The events a passed speed validation leaves behind. *)
Definition speedEvents (provider : string) (speed : float64) : trace :=
  switchProvider provider [] []
    (if Float64.ne speed defaultSpeed then [EStderr speedWarning] else [])
    [].

(** The text [main] obtains when reading it does not end the process. *)
Definition textOf (w : World) (c : Flags) : option string :=
  match flagArgs c with
  | _ :: _ => Some (Join (flagArgs c) " ")
  | [] =>
      match stdin w with
      | CharDevice => Some EmptyString
      | Piped data None => Some (trimSpace w (string_of_list_byte data))
      | _ => None
      end
  end.

Definition hasText (w : World) (c : Flags) : bool :=
  match textOf w c with
  | Some text => negb (isEmpty text)
  | None => false
  end.

(** The invocation passes every check made before synthesis starts: no
    help request, a known provider, a key, a legal speed and a text. *)
Definition checked (w : World) (c : Flags) : bool :=
  negb (flagHelp c)
  && isProvider (providerOf w c)
  && negb (isEmpty (apiKeyOf w c))
  && speedAccepted (providerOf w c) (flagSpeed c)
  && hasText w c.

(** The checks other than the one on the speed. *)
Definition checkedButSpeed (w : World) (c : Flags) : bool :=
  negb (flagHelp c)
  && isProvider (providerOf w c)
  && negb (isEmpty (apiKeyOf w c))
  && hasText w c.

Definition isStderr (e : event) : bool :=
  match e with EStderr _ => true | _ => false end.

Fixpoint synthCalls (t : trace) : list SynthCall :=
  match t with
  | [] => []
  | ESynth call :: rest => call :: synthCalls rest
  | _ :: rest => synthCalls rest
  end.

Fixpoint httpRequests (t : trace) : list Request :=
  match t with
  | [] => []
  | EHttp _ req _ :: rest => req :: httpRequests rest
  | _ :: rest => httpRequests rest
  end.

(** The buffers that were played to the end. *)
Fixpoint played (t : trace) : list bytes :=
  match t with
  | [] => []
  | EPlayAudio data (Played _) :: rest => data :: played rest
  | _ :: rest => played rest
  end.

(** The files that were written. *)
Fixpoint written (t : trace) : list (string * bytes) :=
  match t with
  | [] => []
  | EWriteFile path data _ None :: rest => (path, data) :: written rest
  | _ :: rest => written rest
  end.

(** The audio buffers the providers returned. *)
Fixpoint received (t : trace) : list bytes :=
  match t with
  | [] => []
  | EHttp _ _ res :: rest =>
      match interpretResponse res with
      | inl body => body :: received rest
      | inr _ => received rest
      end
  | _ :: rest => received rest
  end.

(** A playback or a file output that failed. *)
Definition isSinkFailure (e : event) : bool :=
  match e with
  | EPlayAudio _ (DecodeError _) => true
  | EPlayAudio _ (ContextError _) => true
  | EWriteFile _ _ _ (Some _) => true
  | _ => false
  end.

(** The two attempts of the [--all] loop for one voice. *)
Definition announcement (apiKey model : string) (speed : float64)
    (v : string) : SynthCall :=
  CallOpenAI apiKey model v v speed.

Definition utterance (apiKey model text : string) (speed : float64)
    (v : string) : SynthCall :=
  CallOpenAI apiKey model v text speed.

(** The attempts for a list of voices, given for each voice whether its
    announcement was synthesized and played. *)
Fixpoint attempts (apiKey model text : string) (speed : float64)
    (voices : list string) (announced : list bool) : list SynthCall :=
  match voices, announced with
  | v :: vs, ok :: oks =>
      announcement apiKey model speed v
      :: (if ok then [utterance apiKey model text speed v] else [])
      ++ attempts apiKey model text speed vs oks
  | _, _ => []
  end.

(** The part of a demo-all trace that belongs to one voice: the
    announcement is attempted; the utterance is attempted exactly when the
    announcement was received and played, and nothing is played otherwise. *)
Definition voiceSegment (apiKey model text : string) (speed : float64)
    (v : string) (seg : trace) : Prop :=
  exists ok : bool,
    synthCalls seg
    = announcement apiKey model speed v
      :: (if ok then [utterance apiKey model text speed v] else [])
    /\ (if ok
        then exists audio,
               head (received seg) = Some audio /\ head (played seg) = Some audio
        else played seg = []).

Definition setVoice (c : Flags) (voice : string) : Flags :=
  {| flagProvider := flagProvider c;
     flagVoice := voice;
     flagModel := flagModel c;
     flagOutput := flagOutput c;
     flagSpeed := flagSpeed c;
     flagSpeak := flagSpeak c;
     flagToken := flagToken c;
     flagHelp := flagHelp c;
     flagAll := flagAll c;
     flagStability := flagStability c;
     flagSimilarity := flagSimilarity c;
     flagArgs := flagArgs c |}.

Definition setGetenv (w : World) (env : string -> string) : World :=
  {| getenv := env;
     stdin := stdin w;
     unicodeLower := unicodeLower w;
     trimSpace := trimSpace w;
     newRequestError := newRequestError w;
     clientDo := clientDo w;
     audioDevice := audioDevice w;
     writeFile := writeFile w |}.

(** The request [synthesizeDeepgram] builds. *)
Definition deepgramRequest (apiKey voiceModel text : string) : Request :=
  {| req_method := "POST";
     req_url := deepgramAPIURL +:+ "?model=" +:+ voiceModel +:+ "&encoding=mp3";
     req_headers := [("Content-Type", "application/json");
                     ("Authorization", "Token " +:+ apiKey)];
     req_body := JObject [("text", JString text)] |}.

(** The request [synthesizeElevenLabs] builds around an encoded body. *)
Definition elevenLabsRequest (apiKey voiceID : string) (body : json) : Request :=
  {| req_method := "POST";
     req_url := elevenLabsAPIURL +:+ "/" +:+ voiceID
                +:+ "?output_format=mp3_44100_128";
     req_headers := [("Content-Type", "application/json");
                     ("xi-api-key", apiKey)];
     req_body := body |}.

(** ASCII strings equal up to the case of their letters. *)
Fixpoint equalFold (a b : string) : bool :=
  match a, b with
  | EmptyString, EmptyString => true
  | String x r, String y s =>
      isASCIIChar x && isASCIIChar y
      && Ascii.eqb (lowerChar x) (lowerChar y) && equalFold r s
  | _, _ => false
  end.

(** ** Shapes of the traces *)

(** What a call of a synthesize function leaves behind: the call alone
    when no request could be built, else the call and the exchange, whose
    reading is the result. *)
Inductive synthRun (call : SynthCall) : SynthResult -> trace -> Prop :=
| synth_unsent (e : string) :
    synthRun call (inr e) [ESynth call]
| synth_sent (req : Request) (res : HttpOutcome) :
    synthRun call (interpretResponse res) [ESynth call; EHttp 60 req res].

(** What [playAudio] leaves behind. *)
Inductive playRun (data : bytes) : option string -> trace -> Prop :=
| play_done (polls : nat) :
    playRun data None
      (EPlayAudio data (Played polls) :: repeat (ESleep 10) polls)
| play_undecoded (e : string) :
    playRun data (Some ("failed to decode MP3: " +:+ e))
      [EPlayAudio data (DecodeError e)]
| play_no_context (e : string) :
    playRun data (Some ("failed to create audio context: " +:+ e))
      [EPlayAudio data (ContextError e)].

(** The process ends with a status other than 0 and nothing but messages
    on standard error happened: no request was built, none was sent. *)
Definition fatalBeforeDispatch (r : Outcome unit * trace) : Prop :=
  exists code msgs,
    code <> 0 /\ msgs <> [] /\ r = (Exited code, map EStderr msgs).

(** A world in which no request, no exchange and no playback fails. *)
Definition reliable (w : World) : Prop :=
  (forall url, newRequestError w "POST" url = None)
  /\ (forall h req, exists body, clientDo w h req = Response 200 body None)
  /\ (forall h data, exists polls, audioDevice w h data = Played polls).

(** Speeds inside and strictly outside a closed interval. *)
Definition within (lo hi s : float64) : Prop :=
  Float64.le lo s = true /\ Float64.le s hi = true.

Definition outside (lo hi s : float64) : Prop :=
  Float64.lt s lo = true \/ Float64.gt s hi = true.

(** ** Sample worlds and invocations *)

(** Every collaborator succeeds; the OpenAI key is in the environment. *)
Definition calmWorld : World :=
  {| getenv := fun name =>
       if String.eqb name "OPENAI_API_KEY" then "sk-env" else EmptyString;
     stdin := CharDevice;
     unicodeLower := fun s => s;
     trimSpace := fun s => s;
     newRequestError := fun _ _ => None;
     clientDo := fun _ _ => Response 200 [x49; x44; x33] None;
     audioDevice := fun _ _ => Played 0;
     writeFile := fun _ _ _ _ => None |}.

(** As [calmWorld], with no key in the environment. *)
Definition bareWorld : World :=
  setGetenv calmWorld (fun _ => EmptyString).

(** As [calmWorld], but the network is unreachable. *)
Definition offlineWorld : World :=
  {| getenv := getenv calmWorld;
     stdin := stdin calmWorld;
     unicodeLower := unicodeLower calmWorld;
     trimSpace := trimSpace calmWorld;
     newRequestError := newRequestError calmWorld;
     clientDo := fun _ _ => TransportError "dial tcp: no route to host";
     audioDevice := audioDevice calmWorld;
     writeFile := writeFile calmWorld |}.

Definition withFlags (provider voice output token : string)
    (speed : float64) (speak all : bool) (args : list string) : Flags :=
  {| flagProvider := provider;
     flagVoice := voice;
     flagModel := EmptyString;
     flagOutput := output;
     flagSpeed := speed;
     flagSpeak := speak;
     flagToken := token;
     flagHelp := false;
     flagAll := all;
     flagStability := f_0_5;
     flagSimilarity := f_0_75;
     flagArgs := args |}.

(** [gospeak --all Hello] *)
Definition demoAll : Flags :=
  withFlags "openai" EmptyString EmptyString EmptyString f_1_0 false true ["Hello"].

(** [gospeak --all -v nosuchvoice Hello] *)
Definition demoAllOddVoice : Flags := setVoice demoAll "nosuchvoice".

(** [gospeak -p elevenlabs --token xi-token --all Hello] *)
Definition demoAllElevenLabs : Flags :=
  withFlags "elevenlabs" EmptyString EmptyString "xi-token" f_1_0 false true ["Hello"].

(** [gospeak -p elevenlabs -x 1.5 Hi], with 1.5 the float [3 * 2^-1]. *)
Definition tooFastElevenLabs : Flags :=
  withFlags "elevenlabs" EmptyString EmptyString "xi-token"
    (S754_finite false 6755399441055744 (-52)) false false ["Hi"].

(** [gospeak Hello world] *)
Definition helloWorld : Flags := defaultFlags ["Hello"; "world"].

(** [gospeak -v ALLOY Hi] *)
Definition shoutedVoice : Flags :=
  withFlags "openai" "ALLOY" EmptyString EmptyString f_1_0 false false ["Hi"].

(** [gospeak -p elevenlabs -v nonexistent-preset --token xi-token Hi] *)
Definition rawVoice : Flags :=
  withFlags "elevenlabs" "nonexistent-preset" EmptyString "xi-token" f_1_0
    false false ["Hi"].

(** [gospeak -p deepgram -x 2.0 --token dg-token -v Luna Hi] *)
Definition fastDeepgram : Flags :=
  withFlags "deepgram" "Luna" EmptyString "dg-token" f_2_0 false false ["Hi"].

(** [gospeak -x 5 Hi], with 5 the float [5 * 2^0] written on 53 bits. *)
Definition tooFast : Flags :=
  withFlags "openai" EmptyString EmptyString EmptyString
    (S754_finite false 5629499534213120 (-50)) false false ["Hi"].

(** [gospeak -o out.mp3 Hi] and [gospeak -o out.mp3 -s Hi] *)
Definition saveOnly : Flags :=
  withFlags "openai" EmptyString "out.mp3" EmptyString f_1_0 false false ["Hi"].
Definition saveAndSpeak : Flags :=
  withFlags "openai" EmptyString "out.mp3" EmptyString f_1_0 true false ["Hi"].

(** ** Further observations and variations of an invocation *)

Definition setProvider (c : Flags) (provider : string) : Flags :=
  {| flagProvider := provider;
     flagVoice := flagVoice c;
     flagModel := flagModel c;
     flagOutput := flagOutput c;
     flagSpeed := flagSpeed c;
     flagSpeak := flagSpeak c;
     flagToken := flagToken c;
     flagHelp := flagHelp c;
     flagAll := flagAll c;
     flagStability := flagStability c;
     flagSimilarity := flagSimilarity c;
     flagArgs := flagArgs c |}.

Definition setModel (c : Flags) (model : string) : Flags :=
  {| flagProvider := flagProvider c;
     flagVoice := flagVoice c;
     flagModel := model;
     flagOutput := flagOutput c;
     flagSpeed := flagSpeed c;
     flagSpeak := flagSpeak c;
     flagToken := flagToken c;
     flagHelp := flagHelp c;
     flagAll := flagAll c;
     flagStability := flagStability c;
     flagSimilarity := flagSimilarity c;
     flagArgs := flagArgs c |}.

Definition setTuning (c : Flags) (stability similarity : float64) : Flags :=
  {| flagProvider := flagProvider c;
     flagVoice := flagVoice c;
     flagModel := flagModel c;
     flagOutput := flagOutput c;
     flagSpeed := flagSpeed c;
     flagSpeak := flagSpeak c;
     flagToken := flagToken c;
     flagHelp := flagHelp c;
     flagAll := flagAll c;
     flagStability := stability;
     flagSimilarity := similarity;
     flagArgs := flagArgs c |}.

Definition setSinks (c : Flags) (output : string) (speak : bool) : Flags :=
  {| flagProvider := flagProvider c;
     flagVoice := flagVoice c;
     flagModel := flagModel c;
     flagOutput := output;
     flagSpeed := flagSpeed c;
     flagSpeak := speak;
     flagToken := flagToken c;
     flagHelp := flagHelp c;
     flagAll := flagAll c;
     flagStability := flagStability c;
     flagSimilarity := flagSimilarity c;
     flagArgs := flagArgs c |}.

Definition setSpeed (c : Flags) (speed : float64) : Flags :=
  {| flagProvider := flagProvider c;
     flagVoice := flagVoice c;
     flagModel := flagModel c;
     flagOutput := flagOutput c;
     flagSpeed := speed;
     flagSpeak := flagSpeak c;
     flagToken := flagToken c;
     flagHelp := flagHelp c;
     flagAll := flagAll c;
     flagStability := flagStability c;
     flagSimilarity := flagSimilarity c;
     flagArgs := flagArgs c |}.

Definition setStdin (w : World) (input : Stdin) : World :=
  {| getenv := getenv w;
     stdin := input;
     unicodeLower := unicodeLower w;
     trimSpace := trimSpace w;
     newRequestError := newRequestError w;
     clientDo := clientDo w;
     audioDevice := audioDevice w;
     writeFile := writeFile w |}.

(** Every buffer handed to the audio device, played or not. *)
Fixpoint playbacks (t : trace) : list bytes :=
  match t with
  | [] => []
  | EPlayAudio data _ :: rest => data :: playbacks rest
  | _ :: rest => playbacks rest
  end.

(** Every file output that was attempted. *)
Fixpoint fileOutputs (t : trace) : list (string * bytes * Z) :=
  match t with
  | [] => []
  | EWriteFile path data perm _ :: rest => (path, data, perm) :: fileOutputs rest
  | _ :: rest => fileOutputs rest
  end.

(** The events other than the messages on standard error. *)
Fixpoint effects (t : trace) : trace :=
  match t with
  | [] => []
  | EStderr _ :: rest => effects rest
  | e :: rest => e :: effects rest
  end.

(** The messages on standard error. *)
Fixpoint messages (t : trace) : list string :=
  match t with
  | [] => []
  | EStderr msg :: rest => msg :: messages rest
  | _ :: rest => messages rest
  end.

Definition keyOfCall (call : SynthCall) : string :=
  match call with
  | CallOpenAI apiKey _ _ _ _ => apiKey
  | CallElevenLabs apiKey _ _ _ _ _ _ => apiKey
  | CallDeepgram apiKey _ _ => apiKey
  end.

(** The request [synthesizeOpenAI] builds for a speed that can be encoded. *)
Definition openAIRequest (apiKey model voice text : string) (speed : float64)
    : Request :=
  {| req_method := "POST";
     req_url := openAIAPIURL;
     req_headers := [("Content-Type", "application/json");
                     ("Authorization", "Bearer " +:+ apiKey)];
     req_body := JObject [("model", JString model);
                          ("input", JString text);
                          ("voice", JString voice);
                          ("response_format", JString "mp3");
                          ("speed", JNumber speed)] |}.

(** The names of the fields of a JSON object. *)
Definition fieldNames (j : json) : list string :=
  match j with
  | JObject fields => map fst fields
  | _ => []
  end.

(** The field of a JSON object with a given name. *)
Fixpoint fieldOf (name : string) (fields : list (string * json)) : option json :=
  match fields with
  | [] => None
  | (n, v) :: rest => if String.eqb n name then Some v else fieldOf name rest
  end.


(** ** The first revision: OpenAI only

    [main.go] starts with the program as it was before other providers
    were added.  Its [playAudio] is the function above, unchanged; the
    request type [TTSRequest] has the fields and tags of
    [OpenAITTSRequest]. *)

Module V1.

Definition defaultVoice : string := "alloy".
Definition defaultModel : string := "tts-1-hd".
Definition apiURL : string := "https://api.openai.com/v1/audio/speech".

Definition validVoices : list string :=
  ["alloy"; "echo"; "fable"; "onyx"; "nova"; "shimmer"].

Record Flags := {
  flagVoice : string;
  flagModel : string;
  flagOutput : string;
  flagSpeed : float64;
  flagSpeak : bool;
  flagToken : string;
  flagHelp : bool;
  flagAll : bool;
  flagArgs : list string
}.

(** The values the flags have when the command line sets none of them. *)
Definition defaultFlags (args : list string) : Flags :=
  {| flagVoice := defaultVoice;
     flagModel := defaultModel;
     flagOutput := EmptyString;
     flagSpeed := defaultSpeed;
     flagSpeak := false;
     flagToken := EmptyString;
     flagHelp := false;
     flagAll := false;
     flagArgs := args |}.

(** The lines of [flag.Usage], one per [Fprintf]. *)
Definition usageLines : list string :=
  [ "gospeak - Text-to-speech using OpenAI's TTS API" +:+ nl +:+ nl;
    "Usage: gospeak [options] [text]" +:+ nl;
    "       echo 'text' | gospeak [options]" +:+ nl +:+ nl;
    "Options:" +:+ nl;
    "  -v, --voice    Voice to use: alloy, echo, fable, onyx, nova, shimmer (default: alloy)" +:+ nl;
    "  -m, --model    Model to use: tts-1, tts-1-hd (default: tts-1)" +:+ nl;
    "  -o, --output   Save audio to this file" +:+ nl;
    "  -x, --speed    Speed of the voice, 0.25 to 4.0 (default: 1.0)" +:+ nl;
    "  -s, --speak    Speak the text even when saving to a file" +:+ nl;
    "      --token    OpenAI API key (or set OPENAI_API_KEY env var)" +:+ nl;
    "      --all      Speak with all voices (announces each voice first)" +:+ nl;
    "  -h, --help     Show this help message" +:+ nl +:+ nl;
    "Examples:" +:+ nl;
    "  gospeak " +:+ dquote +:+ "Hello, world!" +:+ dquote +:+ nl;
    "  echo " +:+ dquote +:+ "Hello" +:+ dquote +:+ " | gospeak -v nova" +:+ nl;
    "  gospeak -o output.mp3 " +:+ dquote +:+ "Save this to a file" +:+ dquote +:+ nl ].

Definition Usage : M unit := forEach usageLines stderr.

Definition isValidVoice (voice : string) : bool :=
  isValidVoiceIn validVoices voice.

Definition synthesize (apiKey model voice text : string) (speed : float64)
    : M SynthResult :=
  emit (ESynth (CallOpenAI apiKey model voice text speed)) ;;;
  let reqBody := {| oa_Model := model;
                    oa_Input := text;
                    oa_Voice := voice;
                    oa_ResponseFormat := "mp3";
                    oa_Speed := speed |} in
  match marshalOpenAI reqBody with
  | inr e => ret (inr ("failed to marshal request: " +:+ e))
  | inl jsonData =>
      r <- newRequest apiURL jsonData "Authorization" ("Bearer " +:+ apiKey) ;;
      match r with
      | inr e => ret (inr e)
      | inl req => roundTrip req
      end
  end.

(** One iteration of the [--all] loop. *)
Definition speakVoice (apiKey model text : string) (speed : float64)
    (v : string) : M unit :=
  stderr ("Speaking with voice: " +:+ v +:+ nl) ;;;
  r <- synthesize apiKey model v v speed ;;
  match r with
  | inr e => stderr ("Error synthesizing voice announcement: " +:+ e +:+ nl)
  | inl audioData =>
      p <- playAudio audioData ;;
      match p with
      | Some e => stderr ("Error playing audio: " +:+ e +:+ nl)
      | None =>
          sleep 500 ;;;
          r2 <- synthesize apiKey model v text speed ;;
          match r2 with
          | inr e => stderr ("Error synthesizing: " +:+ e +:+ nl)
          | inl audioData2 =>
              p2 <- playAudio audioData2 ;;
              match p2 with
              | Some e => stderr ("Error playing audio: " +:+ e +:+ nl)
              | None => ret tt
              end ;;;
              sleep 1000
          end
      end
  end.

(** The part of [main] after the [--all] branch: the voice is checked, the
    text synthesized, the audio saved and played. *)
Definition speakOnce (apiKey model voice text : string) (speed : float64)
    (output : string) (speak : bool) : M unit :=
  when (negb (isValidVoice voice))
    (stderr ("Error: Invalid voice '" +:+ voice +:+ "'. Valid voices: "
             +:+ Join validVoices ", " +:+ nl) ;;;
     osExit 1) ;;;
  r <- synthesize apiKey model voice text speed ;;
  match r with
  | inr e => stderr ("Error synthesizing speech: " +:+ e +:+ nl) ;;; osExit 1
  | inl audioData => deliver output speak audioData
  end.

Definition main (c : Flags) : M unit :=
  when (flagHelp c) (Usage ;;; osExit 0) ;;;
  env <- ask getenv ;;
  let apiKey := if isEmpty (flagToken c) then env "OPENAI_API_KEY"
                else flagToken c in
  when (isEmpty apiKey)
    (stderr ("Error: OPENAI_API_KEY environment variable not set and --token not provided"
             +:+ nl) ;;;
     osExit 1) ;;;
  when (Float64.lt (flagSpeed c) f_0_25 || Float64.gt (flagSpeed c) f_4_0)
    (stderr ("Error: Speed must be between 0.25 and 4.0" +:+ nl) ;;; osExit 1) ;;;
  text <- getText (flagArgs c) ;;
  when (isEmpty text)
    (stderr ("Error: No text provided" +:+ nl) ;;; Usage ;;; osExit 1) ;;;
  if flagAll c then
    forEach validVoices (speakVoice apiKey (flagModel c) text (flagSpeed c))
  else
    speakOnce apiKey (flagModel c) (flagVoice c) text (flagSpeed c)
      (flagOutput c) (flagSpeak c).

End V1.

(** The flags of the last revision that stand for a command line of the
    first: the provider and the ElevenLabs settings keep their defaults. *)
Definition upgrade (c : V1.Flags) : Flags :=
  {| flagProvider := defaultProvider;
     flagVoice := V1.flagVoice c;
     flagModel := V1.flagModel c;
     flagOutput := V1.flagOutput c;
     flagSpeed := V1.flagSpeed c;
     flagSpeak := V1.flagSpeak c;
     flagToken := V1.flagToken c;
     flagHelp := V1.flagHelp c;
     flagAll := V1.flagAll c;
     flagStability := f_0_5;
     flagSimilarity := f_0_75;
     flagArgs := V1.flagArgs c |}.

(** ** The second revision: OpenAI and ElevenLabs

    The middle part of [main.go] has the flags, the tables and the
    functions of the last revision, Deepgram apart; only [main] differs. *)

Module V2.

(** The lines of [flag.Usage], one per [Fprintf]. *)
Definition usageLines : list string :=
  [ "gospeak - Text-to-speech using OpenAI or ElevenLabs TTS API" +:+ nl +:+ nl;
    "Usage: gospeak [options] [text]" +:+ nl;
    "       echo 'text' | gospeak [options]" +:+ nl +:+ nl;
    "Options:" +:+ nl;
    "  -p, --provider    TTS provider: openai, elevenlabs (default: openai)" +:+ nl;
    "  -v, --voice       Voice to use (see below for options)" +:+ nl;
    "  -m, --model       Model to use" +:+ nl;
    "  -o, --output      Save audio to this file" +:+ nl;
    "  -x, --speed       Speed of the voice (default: 1.0)" +:+ nl;
    "  -s, --speak       Speak the text even when saving to a file" +:+ nl;
    "      --token       API key (or set env var)" +:+ nl;
    "      --all         Speak with all voices (OpenAI only)" +:+ nl;
    "      --stability   Voice stability, 0.0-1.0 (ElevenLabs only)" +:+ nl;
    "      --similarity  Similarity boost, 0.0-1.0 (ElevenLabs only)" +:+ nl;
    "  -h, --help        Show this help message" +:+ nl +:+ nl;
    "OpenAI:" +:+ nl;
    "  Env var: OPENAI_API_KEY" +:+ nl;
    "  Voices:  alloy, echo, fable, onyx, nova, shimmer" +:+ nl;
    "  Models:  tts-1, tts-1-hd (default: tts-1-hd)" +:+ nl;
    "  Speed:   0.25 to 4.0" +:+ nl +:+ nl;
    "ElevenLabs:" +:+ nl;
    "  Env var: ELEVENLABS_API_KEY" +:+ nl;
    "  Voices:  rachel, domi, bella, antoni, elli, josh, arnold," +:+ nl;
    "           adam, sam, george, charlie, emily, lily, michael" +:+ nl;
    "           (or use a voice_id directly)" +:+ nl;
    "  Models:  eleven_multilingual_v2 (default), eleven_turbo_v2_5," +:+ nl;
    "           eleven_turbo_v2, eleven_monolingual_v1" +:+ nl;
    "  Speed:   0.7 to 1.2" +:+ nl +:+ nl;
    "Examples:" +:+ nl;
    "  gospeak " +:+ dquote +:+ "Hello, world!" +:+ dquote +:+ nl;
    "  gospeak -p elevenlabs -v rachel " +:+ dquote +:+ "Hello from ElevenLabs" +:+ dquote +:+ nl;
    "  echo " +:+ dquote +:+ "Hello" +:+ dquote +:+ " | gospeak -v nova" +:+ nl;
    "  gospeak -o output.mp3 " +:+ dquote +:+ "Save this to a file" +:+ dquote +:+ nl ].

Definition Usage : M unit := forEach usageLines stderr.

Definition isProvider (provider : string) : bool :=
  String.eqb provider "openai" || String.eqb provider "elevenlabs".

(** The [if provider == "openai" ... else ...] statements of [main]. *)
Definition ifOpenAI {A} (provider : string) (openai other : A) : A :=
  if String.eqb provider "openai" then openai else other.

Definition validateSpeed (provider : string) (speed : float64) : M unit :=
  ifOpenAI provider
    (when (Float64.lt speed f_0_25 || Float64.gt speed f_4_0)
       (stderr ("Error: Speed must be between 0.25 and 4.0 for OpenAI" +:+ nl) ;;;
        osExit 1))
    (when (Float64.lt speed f_0_7 || Float64.gt speed f_1_2)
       (stderr ("Error: Speed must be between 0.7 and 1.2 for ElevenLabs" +:+ nl) ;;;
        osExit 1)).

Definition speakAll (provider apiKey model text : string) (speed : float64)
    : M unit :=
  when (negb (String.eqb provider "openai"))
    (stderr ("Error: --all flag is only supported for OpenAI provider" +:+ nl) ;;;
     osExit 1) ;;;
  forEach openAIVoices (speakVoice apiKey model text speed).

Definition synthesize (provider apiKey model voice text : string)
    (speed stability similarityBoost : float64) : M SynthResult :=
  ifOpenAI provider
    (when (negb (isValidOpenAIVoice voice))
       (stderr ("Error: Invalid OpenAI voice '" +:+ voice +:+ "'. Valid voices: "
                +:+ Join openAIVoices ", " +:+ nl) ;;;
        osExit 1) ;;;
     synthesizeOpenAI apiKey model voice text speed)
    (lower <- ask unicodeLower ;;
     let voiceID := resolveElevenLabsVoice lower voice in
     synthesizeElevenLabs apiKey model voiceID text speed stability similarityBoost).

Definition main (c : Flags) : M unit :=
  when (flagHelp c) (Usage ;;; osExit 0) ;;;
  lower <- ask unicodeLower ;;
  let provider := ToLower lower (flagProvider c) in
  when (negb (isProvider provider))
    (stderr ("Error: Invalid provider '" +:+ provider
             +:+ "'. Use 'openai' or 'elevenlabs'" +:+ nl) ;;;
     osExit 1) ;;;
  let voice := if isEmpty (flagVoice c)
               then ifOpenAI provider defaultOpenAIVoice defaultElevenLabsVoice
               else flagVoice c in
  let model := if isEmpty (flagModel c)
               then ifOpenAI provider defaultOpenAIModel defaultElevenLabsModel
               else flagModel c in
  env <- ask getenv ;;
  let apiKey := if isEmpty (flagToken c)
                then ifOpenAI provider (env "OPENAI_API_KEY")
                       (env "ELEVENLABS_API_KEY")
                else flagToken c in
  when (isEmpty apiKey)
    (stderr ("Error: "
             +:+ (if String.eqb provider "elevenlabs" then "ELEVENLABS_API_KEY"
                  else "OPENAI_API_KEY")
             +:+ " environment variable not set and --token not provided" +:+ nl) ;;;
     osExit 1) ;;;
  validateSpeed provider (flagSpeed c) ;;;
  text <- getText (flagArgs c) ;;
  when (isEmpty text)
    (stderr ("Error: No text provided" +:+ nl) ;;; Usage ;;; osExit 1) ;;;
  if flagAll c then
    speakAll provider apiKey model text (flagSpeed c)
  else
    r <- synthesize provider apiKey model voice text (flagSpeed c)
           (flagStability c) (flagSimilarity c) ;;
    match r with
    | inr e => stderr ("Error synthesizing speech: " +:+ e +:+ nl) ;;; osExit 1
    | inl audioData => deliver (flagOutput c) (flagSpeak c) audioData
    end.

End V2.

(** More sample invocations. *)

(** [gospeak -x NaN Hi] *)
Definition nanSpeed : Flags :=
  withFlags "openai" EmptyString EmptyString EmptyString f_nan false false ["Hi"].

(** [gospeak -p OpenAI Hi] and [gospeak -p Azure Hi] *)
Definition mixedCaseProvider : Flags := setProvider helloWorld "OpenAI".
Definition unknownProvider : Flags := setProvider helloWorld "Azure".

(** [gospeak] on a terminal, and [gospeak ''] *)
Definition noText : Flags := defaultFlags [].
Definition emptyArgument : Flags := defaultFlags [EmptyString].

(** [gospeak --all -o out.mp3 -s Hello] *)
Definition demoAllWithOutput : Flags := setSinks demoAll "out.mp3" true.

(** As [calmWorld], but no file can be written. *)
Definition readOnlyWorld : World :=
  {| getenv := getenv calmWorld;
     stdin := stdin calmWorld;
     unicodeLower := unicodeLower calmWorld;
     trimSpace := trimSpace calmWorld;
     newRequestError := newRequestError calmWorld;
     clientDo := clientDo calmWorld;
     audioDevice := audioDevice calmWorld;
     writeFile := fun _ _ _ _ => Some "permission denied" |}.

(** As [calmWorld], but the text comes through a pipe. *)
Definition pipedWorld : World := setStdin calmWorld (Piped [x48; x69] None).

(** As [calmWorld], but the provider answers 401. *)
Definition refusingWorld : World :=
  {| getenv := getenv calmWorld;
     stdin := stdin calmWorld;
     unicodeLower := unicodeLower calmWorld;
     trimSpace := trimSpace calmWorld;
     newRequestError := newRequestError calmWorld;
     clientDo := fun _ _ => Response 401 [x6e; x6f] None;
     audioDevice := audioDevice calmWorld;
     writeFile := writeFile calmWorld |}.


(** ** Shapes of a single-shot run *)

(** The call the single-shot branch makes for a provider. *)
Definition callOf (w : World) (c : Flags) (text : string) : SynthCall :=
  switchProvider (providerOf w c)
    (CallOpenAI (apiKeyOf w c) (modelOf w c) (voiceOf w c) text (flagSpeed c))
    (CallElevenLabs (apiKeyOf w c) (modelOf w c)
       (resolveElevenLabsVoice (unicodeLower w) (voiceOf w c)) text
       (flagSpeed c) (flagStability c) (flagSimilarity c))
    (CallDeepgram (apiKeyOf w c)
       (resolveDeepgramVoice (unicodeLower w) (voiceOf w c)) text)
    (CallOpenAI (apiKeyOf w c) (modelOf w c) (voiceOf w c) text (flagSpeed c)).

(** The request a call sends, when it sends one: its numbers are those
    [json.Marshal] could encode. *)
Definition requestFor (call : SynthCall) (req : Request) : Prop :=
  match call with
  | CallOpenAI apiKey model voice text speed =>
      req = openAIRequest apiKey model voice text speed
      /\ isFinite speed = true
  | CallElevenLabs apiKey model voiceID text speed stability similarityBoost =>
      req = elevenLabsRequest apiKey voiceID
              (JObject [("text", JString text);
                        ("model_id", JString model);
                        ("voice_settings",
                         JObject ([("stability", JNumber stability);
                                   ("similarity_boost", JNumber similarityBoost)]
                                  ++ if isEmptyFloat speed then []
                                     else [("speed", JNumber speed)]))])
      /\ isFinite stability = true /\ isFinite similarityBoost = true
      /\ (isEmptyFloat speed = true \/ isFinite speed = true)
  | CallDeepgram apiKey voiceModel text =>
      req = deepgramRequest apiKey voiceModel text
  end.

(** What a call of a synthesize function leaves behind, with the request
    it sent. *)
Inductive exchangeRun (call : SynthCall) : SynthResult -> trace -> Prop :=
| exchange_unsent (e : string) :
    exchangeRun call (inr e) [ESynth call]
| exchange_sent (req : Request) (res : HttpOutcome) :
    requestFor call req ->
    exchangeRun call (interpretResponse res) [ESynth call; EHttp 60 req res].

(** The playback of the single-shot branch: the buffer plays, or the
    process ends with status 1 on the message of the failure. *)
Inductive playOrExit (data : bytes) : Outcome unit -> trace -> Prop :=
| poe_played (polls : nat) :
    playOrExit data (Done tt)
      (EPlayAudio data (Played polls) :: repeat (ESleep 10) polls)
| poe_undecoded (e : string) :
    playOrExit data (Exited 1)
      [EPlayAudio data (DecodeError e);
       EStderr ("Error playing audio: " +:+ ("failed to decode MP3: " +:+ e)
                +:+ nl)]
| poe_no_context (e : string) :
    playOrExit data (Exited 1)
      [EPlayAudio data (ContextError e);
       EStderr ("Error playing audio: "
                +:+ ("failed to create audio context: " +:+ e) +:+ nl)].

(** What saving and playing leave behind. *)
Inductive sinkRun (output : string) (speak : bool) (data : bytes)
    : Outcome unit -> trace -> Prop :=
| sink_play o t :
    isEmpty output = true -> playOrExit data o t ->
    sinkRun output speak data o t
| sink_unsaved (e : string) :
    isEmpty output = false ->
    sinkRun output speak data (Exited 1)
      [EWriteFile output data 420 (Some e);
       EStderr ("Error saving file: " +:+ e +:+ nl)]
| sink_saved :
    isEmpty output = false -> speak = false ->
    sinkRun output speak data (Done tt)
      [EWriteFile output data 420 None;
       EStderr ("Saved to " +:+ output +:+ nl)]
| sink_saved_play o t :
    isEmpty output = false -> speak = true -> playOrExit data o t ->
    sinkRun output speak data o
      (EWriteFile output data 420 None
       :: EStderr ("Saved to " +:+ output +:+ nl) :: t).

(** What the single-shot branch leaves behind once the voice is accepted:
    the call; then the error of a request that was not sent or not
    answered with audio, or the audio and its delivery. *)
Inductive onceRun (call : SynthCall) (output : string) (speak : bool)
    : Outcome unit -> trace -> Prop :=
| once_unsent (e : string) :
    onceRun call output speak (Exited 1)
      [ESynth call; EStderr ("Error synthesizing speech: " +:+ e +:+ nl)]
| once_refused req res (e : string) :
    requestFor call req ->
    interpretResponse res = inr e ->
    onceRun call output speak (Exited 1)
      [ESynth call; EHttp 60 req res;
       EStderr ("Error synthesizing speech: " +:+ e +:+ nl)]
| once_delivered req res audio o t :
    requestFor call req ->
    interpretResponse res = inl audio ->
    sinkRun output speak audio o t ->
    onceRun call output speak o (ESynth call :: EHttp 60 req res :: t).

(** The events an iteration of the [--all] loop may leave for a voice. *)
Definition loopEvent (apiKey model text : string) (speed : float64)
    (v : string) (e : event) : Prop :=
  match e with
  | EStderr _ => True
  | ESynth call =>
      call = announcement apiKey model speed v
      \/ call = utterance apiKey model text speed v
  | EHttp timeout req _ =>
      timeout = 60 /\ isFinite speed = true
      /\ (req = openAIRequest apiKey model v v speed
          \/ req = openAIRequest apiKey model v text speed)
  | EPlayAudio _ _ => True
  | ESleep ms => ms = 10 \/ ms = 500 \/ ms = 1000
  | EWriteFile _ _ _ _ => False
  end.

(** ** Calls, voice by voice, and the requests that answer them *)

(** The voice a call is made for. *)
Definition voiceOfCall (call : SynthCall) : string :=
  match call with
  | CallOpenAI _ _ voice _ _ => voice
  | CallElevenLabs _ _ voiceID _ _ _ _ => voiceID
  | CallDeepgram _ voiceModel _ => voiceModel
  end.

(** The calls of a trace made for voice [v]. *)
Fixpoint callsFor (v : string) (t : trace) : list SynthCall :=
  match t with
  | [] => []
  | ESynth call :: rest =>
      if String.eqb (voiceOfCall call) v then call :: callsFor v rest
      else callsFor v rest
  | _ :: rest => callsFor v rest
  end.

(** Every request of the trace comes right after the entry into the
    synthesize function whose request it is, [prev] being the call entered
    by the event before the trace if any, and is sent with the 60 second
    timeout.  Two requests are then never sent for one entry. *)
Fixpoint answered (prev : option SynthCall) (t : trace) : Prop :=
  match t with
  | [] => True
  | ESynth call :: rest => answered (Some call) rest
  | EHttp timeout req _ :: rest =>
      match prev with
      | Some call => requestFor call req
      | None => False
      end
      /\ timeout = 60 /\ answered None rest
  | _ :: rest => answered None rest
  end.

(** ** The command line

    [main] above starts from the values of the flags.  The program
    obtains them with [flag.Parse], whose parser belongs to the flag
    package and is a parameter here: it gives the flags, or the message of
    the command line it refuses.  The command-line flag set has the
    [ExitOnError] policy: the message is printed, then [flag.Usage], and
    the process ends with status 2.  Both help flags are defined, so the
    parser never asks for help on its own. *)
Definition gospeak (parse : list string -> Flags + string)
    (args : list string) : M unit :=
  match parse args with
  | inr msg => stderr (msg +:+ nl) ;;; Usage ;;; osExit 2
  | inl c => main c
  end.

(** A parser that knows the command lines of the samples: [gospeak -z],
    [gospeak -h] and [gospeak Hello world]. *)
Definition sampleParse (args : list string) : Flags + string :=
  match args with
  | ["-z"] => inr "flag provided but not defined: -z"
  | ["-h"] =>
      inl {| flagProvider := defaultProvider;
             flagVoice := EmptyString;
             flagModel := EmptyString;
             flagOutput := EmptyString;
             flagSpeed := defaultSpeed;
             flagSpeak := false;
             flagToken := EmptyString;
             flagHelp := true;
             flagAll := false;
             flagStability := f_0_5;
             flagSimilarity := f_0_75;
             flagArgs := [] |}
  | _ => inl (defaultFlags args)
  end.

(** ** A world that parses the URL

    [http.NewRequest] parses its URL and refuses a path in which a percent
    sign is not followed by two hexadecimal digits; the query is kept as
    it is written. *)

Definition isHexChar (c : ascii) : bool :=
  let n := nat_of_ascii c in
  ((48 <=? n) && (n <=? 57) || (65 <=? n) && (n <=? 70)
   || (97 <=? n) && (n <=? 102))%nat.

(** The first invalid escape before the query, cut to three characters. *)
Fixpoint invalidEscape (s : string) : option string :=
  match s with
  | EmptyString => None
  | String c rest =>
      if Ascii.eqb c (ascii_of_nat 63) then None
      else if Ascii.eqb c (ascii_of_nat 37) then
        match rest with
        | String a (String b rest') =>
            if isHexChar a && isHexChar b then invalidEscape rest'
            else Some (String c (String a (String b EmptyString)))
        | _ => Some s
        end
      else invalidEscape rest
  end.

(** As [calmWorld], but requests are built as [http.NewRequest] builds
    them for a URL with an invalid escape. *)
Definition parsingWorld : World :=
  {| getenv := getenv calmWorld;
     stdin := stdin calmWorld;
     unicodeLower := unicodeLower calmWorld;
     trimSpace := trimSpace calmWorld;
     newRequestError := fun _ url =>
       match invalidEscape url with
       | Some escape =>
           Some ("parse " +:+ dquote +:+ url +:+ dquote
                 +:+ ": invalid URL escape " +:+ dquote +:+ escape +:+ dquote)
       | None => None
       end;
     clientDo := clientDo calmWorld;
     audioDevice := audioDevice calmWorld;
     writeFile := writeFile calmWorld |}.

(** [gospeak -p elevenlabs -v %zz --token xi-token Hi] *)
Definition badEscapeVoice : Flags :=
  withFlags "elevenlabs" "%zz" EmptyString "xi-token" f_1_0 false false ["Hi"].

(** * Properties *)

(** ** Sample runs *)

Example run_helloWorld :
  run calmWorld (main helloWorld)
  = (Done tt,
     [ESynth (CallOpenAI "sk-env" "tts-1-hd" "alloy" "Hello world" f_1_0);
      EHttp 60
        {| req_method := "POST";
           req_url := openAIAPIURL;
           req_headers := [("Content-Type", "application/json");
                           ("Authorization", "Bearer sk-env")];
           req_body := JObject [("model", JString "tts-1-hd");
                                ("input", JString "Hello world");
                                ("voice", JString "alloy");
                                ("response_format", JString "mp3");
                                ("speed", JNumber f_1_0)] |}
        (Response 200 [x49; x44; x33] None);
      EPlayAudio [x49; x44; x33] (Played 0)]).
Proof. reflexivity. Qed.

Example run_saveOnly :
  snd (run calmWorld (main saveOnly))
  = [ESynth (CallOpenAI "sk-env" "tts-1-hd" "alloy" "Hi" f_1_0);
     EHttp 60
       {| req_method := "POST";
          req_url := openAIAPIURL;
          req_headers := [("Content-Type", "application/json");
                          ("Authorization", "Bearer sk-env")];
          req_body := JObject [("model", JString "tts-1-hd");
                               ("input", JString "Hi");
                               ("voice", JString "alloy");
                               ("response_format", JString "mp3");
                               ("speed", JNumber f_1_0)] |}
       (Response 200 [x49; x44; x33] None);
     EWriteFile "out.mp3" [x49; x44; x33] 420 None;
     EStderr ("Saved to out.mp3" +:+ nl)].
Proof. reflexivity. Qed.

Example run_not_a_provider :
  run calmWorld (main (withFlags "Azure" EmptyString EmptyString EmptyString
                         f_1_0 false false ["Hi"]))
  = (Exited 1,
     [EStderr ("Error: Invalid provider 'azure'. Use 'openai', 'elevenlabs', or 'deepgram'"
               +:+ nl)]).
Proof. reflexivity. Qed.

Example api_error_message :
  interpretResponse (Response 401 [x6e; x6f] None) = inr "API error (401): no".
Proof. reflexivity. Qed.

(** The constants that are binary fractions are exact: [m * 2^e] is the
    literal of the source. *)
Example constants_exact :
  forall (value : float64) (num den : Z),
    In (value, (num, den))
       [(f_0_25, (1, 4)); (f_4_0, (4, 1)); (f_1_0, (1, 1)); (f_0_5, (1, 2));
        (f_0_75, (3, 4)); (f_2_0, (2, 1))] ->
    match value with
    | S754_finite false m e => Z.pos m * den = num * 2 ^ (- e)
    | _ => False
    end.
Proof.
  intros value num den H. cbn [In] in H.
  repeat (destruct H as [H | H]; [injection H as <- <- <-; reflexivity |]).
  destruct H.
Qed.

(** The two constants that are not binary fractions are the doubles
    nearest to 0.7 = 7/10 and 1.2 = 6/5: the error is at most half a unit
    in the last place. *)
Example constants_nearest :
  match f_0_7, f_1_2 with
  | S754_finite false m7 e7, S754_finite false m12 e12 =>
      e7 = -53 /\ e12 = -52
      /\ 2 * Z.abs (10 * Z.pos m7 - 7 * 2 ^ 53) <= 10
      /\ 2 * Z.abs (5 * Z.pos m12 - 6 * 2 ^ 52) <= 5
      /\ 2 ^ 52 <= Z.pos m7 < 2 ^ 53 /\ 2 ^ 52 <= Z.pos m12 < 2 ^ 53
  | _, _ => False
  end.
Proof. cbn. lia. Qed.

(** ** Running the monad *)

Lemma bind_done {A B} (m : M A) (f : A -> M B) w h a t1 :
  m w h = (Done a, t1) ->
  bind m f w h = (let (o, t2) := f a w (h ++ t1) in (o, t1 ++ t2)).
Proof. intros E. unfold bind. rewrite E. reflexivity. Qed.

Lemma bind_exited {A B} (m : M A) (f : A -> M B) w h code t1 :
  m w h = (Exited code, t1) ->
  bind m f w h = (Exited code, t1).
Proof. intros E. unfold bind. rewrite E. reflexivity. Qed.

Lemma Usage_run w h : Usage w h = (Done tt, map EStderr usageLines).
Proof. reflexivity. Qed.

Lemma isEmpty_true s : isEmpty s = true <-> s = EmptyString.
Proof. unfold isEmpty. apply String.eqb_eq. Qed.

Lemma isEmpty_false s : isEmpty s = false <-> s <> EmptyString.
Proof. unfold isEmpty. apply String.eqb_neq. Qed.

Lemma isProvider_cases p :
  isProvider p = true -> p = "openai" \/ p = "elevenlabs" \/ p = "deepgram".
Proof.
  unfold isProvider. intros H.
  apply orb_prop in H as [H | H]; [apply orb_prop in H as [H | H] |];
    apply String.eqb_eq in H; auto.
Qed.

Lemma main_help w c :
  flagHelp c = true -> run w (main c) = (Exited 0, map EStderr usageLines).
Proof.
  intros H. unfold run, main. unfold bind at 1. rewrite H. reflexivity.
Qed.

Lemma getAPIKey_run w h c :
  getAPIKey (providerOf w c) (flagToken c) w h = (Done (apiKeyOf w c), []).
Proof.
  unfold getAPIKey, apiKeyOf. destruct (isEmpty (flagToken c)); reflexivity.
Qed.

Lemma validateSpeed_accepted p s w h :
  speedAccepted p s = true ->
  validateSpeed p s w h = (Done tt, speedEvents p s).
Proof.
  unfold speedAccepted, validateSpeed, speedEvents, switchProvider.
  repeat match goal with |- context [String.eqb p ?x] => destruct (String.eqb p x) end;
    intros H; try reflexivity.
  - apply negb_true_iff in H. rewrite H. reflexivity.
  - apply negb_true_iff in H. rewrite H. reflexivity.
  - destruct (Float64.ne s defaultSpeed); reflexivity.
Qed.

Lemma validateSpeed_rejected p s w h :
  speedAccepted p s = false ->
  exists msg, validateSpeed p s w h = (Exited 1, [EStderr msg]).
Proof.
  unfold speedAccepted, validateSpeed, switchProvider.
  repeat match goal with |- context [String.eqb p ?x] => destruct (String.eqb p x) end;
    intros H; try discriminate.
  - apply negb_false_iff in H. rewrite H. eexists. reflexivity.
  - apply negb_false_iff in H. rewrite H. eexists. reflexivity.
Qed.

Lemma getText_some w h c text :
  textOf w c = Some text -> getText (flagArgs c) w h = (Done text, []).
Proof.
  unfold textOf, getText. destruct (flagArgs c) as [| a l].
  - unfold bind, ask. simpl. destruct (stdin w) as [| | data [e |]]; try discriminate.
    + intros [= <-]. reflexivity.
    + intros [= <-]. reflexivity.
  - intros [= <-]. reflexivity.
Qed.

Lemma getText_none w h c :
  textOf w c = None ->
  exists code msg, code <> 0 /\ getText (flagArgs c) w h = (Exited code, [EStderr msg]).
Proof.
  unfold textOf, getText. destruct (flagArgs c) as [| a l]; [| discriminate].
  unfold bind, ask. simpl. destruct (stdin w) as [| | data [e |]]; try discriminate; intros _.
  - exists 2. eexists. split; [lia | reflexivity].
  - exists 1. eexists. split; [lia | reflexivity].
Qed.

(** The run of [main] when the checks pass: the events of the speed
    validation, then the branch chosen by [--all]. *)
Lemma main_checked w c :
  checked w c = true ->
  exists text,
    textOf w c = Some text /\ isEmpty text = false /\
    run w (main c) =
      (let pre := speedEvents (providerOf w c) (flagSpeed c) in
       let (o, t) :=
         (if flagAll c then
            speakAll (providerOf w c) (apiKeyOf w c) (modelOf w c) text (flagSpeed c)
          else
            speakOnce (providerOf w c) (apiKeyOf w c) (modelOf w c) (voiceOf w c)
              text (flagSpeed c) (flagStability c) (flagSimilarity c)
              (flagOutput c) (flagSpeak c)) w pre in
       (o, pre ++ t)).
Proof.
  unfold checked, hasText. intros H.
  apply andb_true_iff in H as [H Ht].
  apply andb_true_iff in H as [H Hs].
  apply andb_true_iff in H as [H Hk].
  apply andb_true_iff in H as [Hh Hp].
  destruct (textOf w c) as [text |] eqn:Htext; [| discriminate].
  apply negb_true_iff in Hh, Hk, Ht.
  exists text. split; [reflexivity |]. split; [assumption |].
  unfold run, main.
  unfold bind at 1. rewrite Hh. cbn [when ret].
  unfold bind at 1. cbn [ask]. fold (providerOf w c).
  unfold bind at 1. rewrite Hp. cbn [negb when ret].
  fold (voiceOf w c) (modelOf w c).
  rewrite (bind_done _ _ _ _ _ _ (getAPIKey_run w _ c)).
  unfold bind at 1. rewrite Hk. cbn [when ret].
  rewrite (bind_done _ _ _ _ _ _ (validateSpeed_accepted _ _ w _ Hs)).
  rewrite (bind_done _ _ _ _ _ _ (getText_some w _ c text Htext)).
  unfold bind at 1. rewrite Ht. cbn [when ret].
  cbn [app]. rewrite !app_nil_r.
  cbv zeta. destruct (flagAll c).
  - destruct (speakAll _ _ _ _ _ _ _); reflexivity.
  - destruct (speakOnce _ _ _ _ _ _ _ _ _ _ _ _); reflexivity.
Qed.

(** The run of [main] when a check fails: messages on standard error, then
    an exit with a status other than 0. *)
Lemma main_unchecked w c :
  flagHelp c = false -> checked w c = false ->
  exists code msgs,
    code <> 0 /\ msgs <> [] /\ run w (main c) = (Exited code, map EStderr msgs).
Proof.
  intros Hh Hc. unfold checked in Hc. rewrite Hh in Hc. cbn [negb andb] in Hc.
  unfold run, main.
  unfold bind at 1. rewrite Hh. cbn [when ret].
  unfold bind at 1. cbn [ask]. fold (providerOf w c).
  destruct (isProvider (providerOf w c)) eqn:Hp.
  2:{ exists 1. eexists [_]. split; [lia |]. split; [discriminate |].
      unfold bind at 1. cbn [negb when]. reflexivity. }
  unfold bind at 1. cbn [negb when ret].
  rewrite (bind_done _ _ _ _ _ _ (getAPIKey_run w _ c)).
  destruct (isEmpty (apiKeyOf w c)) eqn:Hk.
  { exists 1. eexists [_]. split; [lia |]. split; [discriminate |].
    unfold bind at 1. cbn [when]. reflexivity. }
  unfold bind at 1. cbn [when ret].
  destruct (speedAccepted (providerOf w c) (flagSpeed c)) eqn:Hs.
  2:{ destruct (validateSpeed_rejected _ _ w ([] ++ [] ++ [] ++ [] ++ []) Hs) as [msg E].
      exists 1, [msg]. split; [lia |]. split; [discriminate |].
      rewrite (bind_exited _ _ _ _ _ _ E). reflexivity. }
  rewrite (bind_done _ _ _ _ _ _ (validateSpeed_accepted _ _ w _ Hs)).
  cbn [negb andb] in Hc. unfold hasText in Hc.
  assert (Hev : exists ws, speedEvents (providerOf w c) (flagSpeed c) = map EStderr ws).
  { unfold speedEvents, switchProvider.
    repeat match goal with |- context [if ?b then _ else _] => destruct b end;
      solve [exists []; reflexivity | eexists [_]; reflexivity]. }
  destruct Hev as [ws Hev]. rewrite Hev.
  destruct (textOf w c) as [text |] eqn:Htext.
  - rewrite (bind_done _ _ _ _ _ _ (getText_some w _ c text Htext)).
    apply negb_false_iff in Hc. unfold bind at 1. rewrite Hc. cbn [when].
    exists 1, (ws ++ ("Error: No text provided" +:+ nl) :: usageLines).
    split; [lia |]. split; [destruct ws; discriminate |].
    cbn [app]. rewrite !app_nil_r, map_app. reflexivity.
  - destruct (getText_none w ([] ++ [] ++ [] ++ [] ++ map EStderr ws) c Htext)
      as (code & msg & Hcode & E).
    rewrite (bind_exited _ _ _ _ _ _ E).
    exists code, (ws ++ [msg]). split; [assumption |].
    split; [destruct ws; discriminate |].
    cbn [app]. rewrite map_app. reflexivity.
Qed.

(** ** Comparisons of float64 *)

Lemma SFcompare_antisym x y :
  SFcompare y x = option_map CompOpp (SFcompare x y).
Proof.
  destruct x as [sx | sx | | sx mx ex], y as [sy | sy | | sy my ey];
    try reflexivity;
    try (destruct sx; reflexivity);
    try (destruct sy; reflexivity);
    try (destruct sx, sy; reflexivity).
  destruct sx, sy; try reflexivity; cbn [SFcompare option_map]; f_equal;
    change (Pos.compare_cont Eq my mx) with (Pos.compare my mx);
    change (Pos.compare_cont Eq mx my) with (Pos.compare mx my);
    rewrite (Z.compare_antisym ex ey), (Pos.compare_antisym mx my);
    destruct (ex ?= ey), (mx ?= my)%positive; reflexivity.
Qed.

Lemma le_not_gt a b : Float64.le a b = true -> Float64.gt a b = false.
Proof.
  unfold Float64.le, Float64.gt, SFleb, SFltb.
  rewrite (SFcompare_antisym a b).
  destruct (SFcompare a b) as [[] |]; cbn; congruence.
Qed.

Lemma le_not_lt a b : Float64.le a b = true -> Float64.lt b a = false.
Proof. apply le_not_gt. Qed.

(** ** Observations on traces *)

Lemma synthCalls_app t u : synthCalls (t ++ u) = synthCalls t ++ synthCalls u.
Proof.
  induction t as [| e t IH]; [reflexivity |].
  destruct e; cbn [app synthCalls]; rewrite IH; reflexivity.
Qed.

Lemma httpRequests_app t u :
  httpRequests (t ++ u) = httpRequests t ++ httpRequests u.
Proof.
  induction t as [| e t IH]; [reflexivity |].
  destruct e; cbn [app httpRequests]; rewrite IH; reflexivity.
Qed.

Lemma played_app t u : played (t ++ u) = played t ++ played u.
Proof.
  induction t as [| e t IH]; [reflexivity |].
  destruct e as [| | | d [] | |]; cbn [app played]; rewrite IH; reflexivity.
Qed.

Lemma written_app t u : written (t ++ u) = written t ++ written u.
Proof.
  induction t as [| e t IH]; [reflexivity |].
  destruct e as [| | | | | p d m []]; cbn [app written]; rewrite IH; reflexivity.
Qed.

Lemma received_app t u : received (t ++ u) = received t ++ received u.
Proof.
  induction t as [| e t IH]; [reflexivity |].
  destruct e as [| | to rq res | | |]; cbn [app received];
    try (rewrite IH; reflexivity).
  destruct (interpretResponse res); rewrite IH; reflexivity.
Qed.

Lemma stderr_only msgs :
  synthCalls (map EStderr msgs) = [] /\ httpRequests (map EStderr msgs) = []
  /\ played (map EStderr msgs) = [] /\ written (map EStderr msgs) = []
  /\ received (map EStderr msgs) = []
  /\ forallb (fun e => negb (isSinkFailure e)) (map EStderr msgs) = true.
Proof.
  induction msgs as [| m msgs IH]; [repeat split; reflexivity |].
  cbn. exact IH.
Qed.

Lemma sleeps_only ms n :
  synthCalls (repeat (ESleep ms) n) = [] /\ httpRequests (repeat (ESleep ms) n) = []
  /\ played (repeat (ESleep ms) n) = [] /\ written (repeat (ESleep ms) n) = []
  /\ received (repeat (ESleep ms) n) = []
  /\ forallb (fun e => negb (isSinkFailure e)) (repeat (ESleep ms) n) = true.
Proof.
  induction n as [| n IH]; [repeat split; reflexivity |].
  cbn. exact IH.
Qed.

(** ** The functions of the program, run *)

Lemma repeatM_sleep n ms w h :
  repeatM n (sleep ms) w h = (Done tt, repeat (ESleep ms) n).
Proof.
  revert h. induction n as [| n IH]; intros h; [reflexivity |].
  cbn [repeatM repeat]. unfold bind. cbn [sleep emit]. rewrite IH. reflexivity.
Qed.

Lemma playAudio_spec data w h :
  exists r t, playAudio data w h = (Done r, t) /\ playRun data r t.
Proof.
  unfold playAudio, bind, callAudio.
  destruct (audioDevice w h data) as [e | e | polls].
  - do 2 eexists. split; [reflexivity | constructor].
  - do 2 eexists. split; [reflexivity | constructor].
  - rewrite repeatM_sleep. cbn [ret app]. rewrite app_nil_r.
    do 2 eexists. split; [reflexivity | constructor].
Qed.

Lemma newRequest_run url body name value w h :
  newRequest url body name value w h =
    (Done match newRequestError w "POST" url with
          | Some e => inr ("failed to create request: " +:+ e)
          | None => inl {| req_method := "POST";
                           req_url := url;
                           req_headers := [("Content-Type", "application/json");
                                           (name, value)];
                           req_body := body |}
          end, []).
Proof.
  unfold newRequest, bind, ask.
  destruct (newRequestError w "POST" url); reflexivity.
Qed.

Lemma send_spec call url body name value w h :
  exists r t,
    (r0 <- newRequest url body name value ;;
     match r0 with inr e => ret (inr e) | inl req => roundTrip req end)
      w (h ++ [ESynth call]) = (Done r, t)
    /\ synthRun call r (ESynth call :: t).
Proof.
  rewrite (bind_done _ _ _ _ _ _ (newRequest_run _ _ _ _ _ _)).
  destruct (newRequestError w "POST" url) as [e |].
  - do 2 eexists. split; [reflexivity | constructor].
  - unfold roundTrip, bind, callHttp. cbn [ret app].
    do 2 eexists. split; [reflexivity | constructor].
Qed.

Lemma synthesizeOpenAI_spec k m v x s w h :
  exists r t,
    synthesizeOpenAI k m v x s w h = (Done r, t)
    /\ synthRun (CallOpenAI k m v x s) r t.
Proof.
  unfold synthesizeOpenAI. unfold bind at 1. cbn [emit].
  destruct (marshalOpenAI _) as [j | e].
  - destruct (send_spec (CallOpenAI k m v x s) openAIAPIURL j
                "Authorization" ("Bearer " +:+ k) w h) as (r & t & E & R).
    rewrite E. do 2 eexists. split; [reflexivity | exact R].
  - do 2 eexists. split; [reflexivity | constructor].
Qed.

Lemma synthesizeElevenLabs_spec k m v x s st sb w h :
  exists r t,
    synthesizeElevenLabs k m v x s st sb w h = (Done r, t)
    /\ synthRun (CallElevenLabs k m v x s st sb) r t.
Proof.
  unfold synthesizeElevenLabs. unfold bind at 1. cbn [emit].
  destruct (marshalElevenLabs _) as [j | e].
  - destruct (send_spec (CallElevenLabs k m v x s st sb)
                (elevenLabsAPIURL +:+ "/" +:+ v +:+ "?output_format=mp3_44100_128")
                j "xi-api-key" k w h) as (r & t & E & R).
    rewrite E. do 2 eexists. split; [reflexivity | exact R].
  - do 2 eexists. split; [reflexivity | constructor].
Qed.

Lemma synthesizeDeepgram_run k v x w h :
  synthesizeDeepgram k v x w h =
    match newRequestError w "POST" (req_url (deepgramRequest k v x)) with
    | Some e =>
        (Done (inr ("failed to create request: " +:+ e)),
         [ESynth (CallDeepgram k v x)])
    | None =>
        let res := clientDo w (h ++ [ESynth (CallDeepgram k v x)])
                     (deepgramRequest k v x) in
        (Done (interpretResponse res),
         [ESynth (CallDeepgram k v x); EHttp 60 (deepgramRequest k v x) res])
    end.
Proof.
  unfold synthesizeDeepgram. unfold bind at 1. cbn [emit marshalDeepgram].
  rewrite (bind_done _ _ _ _ _ _ (newRequest_run _ _ _ _ _ _)).
  cbn [deepgramRequest req_url].
  destruct (newRequestError w "POST" _); [reflexivity |].
  rewrite app_nil_r. unfold roundTrip, bind, callHttp. reflexivity.
Qed.

Lemma synthesizeDeepgram_spec k v x w h :
  exists r t,
    synthesizeDeepgram k v x w h = (Done r, t)
    /\ synthRun (CallDeepgram k v x) r t.
Proof.
  rewrite synthesizeDeepgram_run.
  destruct (newRequestError w "POST" _).
  - do 2 eexists. split; [reflexivity | constructor].
  - do 2 eexists. split; [reflexivity | constructor].
Qed.

Lemma synthRun_calls call r t : synthRun call r t -> synthCalls t = [call].
Proof. destruct 1; reflexivity. Qed.

Lemma synthRun_observed call r t :
  synthRun call r t ->
  received t = match r with inl audio => [audio] | inr _ => [] end
  /\ played t = [] /\ written t = []
  /\ forallb (fun e => negb (isSinkFailure e)) t = true.
Proof.
  destruct 1; [repeat split |].
  cbn [received played written forallb isSinkFailure negb andb].
  destruct (interpretResponse res); repeat split.
Qed.

Lemma playRun_calls data r t : playRun data r t -> synthCalls t = [].
Proof.
  destruct 1; try reflexivity.
  cbn [synthCalls]. apply sleeps_only.
Qed.

(** ** The --all loop *)

(** Counts the calls in a trace built from pieces whose calls are known. *)
Ltac count_calls :=
  repeat first [ rewrite synthCalls_app | progress cbn [app synthCalls] ];
  repeat match goal with
         | H : synthCalls ?t = _ |- context [synthCalls ?t] => rewrite H
         end;
  cbn [app]; try reflexivity.

(** One iteration never ends the process; it makes the announcement
    attempt and at most the utterance attempt. *)
Lemma speakVoice_spec k m x s v w h :
  exists (ok : bool) t,
    speakVoice k m x s v w h = (Done tt, t)
    /\ synthCalls t
       = announcement k m s v :: (if ok then [utterance k m x s v] else []).
Proof.
  unfold speakVoice. unfold bind at 1. cbn [stderr emit].
  destruct (synthesizeOpenAI_spec k m v v s w (h ++ [EStderr ("Speaking with voice: " +:+ v +:+ nl)]))
    as (r & t & E & R).
  rewrite (bind_done _ _ _ _ _ _ E).
  apply synthRun_calls in R.
  destruct r as [audio | e].
  2:{ exists false. eexists. split; [reflexivity |]. count_calls. }
  match goal with |- context [bind (playAudio audio) _ w ?h'] =>
    destruct (playAudio_spec audio w h') as (p & tp & Ep & Rp) end.
  rewrite (bind_done _ _ _ _ _ _ Ep).
  apply playRun_calls in Rp.
  destruct p as [e |].
  { exists false. eexists. split; [reflexivity |]. count_calls. }
  unfold bind at 1. cbn [sleep emit].
  match goal with |- context [bind (synthesizeOpenAI k m v x s) _ w ?h'] =>
    destruct (synthesizeOpenAI_spec k m v x s w h') as (r2 & t2 & E2 & R2) end.
  rewrite (bind_done _ _ _ _ _ _ E2).
  apply synthRun_calls in R2.
  exists true.
  destruct r2 as [audio2 | e].
  2:{ eexists. split; [reflexivity |]. count_calls. }
  match goal with |- context [bind (playAudio audio2) _ w ?h'] =>
    destruct (playAudio_spec audio2 w h') as (p2 & tp2 & Ep2 & Rp2) end.
  rewrite (bind_done _ _ _ _ _ _ Ep2).
  apply playRun_calls in Rp2.
  destruct p2 as [e |]; unfold bind; cbn [stderr sleep emit ret];
    (eexists; split; [reflexivity |]); count_calls.
Qed.

Lemma forEach_speakVoice k m x s voices w h :
  exists announced t,
    length announced = length voices
    /\ forEach voices (speakVoice k m x s) w h = (Done tt, t)
    /\ synthCalls t = attempts k m x s voices announced.
Proof.
  revert h. induction voices as [| v voices IH]; intros h.
  - exists [], []. repeat split; reflexivity.
  - destruct (speakVoice_spec k m x s v w h) as (ok & t & E & C).
    destruct (IH (h ++ t)) as (oks & t' & L & E' & C').
    exists (ok :: oks), (t ++ t'). split; [cbn; congruence |].
    split.
    + cbn [forEach]. rewrite (bind_done _ _ _ _ _ _ E), E'. reflexivity.
    + rewrite synthCalls_app, C, C'. cbn [attempts].
      destruct ok; reflexivity.
Qed.

Lemma attempts_length k m x s voices announced :
  length announced = length voices ->
  (length voices <= length (attempts k m x s voices announced)
   <= 2 * length voices)%nat.
Proof.
  revert announced. induction voices as [| v voices IH]; intros [| ok oks] L;
    try discriminate; [cbn; lia |].
  injection L as L. specialize (IH oks L).
  cbn [attempts length]. rewrite length_app. destruct ok; cbn [length]; lia.
Qed.

Lemma playRun_observed data r t :
  playRun data r t ->
  synthCalls t = [] /\ received t = []
  /\ played t = match r with None => [data] | Some _ => [] end.
Proof.
  destruct 1 as [polls | e | e]; cbn [synthCalls received played];
    [| repeat split ..].
  destruct (sleeps_only 10 polls) as (Hs & _ & Hp & _ & Hr & _).
  rewrite Hs, Hp, Hr. repeat split.
Qed.

(** One iteration, segment by segment. *)
Lemma speakVoice_segment k m x s v w h :
  exists t,
    speakVoice k m x s v w h = (Done tt, t) /\ voiceSegment k m x s v t.
Proof.
  unfold speakVoice. unfold bind at 1. cbn [stderr emit].
  destruct (synthesizeOpenAI_spec k m v v s w (h ++ [EStderr ("Speaking with voice: " +:+ v +:+ nl)]))
    as (r & t & E & R).
  rewrite (bind_done _ _ _ _ _ _ E).
  pose proof (synthRun_calls _ _ _ R) as C.
  destruct (synthRun_observed _ _ _ R) as (Hr & Hp & _).
  destruct r as [audio | e].
  2:{ eexists. split; [reflexivity |]. exists false. split; [count_calls |].
      cbn [app played]. rewrite played_app, Hp. reflexivity. }
  match goal with |- context [bind (playAudio audio) _ w ?h'] =>
    destruct (playAudio_spec audio w h') as (p & tp & Ep & Rp) end.
  rewrite (bind_done _ _ _ _ _ _ Ep).
  destruct (playRun_observed _ _ _ Rp) as (Cp & Hrp & Hpp).
  destruct p as [e |].
  { eexists. split; [reflexivity |]. exists false. split; [count_calls |].
    cbn [app played]. rewrite !played_app, Hp, Hpp. reflexivity. }
  unfold bind at 1. cbn [sleep emit].
  match goal with |- context [bind (synthesizeOpenAI k m v x s) _ w ?h'] =>
    destruct (synthesizeOpenAI_spec k m v x s w h') as (r2 & t2 & E2 & R2) end.
  rewrite (bind_done _ _ _ _ _ _ E2).
  pose proof (synthRun_calls _ _ _ R2) as C2.
  assert (Hseg : forall rest,
            exists a, head (received (EStderr ("Speaking with voice: " +:+ v +:+ nl)
                                      :: t ++ tp ++ rest)) = Some a
                      /\ head (played (EStderr ("Speaking with voice: " +:+ v +:+ nl)
                                       :: t ++ tp ++ rest)) = Some a).
  { intros rest. exists audio. cbn [received played].
    rewrite !received_app, !played_app, Hr, Hp, Hrp, Hpp. split; reflexivity. }
  destruct r2 as [audio2 | e].
  2:{ eexists. split; [reflexivity |]. exists true. split; [count_calls |].
      cbn [app]. apply Hseg. }
  match goal with |- context [bind (playAudio audio2) _ w ?h'] =>
    destruct (playAudio_spec audio2 w h') as (p2 & tp2 & Ep2 & Rp2) end.
  rewrite (bind_done _ _ _ _ _ _ Ep2).
  pose proof (playRun_calls _ _ _ Rp2) as Cp2.
  destruct p2 as [e |]; unfold bind; cbn [stderr sleep emit ret];
    (eexists; split; [reflexivity |]); exists true; (split; [count_calls |]);
    cbn [app]; apply Hseg.
Qed.

Lemma forEach_segments k m x s voices w h :
  exists segs,
    forEach voices (speakVoice k m x s) w h = (Done tt, concat segs)
    /\ Forall2 (voiceSegment k m x s) voices segs.
Proof.
  revert h. induction voices as [| v voices IH]; intros h.
  - exists []. split; [reflexivity | constructor].
  - destruct (speakVoice_segment k m x s v w h) as (t & E & S).
    destruct (IH (h ++ t)) as (segs & E' & F).
    exists (t :: segs). split; [| constructor; assumption].
    cbn [forEach concat]. rewrite (bind_done _ _ _ _ _ _ E), E'. reflexivity.
Qed.

Lemma marshalFloat_accepted s :
  speedAccepted "openai" s = true -> isNaN s = false ->
  marshalFloat s = inl (JNumber s).
Proof.
  destruct s as [sg | [] | | sg mt ex]; try reflexivity; try discriminate.
Qed.

Lemma synthesizeOpenAI_reliable k m v x s w h :
  reliable w -> marshalFloat s = inl (JNumber s) ->
  exists body t,
    synthesizeOpenAI k m v x s w h = (Done (inl body), t)
    /\ synthCalls t = [CallOpenAI k m v x s].
Proof.
  intros (Hreq & Hdo & _) Hs.
  unfold synthesizeOpenAI. unfold bind at 1. cbn [emit].
  unfold marshalOpenAI. cbn [oa_Speed]. rewrite Hs.
  rewrite (bind_done _ _ _ _ _ _ (newRequest_run _ _ _ _ _ _)).
  rewrite Hreq. unfold roundTrip, bind, callHttp. cbn [ret app].
  match goal with |- context [clientDo w ?h' ?req] =>
    destruct (Hdo h' req) as [body ->] end.
  exists body. eexists. split; reflexivity.
Qed.

Lemma playAudio_reliable data w h :
  reliable w ->
  exists t, playAudio data w h = (Done None, t) /\ synthCalls t = [].
Proof.
  intros (_ & _ & Hplay).
  destruct (playAudio_spec data w h) as (r & t & E & R).
  exists t. destruct (Hplay h data) as [polls Hp].
  split; [| exact (playRun_calls _ _ _ R)].
  rewrite E. f_equal. f_equal.
  revert E. unfold playAudio, bind, callAudio. rewrite Hp, repeatM_sleep.
  cbn [ret]. congruence.
Qed.

Lemma speakVoice_reliable k m x s v w h :
  reliable w -> marshalFloat s = inl (JNumber s) ->
  exists t,
    speakVoice k m x s v w h = (Done tt, t)
    /\ synthCalls t = [announcement k m s v; utterance k m x s v].
Proof.
  intros Hw Hs.
  unfold speakVoice. unfold bind at 1. cbn [stderr emit].
  match goal with |- context [bind (synthesizeOpenAI k m v v s) _ w ?h'] =>
    destruct (synthesizeOpenAI_reliable k m v v s w h' Hw Hs) as (a1 & t1 & E1 & C1) end.
  rewrite (bind_done _ _ _ _ _ _ E1).
  match goal with |- context [bind (playAudio a1) _ w ?h'] =>
    destruct (playAudio_reliable a1 w h' Hw) as (tp1 & Ep1 & Cp1) end.
  rewrite (bind_done _ _ _ _ _ _ Ep1).
  unfold bind at 1. cbn [sleep emit].
  match goal with |- context [bind (synthesizeOpenAI k m v x s) _ w ?h'] =>
    destruct (synthesizeOpenAI_reliable k m v x s w h' Hw Hs) as (a2 & t2 & E2 & C2) end.
  rewrite (bind_done _ _ _ _ _ _ E2).
  match goal with |- context [bind (playAudio a2) _ w ?h'] =>
    destruct (playAudio_reliable a2 w h' Hw) as (tp2 & Ep2 & Cp2) end.
  rewrite (bind_done _ _ _ _ _ _ Ep2).
  unfold bind; cbn [sleep emit ret].
  eexists. split; [reflexivity |]. count_calls.
Qed.

Lemma forEach_reliable k m x s voices w h :
  reliable w -> marshalFloat s = inl (JNumber s) ->
  exists t,
    forEach voices (speakVoice k m x s) w h = (Done tt, t)
    /\ synthCalls t = attempts k m x s voices (map (fun _ => true) voices).
Proof.
  intros Hw Hs. revert h. induction voices as [| v voices IH]; intros h.
  - exists []. split; reflexivity.
  - destruct (speakVoice_reliable k m x s v w h Hw Hs) as (t & E & C).
    destruct (IH (h ++ t)) as (t' & E' & C').
    exists (t ++ t'). split.
    + cbn [forEach]. rewrite (bind_done _ _ _ _ _ _ E), E'. reflexivity.
    + rewrite synthCalls_app, C, C'. reflexivity.
Qed.

Lemma attempts_all_announced k m x s voices :
  length (attempts k m x s voices (map (fun _ => true) voices))
  = (2 * length voices)%nat.
Proof.
  induction voices as [| v voices IH]; [reflexivity |].
  cbn [attempts map length app]. rewrite IH. lia.
Qed.

Lemma speakAll_openai k m x s w h :
  speakAll "openai" k m x s w h = forEach openAIVoices (speakVoice k m x s) w h.
Proof.
  unfold speakAll. unfold bind at 1.
  change (String.eqb "openai" "openai") with true. cbn [negb when ret app].
  rewrite app_nil_r.
  destruct (forEach _ _ _ _). reflexivity.
Qed.

Lemma speakAll_other p k m x s w h :
  p <> "openai" ->
  speakAll p k m x s w h =
    (Exited 1, [EStderr ("Error: --all flag is only supported for OpenAI provider" +:+ nl)]).
Proof.
  intros Hp. apply String.eqb_neq in Hp.
  unfold speakAll. unfold bind at 1. rewrite Hp. reflexivity.
Qed.

(** ** Saving and playing *)

Lemma quiet_app t u :
  forallb (fun e => negb (isSinkFailure e)) (t ++ u)
  = forallb (fun e => negb (isSinkFailure e)) t
    && forallb (fun e => negb (isSinkFailure e)) u.
Proof. apply forallb_app. Qed.

Lemma synthCalls_sleeps ms n : synthCalls (repeat (ESleep ms) n) = [].
Proof. apply sleeps_only. Qed.
Lemma httpRequests_sleeps ms n : httpRequests (repeat (ESleep ms) n) = [].
Proof. apply sleeps_only. Qed.
Lemma played_sleeps ms n : played (repeat (ESleep ms) n) = [].
Proof. apply sleeps_only. Qed.
Lemma written_sleeps ms n : written (repeat (ESleep ms) n) = [].
Proof. apply sleeps_only. Qed.
Lemma received_sleeps ms n : received (repeat (ESleep ms) n) = [].
Proof. apply sleeps_only. Qed.
Lemma quiet_sleeps ms n :
  forallb (fun e => negb (isSinkFailure e)) (repeat (ESleep ms) n) = true.
Proof. apply sleeps_only. Qed.

Create Rewrite HintDb observe.
#[local] Hint Rewrite synthCalls_app httpRequests_app played_app written_app
  received_app quiet_app synthCalls_sleeps httpRequests_sleeps played_sleeps
  written_sleeps received_sleeps quiet_sleeps app_nil_r : observe.

(** Normalizes the observations made on a trace given piece by piece. *)
Ltac observe :=
  repeat first
    [ progress autorewrite with observe
    | progress cbn [app synthCalls httpRequests played written received
                    forallb existsb isSinkFailure negb andb orb] ].

(** A delivery adds no call and no exchange; it returns after the sinks
    chosen by the flags have taken the audio, or it ends the process with
    status 1 after a failed sink and a message. *)
Lemma deliver_spec output speak data w h :
  exists o t,
    deliver output speak data w h = (o, t)
    /\ synthCalls t = [] /\ httpRequests t = [] /\ received t = []
    /\ ((o = Done tt
         /\ forallb (fun e => negb (isSinkFailure e)) t = true
         /\ written t = (if isEmpty output then [] else [(output, data)])
         /\ played t = (if isEmpty output || speak then [data] else []))
        \/ (o = Exited 1
            /\ forallb (fun e => negb (isSinkFailure e)) t = false
            /\ exists t' msg, t = t' ++ [EStderr msg])).
Proof.
  unfold deliver, playAudio, callWriteFile, callAudio.
  destruct (isEmpty output) eqn:Hout; cbn [negb when orb].
  - unfold bind. cbn [ret app].
    destruct (audioDevice w (h ++ []) data) as [e | e | polls]; cbn [stderr emit osExit ret].
    + do 2 eexists. split; [reflexivity |]. observe. repeat split.
      right. repeat split. exists [EPlayAudio data (DecodeError e)]. eexists. reflexivity.
    + do 2 eexists. split; [reflexivity |]. observe. repeat split.
      right. repeat split. exists [EPlayAudio data (ContextError e)]. eexists. reflexivity.
    + rewrite repeatM_sleep. cbn [ret app].
      do 2 eexists. split; [reflexivity |]. observe. repeat split.
      left. repeat split.
  - unfold bind. cbn [ret app].
    destruct (writeFile w h output data 420) as [e |]; cbn [stderr emit osExit ret app].
    { do 2 eexists. split; [reflexivity |]. observe. repeat split.
      right. repeat split. eexists [_]. eexists. reflexivity. }
    destruct speak; cbn [when ret app].
    + match goal with |- context [audioDevice w ?h' data] =>
        destruct (audioDevice w h' data) as [e | e | polls] end;
        cbn [stderr emit osExit ret app].
      * do 2 eexists. split; [reflexivity |]. observe. repeat split.
        right. repeat split. eexists [_; _; _]. eexists. reflexivity.
      * do 2 eexists. split; [reflexivity |]. observe. repeat split.
        right. repeat split. eexists [_; _; _]. eexists. reflexivity.
      * rewrite repeatM_sleep. cbn [ret app].
        do 2 eexists. split; [reflexivity |]. observe. repeat split.
        left. repeat split.
    + do 2 eexists. split; [reflexivity |]. observe. repeat split.
      left. repeat split.
Qed.

(** ** The single-shot branch *)

(** The call each provider's case makes. *)
Lemma synthesize_openai k m v x s st sb w h :
  isValidOpenAIVoice v = true ->
  synthesize "openai" k m v x s st sb w h = synthesizeOpenAI k m v x s w h.
Proof.
  intros Hv. unfold synthesize, switchProvider.
  change (String.eqb "openai" "openai") with true. cbv iota.
  unfold bind at 1. rewrite Hv. cbn [negb when ret app]. rewrite app_nil_r.
  destruct (synthesizeOpenAI _ _ _ _ _ _ _). reflexivity.
Qed.

Lemma synthesize_openai_invalid k m v x s st sb w h :
  isValidOpenAIVoice v = false ->
  synthesize "openai" k m v x s st sb w h =
    (Exited 1,
     [EStderr ("Error: Invalid OpenAI voice '" +:+ v +:+ "'. Valid voices: "
               +:+ Join openAIVoices ", " +:+ nl)]).
Proof.
  intros Hv. unfold synthesize, switchProvider.
  change (String.eqb "openai" "openai") with true. cbv iota.
  unfold bind at 1. rewrite Hv. reflexivity.
Qed.

Lemma synthesize_elevenlabs k m v x s st sb w h :
  synthesize "elevenlabs" k m v x s st sb w h =
    synthesizeElevenLabs k m (resolveElevenLabsVoice (unicodeLower w) v) x s st sb w h.
Proof.
  unfold synthesize, switchProvider.
  change (String.eqb "elevenlabs" "openai") with false.
  change (String.eqb "elevenlabs" "elevenlabs") with true. cbv iota.
  unfold bind at 1. cbn [ask app]. rewrite app_nil_r.
  destruct (synthesizeElevenLabs _ _ _ _ _ _ _ _ _). reflexivity.
Qed.

Lemma synthesize_deepgram k m v x s st sb w h :
  synthesize "deepgram" k m v x s st sb w h =
    synthesizeDeepgram k (resolveDeepgramVoice (unicodeLower w) v) x w h.
Proof.
  unfold synthesize, switchProvider.
  change (String.eqb "deepgram" "openai") with false.
  change (String.eqb "deepgram" "elevenlabs") with false.
  change (String.eqb "deepgram" "deepgram") with true. cbv iota.
  unfold bind at 1. cbn [ask app]. rewrite app_nil_r.
  destruct (synthesizeDeepgram _ _ _ _ _). reflexivity.
Qed.

(** Synthesis in single-shot mode ends the process on an invalid OpenAI
    voice, with nothing but the message, or makes exactly one call. *)
Lemma synthesize_spec p k m v x s st sb w h :
  isProvider p = true ->
  (exists msg, synthesize p k m v x s st sb w h = (Exited 1, [EStderr msg])
               /\ p = "openai" /\ isValidOpenAIVoice v = false)
  \/ (exists call r t,
        synthesize p k m v x s st sb w h = (Done r, t) /\ synthRun call r t).
Proof.
  intros Hp. destruct (isProvider_cases p Hp) as [-> | [-> | ->]].
  - destruct (isValidOpenAIVoice v) eqn:Hv.
    + right. rewrite (synthesize_openai _ _ _ _ _ _ _ _ _ Hv).
      destruct (synthesizeOpenAI_spec k m v x s w h) as (r & t & E & R).
      eauto.
    + left. rewrite (synthesize_openai_invalid _ _ _ _ _ _ _ _ _ Hv). eauto.
  - right. rewrite synthesize_elevenlabs.
    destruct (synthesizeElevenLabs_spec k m (resolveElevenLabsVoice (unicodeLower w) v)
                x s st sb w h) as (r & t & E & R).
    eauto.
  - right. rewrite synthesize_deepgram.
    destruct (synthesizeDeepgram_spec k (resolveDeepgramVoice (unicodeLower w) v) x w h)
      as (r & t & E & R).
    eauto.
Qed.

(** A single-shot run returns after one audio buffer was received and
    taken by the sinks the flags choose, or ends with status 1 after a
    message, having received no audio or lost a sink. *)
Lemma speakOnce_spec p k m v x s st sb output speak w h :
  isProvider p = true ->
  exists o t,
    speakOnce p k m v x s st sb output speak w h = (o, t)
    /\ ((o = Done tt
         /\ exists audio,
              received t = [audio]
              /\ forallb (fun e => negb (isSinkFailure e)) t = true
              /\ written t = (if isEmpty output then [] else [(output, audio)])
              /\ played t = (if isEmpty output || speak then [audio] else []))
        \/ (o = Exited 1
            /\ (received t = []
                \/ forallb (fun e => negb (isSinkFailure e)) t = false)
            /\ exists t' msg, t = t' ++ [EStderr msg])).
Proof.
  intros Hp. unfold speakOnce.
  destruct (synthesize_spec p k m v x s st sb w h Hp)
    as [(msg & E & _) | (call & r & t & E & R)].
  - rewrite (bind_exited _ _ _ _ _ _ E). do 2 eexists. split; [reflexivity |].
    right. split; [reflexivity |]. split; [left; reflexivity |].
    exists [], msg. reflexivity.
  - rewrite (bind_done _ _ _ _ _ _ E).
    destruct (synthRun_observed _ _ _ R) as (Hr & Hpl & Hwr & Hq).
    destruct r as [audio | e].
    + destruct (deliver_spec output speak audio w (h ++ t))
        as (o & t' & E' & _ & _ & Hr' & [(-> & Hq' & Hw' & Hp') | (-> & Hq' & t'' & msg & ->)]);
        rewrite E'; do 2 eexists; (split; [reflexivity |]).
      * left. split; [reflexivity |]. exists audio. observe.
        rewrite Hr, Hr', Hq, Hq', Hwr, Hw', Hpl, Hp'. repeat split.
      * right. split; [reflexivity |]. split.
        -- right. rewrite quiet_app, Hq'. apply andb_false_r.
        -- exists (t ++ t''), msg. apply app_assoc.
    + unfold bind. cbn [stderr emit osExit app].
      do 2 eexists. split; [reflexivity |].
      right. split; [reflexivity |]. split.
      * left. observe. rewrite Hr. reflexivity.
      * eexists t, _. reflexivity.
Qed.

(** * The specification, claim by claim *)

(** C1, as the specification states it, fails: with the network down, the
    six announcements are attempted and fail, each [continue] skips the
    utterance of its voice, and the run makes 6 attempts, not 12. *)
Lemma demo_all_attempts_counterexample :
  checked offlineWorld demoAll = true
  /\ flagAll demoAll = true
  /\ providerOf offlineWorld demoAll = "openai"
  /\ synthCalls (snd (run offlineWorld (main demoAll)))
     = map (announcement "sk-env" "tts-1-hd" f_1_0) openAIVoices
  /\ length (synthCalls (snd (run offlineWorld (main demoAll))))
     <> (2 * length openAIVoices)%nat.
Proof. repeat split; try reflexivity. vm_compute. discriminate. Qed.

(** C1 (amended): in demo-all mode with OpenAI the run attempts, for each of
    the N preset voices in the order of the table, the announcement, and
    the utterance only when that announcement was synthesized and played;
    a failure ends the iteration of its voice alone.  The attempts are
    between N and 2N, and exactly 2N in a world where nothing fails. *)
Theorem demo_all_attempts (w : World) (c : Flags) (text : string) :
  checked w c = true -> flagAll c = true -> providerOf w c = "openai" ->
  textOf w c = Some text ->
  exists announced : list bool,
    length announced = length openAIVoices
    /\ synthCalls (snd (run w (main c)))
       = attempts (apiKeyOf w c) (modelOf w c) text (flagSpeed c)
           openAIVoices announced
    /\ (length openAIVoices <= length (synthCalls (snd (run w (main c))))
        <= 2 * length openAIVoices)%nat
    /\ (reliable w -> isNaN (flagSpeed c) = false ->
        length (synthCalls (snd (run w (main c)))) = (2 * length openAIVoices)%nat)
    /\ exists segs,
         snd (run w (main c)) = concat segs
         /\ Forall2 (voiceSegment (apiKeyOf w c) (modelOf w c) text (flagSpeed c))
              openAIVoices segs.
Proof.
  intros Hc Hall Hp Htext.
  destruct (main_checked w c Hc) as (text' & Htext' & _ & Hrun).
  rewrite Htext in Htext'. injection Htext' as <-.
  rewrite Hall, Hp in Hrun. cbv zeta in Hrun.
  rewrite speakAll_openai in Hrun.
  assert (Hpre : synthCalls (speedEvents "openai" (flagSpeed c)) = []) by reflexivity.
  destruct (forEach_speakVoice (apiKeyOf w c) (modelOf w c) text (flagSpeed c)
              openAIVoices w (speedEvents "openai" (flagSpeed c)))
    as (announced & t & L & E & C).
  exists announced. split; [exact L |].
  assert (Hcalls : synthCalls (snd (run w (main c)))
                   = attempts (apiKeyOf w c) (modelOf w c) text (flagSpeed c)
                       openAIVoices announced).
  { rewrite Hrun, E. cbn [snd]. rewrite synthCalls_app, Hpre, C. reflexivity. }
  split; [exact Hcalls |]. split; [| split].
  - rewrite Hcalls. apply attempts_length, L.
  - intros Hw Hnan.
    assert (Hs : speedAccepted "openai" (flagSpeed c) = true).
    { unfold checked in Hc. rewrite Hp in Hc.
      destruct (speedAccepted "openai" (flagSpeed c)); [reflexivity |].
      rewrite andb_false_r in Hc. discriminate. }
    destruct (forEach_reliable (apiKeyOf w c) (modelOf w c) text (flagSpeed c)
                openAIVoices w (speedEvents "openai" (flagSpeed c)) Hw
                (marshalFloat_accepted _ Hs Hnan))
      as (t' & E' & C').
    rewrite Hrun, E'. cbn [snd]. rewrite synthCalls_app, Hpre, C'.
    apply attempts_all_announced.
  - destruct (forEach_segments (apiKeyOf w c) (modelOf w c) text (flagSpeed c)
                openAIVoices w (speedEvents "openai" (flagSpeed c)))
      as (segs & E' & F).
    exists segs. split; [| exact F].
    rewrite Hrun, E'. reflexivity.
Qed.

Lemma demo_all_attempts_witness :
  exists announced : list bool,
    length announced = length openAIVoices
    /\ synthCalls (snd (run calmWorld (main demoAll)))
       = attempts "sk-env" "tts-1-hd" "Hello" f_1_0 openAIVoices announced
    /\ length (synthCalls (snd (run calmWorld (main demoAll)))) = 12%nat.
Proof.
  destruct (demo_all_attempts calmWorld demoAll "Hello" eq_refl eq_refl eq_refl eq_refl)
    as (announced & L & C & _ & _ & _).
  exists announced. split; [exact L |]. split; [exact C | reflexivity].
Defined.

Lemma within_accepted_openai s :
  within f_0_25 f_4_0 s -> speedAccepted "openai" s = true.
Proof.
  intros [Hlo Hhi]. unfold speedAccepted, switchProvider.
  change (String.eqb "openai" "openai") with true. cbv iota.
  rewrite (le_not_lt _ _ Hlo), (le_not_gt _ _ Hhi). reflexivity.
Qed.

Lemma within_accepted_elevenlabs s :
  within f_0_7 f_1_2 s -> speedAccepted "elevenlabs" s = true.
Proof.
  intros [Hlo Hhi]. unfold speedAccepted, switchProvider.
  change (String.eqb "elevenlabs" "openai") with false.
  change (String.eqb "elevenlabs" "elevenlabs") with true. cbv iota.
  rewrite (le_not_lt _ _ Hlo), (le_not_gt _ _ Hhi). reflexivity.
Qed.

Lemma outside_rejected_openai s :
  outside f_0_25 f_4_0 s -> speedAccepted "openai" s = false.
Proof.
  intros H. unfold speedAccepted, switchProvider.
  change (String.eqb "openai" "openai") with true. cbv iota.
  apply negb_false_iff, orb_true_iff. exact H.
Qed.

Lemma outside_rejected_elevenlabs s :
  outside f_0_7 f_1_2 s -> speedAccepted "elevenlabs" s = false.
Proof.
  intros H. unfold speedAccepted, switchProvider.
  change (String.eqb "elevenlabs" "openai") with false.
  change (String.eqb "elevenlabs" "elevenlabs") with true. cbv iota.
  apply negb_false_iff, orb_true_iff. exact H.
Qed.

Lemma rejected_is_fatal w c :
  flagHelp c = false -> speedAccepted (providerOf w c) (flagSpeed c) = false ->
  fatalBeforeDispatch (run w (main c)).
Proof.
  intros Hh Hs. apply main_unchecked; [exact Hh |].
  unfold checked. rewrite Hs, andb_false_r. reflexivity.
Qed.

(** The requests of a Deepgram run: at most one, the one built from the
    key, the resolved voice and the text. *)
Lemma deepgram_requests w c text :
  providerOf w c = "deepgram" -> textOf w c = Some text ->
  httpRequests (snd (run w (main c))) = []
  \/ httpRequests (snd (run w (main c)))
     = [deepgramRequest (apiKeyOf w c)
          (resolveDeepgramVoice (unicodeLower w) (voiceOf w c)) text].
Proof.
  intros Hp Htext.
  destruct (flagHelp c) eqn:Hh.
  { left. rewrite (main_help w c Hh). apply stderr_only. }
  destruct (checked w c) eqn:Hc.
  2:{ left. destruct (main_unchecked w c Hh Hc) as (code & msgs & _ & _ & ->).
      apply stderr_only. }
  destruct (main_checked w c Hc) as (text' & Htext' & _ & Hrun).
  rewrite Htext in Htext'. injection Htext' as <-.
  rewrite Hrun, Hp. cbv zeta.
  assert (Hpre : httpRequests (speedEvents "deepgram" (flagSpeed c)) = []).
  { unfold speedEvents, switchProvider. cbn [String.eqb Ascii.eqb Bool.eqb].
    destruct (Float64.ne _ _); reflexivity. }
  destruct (flagAll c).
  { left. rewrite speakAll_other by discriminate. cbn [snd].
    rewrite httpRequests_app, Hpre. reflexivity. }
  unfold speakOnce. unfold bind.
  rewrite synthesize_deepgram, synthesizeDeepgram_run.
  destruct (newRequestError w "POST" _) as [e |].
  - left. cbn [stderr emit osExit app snd].
    rewrite httpRequests_app, Hpre. reflexivity.
  - right. cbv zeta.
    match goal with |- context [interpretResponse ?r] => destruct (interpretResponse r) as [audio | e] end.
    + match goal with |- context [deliver ?o ?s audio w ?h'] =>
        destruct (deliver_spec o s audio w h') as (o' & t' & -> & _ & Hq & _) end.
      cbn [snd]. rewrite !httpRequests_app, Hpre. cbn [httpRequests app].
      rewrite Hq. reflexivity.
    + cbn [stderr emit osExit app snd].
      rewrite httpRequests_app, Hpre. reflexivity.
Qed.

(** A single-shot Deepgram run that passed the checks: the events of the
    speed validation, then the call with the resolved voice. *)
Lemma deepgram_dispatch w c text :
  checked w c = true -> providerOf w c = "deepgram" -> flagAll c = false ->
  textOf w c = Some text ->
  exists rest,
    snd (run w (main c))
    = speedEvents "deepgram" (flagSpeed c)
      ++ ESynth (CallDeepgram (apiKeyOf w c)
                   (resolveDeepgramVoice (unicodeLower w) (voiceOf w c)) text)
         :: rest
    /\ (newRequestError w "POST"
          (req_url (deepgramRequest (apiKeyOf w c)
             (resolveDeepgramVoice (unicodeLower w) (voiceOf w c)) text)) = None ->
        exists res rest',
          rest = EHttp 60 (deepgramRequest (apiKeyOf w c)
                   (resolveDeepgramVoice (unicodeLower w) (voiceOf w c)) text) res
                 :: rest').
Proof.
  intros Hc Hp Hall Htext.
  destruct (main_checked w c Hc) as (text' & Htext' & _ & Hrun).
  rewrite Htext in Htext'. injection Htext' as <-.
  rewrite Hrun, Hp, Hall. cbv zeta.
  unfold speakOnce. unfold bind at 1.
  rewrite synthesize_deepgram, synthesizeDeepgram_run.
  destruct (newRequestError w "POST" _) as [e |].
  - destruct (bind _ _ _ _) as [o t]. cbn [snd].
    eexists. split; [reflexivity | discriminate].
  - cbv beta iota zeta.
    match goal with |- context [interpretResponse ?r] =>
      destruct (interpretResponse r) as [audio | e] end.
    + destruct (deliver _ _ _ _ _) as [o t]. cbn [snd app].
      eexists. split; [reflexivity |]. intros _. eauto.
    + destruct (bind _ _ _ _) as [o t]. cbn [snd app].
      eexists. split; [reflexivity |]. intros _. eauto.
Qed.

Lemma checked_split w c :
  checked w c
  = checkedButSpeed w c && speedAccepted (providerOf w c) (flagSpeed c).
Proof.
  unfold checked, checkedButSpeed.
  destruct (negb (flagHelp c)), (isProvider (providerOf w c)),
    (negb (isEmpty (apiKeyOf w c))), (speedAccepted _ _), (hasText w c);
    reflexivity.
Qed.

(** A single-shot OpenAI run that passed the checks, with a preset voice:
    the call carries the voice as given. *)
Lemma openai_dispatch w c text :
  checked w c = true -> providerOf w c = "openai" -> flagAll c = false ->
  textOf w c = Some text -> isValidOpenAIVoice (voiceOf w c) = true ->
  exists rest,
    snd (run w (main c))
    = ESynth (CallOpenAI (apiKeyOf w c) (modelOf w c) (voiceOf w c) text
                (flagSpeed c)) :: rest.
Proof.
  intros Hc Hp Hall Htext Hv.
  destruct (main_checked w c Hc) as (text' & Htext' & _ & Hrun).
  rewrite Htext in Htext'. injection Htext' as <-.
  rewrite Hrun, Hp, Hall. cbv zeta.
  change (speedEvents "openai" (flagSpeed c)) with (@nil event).
  unfold speakOnce. unfold bind at 1.
  rewrite (synthesize_openai _ _ _ _ _ _ _ _ _ Hv).
  destruct (synthesizeOpenAI_spec (apiKeyOf w c) (modelOf w c) (voiceOf w c) text
              (flagSpeed c) w []) as (r & t & E & R).
  rewrite E.
  assert (Ht : exists rest0, t = ESynth (CallOpenAI (apiKeyOf w c) (modelOf w c)
                                         (voiceOf w c) text (flagSpeed c)) :: rest0)
    by (destruct R; eexists; reflexivity).
  destruct Ht as [rest0 ->].
  destruct r as [audio | e];
    [destruct (deliver _ _ _ _ _) as [o t'] | destruct (bind _ _ _ _) as [o t']];
    cbn [snd app]; eexists; reflexivity.
Qed.

(** A single-shot ElevenLabs run that passed the checks enters the
    synthesize function with the speed of the flag. *)
Lemma elevenlabs_call w c text :
  checked w c = true -> providerOf w c = "elevenlabs" -> flagAll c = false ->
  textOf w c = Some text ->
  exists rest,
    snd (run w (main c))
    = ESynth (CallElevenLabs (apiKeyOf w c) (modelOf w c)
                (resolveElevenLabsVoice (unicodeLower w) (voiceOf w c)) text
                (flagSpeed c) (flagStability c) (flagSimilarity c))
      :: rest.
Proof.
  intros Hc Hp Hall Htext.
  destruct (main_checked w c Hc) as (text' & Htext' & _ & Hrun).
  rewrite Htext in Htext'. injection Htext' as <-.
  rewrite Hrun, Hp, Hall. cbv zeta.
  change (speedEvents "elevenlabs" (flagSpeed c)) with (@nil event).
  unfold speakOnce. unfold bind at 1. rewrite synthesize_elevenlabs.
  match goal with |- context [synthesizeElevenLabs ?k ?m ?v ?x ?s ?st ?sb w ?h] =>
    destruct (synthesizeElevenLabs_spec k m v x s st sb w h) as (r & t & E & R) end.
  rewrite E.
  assert (Ht : exists rest0, t = ESynth (CallElevenLabs (apiKeyOf w c) (modelOf w c)
                 (resolveElevenLabsVoice (unicodeLower w) (voiceOf w c)) text
                 (flagSpeed c) (flagStability c) (flagSimilarity c)) :: rest0)
    by (destruct R; eexists; reflexivity).
  destruct Ht as [rest0 ->].
  destruct r as [audio | e];
    [destruct (deliver _ _ _ _ _) as [o t'] | destruct (bind _ _ _ _) as [o t']];
    cbn [snd app]; eexists; reflexivity.
Qed.

(** C2: OpenAI accepts every speed of the closed interval [0.25, 4.0],
    which then reaches the synthesize call, and ends with a fatal error,
    before any request is built, on any speed strictly outside; ElevenLabs
    does the same for [0.7, 1.2]; Deepgram answers a speed other than 1.0
    with a warning only, goes on to synthesize, and its request body holds
    the text field and nothing else. *)
Theorem speed_validation :
  (forall s w h, within f_0_25 f_4_0 s ->
     validateSpeed "openai" s w h = (Done tt, []))
  /\ (forall s w h, outside f_0_25 f_4_0 s ->
        validateSpeed "openai" s w h
        = (Exited 1,
           [EStderr ("Error: Speed must be between 0.25 and 4.0 for OpenAI" +:+ nl)]))
  /\ (forall w c, flagHelp c = false -> providerOf w c = "openai" ->
        outside f_0_25 f_4_0 (flagSpeed c) ->
        fatalBeforeDispatch (run w (main c)))
  /\ (forall s w h, within f_0_7 f_1_2 s ->
        validateSpeed "elevenlabs" s w h = (Done tt, []))
  /\ (forall s w h, outside f_0_7 f_1_2 s ->
        validateSpeed "elevenlabs" s w h
        = (Exited 1,
           [EStderr ("Error: Speed must be between 0.7 and 1.2 for ElevenLabs" +:+ nl)]))
  /\ (forall w c, flagHelp c = false -> providerOf w c = "elevenlabs" ->
        outside f_0_7 f_1_2 (flagSpeed c) ->
        fatalBeforeDispatch (run w (main c)))
  /\ (forall s w h, Float64.ne s defaultSpeed = true ->
        validateSpeed "deepgram" s w h = (Done tt, [EStderr speedWarning]))
  /\ (forall w c text,
        checked w c = true -> providerOf w c = "deepgram" ->
        flagAll c = false -> textOf w c = Some text ->
        Float64.ne (flagSpeed c) defaultSpeed = true ->
        exists rest,
          snd (run w (main c))
          = EStderr speedWarning
            :: ESynth (CallDeepgram (apiKeyOf w c)
                         (resolveDeepgramVoice (unicodeLower w) (voiceOf w c)) text)
            :: rest)
  /\ (forall w c text req,
        providerOf w c = "deepgram" -> textOf w c = Some text ->
        In req (httpRequests (snd (run w (main c)))) ->
        req_body req = JObject [("text", JString text)])
  /\ (forall w c text,
        checkedButSpeed w c = true -> providerOf w c = "openai" ->
        within f_0_25 f_4_0 (flagSpeed c) ->
        flagAll c = false -> textOf w c = Some text ->
        isValidOpenAIVoice (voiceOf w c) = true ->
        exists rest,
          snd (run w (main c))
          = ESynth (CallOpenAI (apiKeyOf w c) (modelOf w c) (voiceOf w c) text
                      (flagSpeed c)) :: rest)
  /\ (forall w c text,
        checkedButSpeed w c = true -> providerOf w c = "elevenlabs" ->
        within f_0_7 f_1_2 (flagSpeed c) ->
        flagAll c = false -> textOf w c = Some text ->
        exists rest,
          snd (run w (main c))
          = ESynth (CallElevenLabs (apiKeyOf w c) (modelOf w c)
                      (resolveElevenLabsVoice (unicodeLower w) (voiceOf w c)) text
                      (flagSpeed c) (flagStability c) (flagSimilarity c))
            :: rest).
Proof.
  repeat apply conj.
  11:{ intros w c text Hc Hp Hs Hall Htext.
       apply elevenlabs_call; try assumption.
       rewrite checked_split, Hc, Hp. apply within_accepted_elevenlabs, Hs. }
  10:{ intros w c text Hc Hp Hs Hall Htext Hv.
       apply openai_dispatch; try assumption.
       rewrite checked_split, Hc, Hp. apply within_accepted_openai, Hs. }
  - intros s w h Hs.
    rewrite (validateSpeed_accepted _ _ _ _ (within_accepted_openai s Hs)).
    reflexivity.
  - intros s w h Hs. apply outside_rejected_openai in Hs.
    unfold speedAccepted, switchProvider in Hs.
    change (String.eqb "openai" "openai") with true in Hs. cbv iota in Hs.
    apply negb_false_iff in Hs.
    unfold validateSpeed, switchProvider.
    change (String.eqb "openai" "openai") with true. cbv iota.
    rewrite Hs. reflexivity.
  - intros w c Hh Hp Hs. apply rejected_is_fatal; [exact Hh |].
    rewrite Hp. apply outside_rejected_openai, Hs.
  - intros s w h Hs.
    rewrite (validateSpeed_accepted _ _ _ _ (within_accepted_elevenlabs s Hs)).
    reflexivity.
  - intros s w h Hs. apply outside_rejected_elevenlabs in Hs.
    unfold speedAccepted, switchProvider in Hs.
    change (String.eqb "elevenlabs" "openai") with false in Hs.
    change (String.eqb "elevenlabs" "elevenlabs") with true in Hs. cbv iota in Hs.
    apply negb_false_iff in Hs.
    unfold validateSpeed, switchProvider.
    change (String.eqb "elevenlabs" "openai") with false.
    change (String.eqb "elevenlabs" "elevenlabs") with true. cbv iota.
    rewrite Hs. reflexivity.
  - intros w c Hh Hp Hs. apply rejected_is_fatal; [exact Hh |].
    rewrite Hp. apply outside_rejected_elevenlabs, Hs.
  - intros s w h Hs.
    rewrite (validateSpeed_accepted "deepgram" s w h eq_refl).
    unfold speedEvents, switchProvider.
    change (String.eqb "deepgram" "openai") with false.
    change (String.eqb "deepgram" "elevenlabs") with false.
    change (String.eqb "deepgram" "deepgram") with true. cbv iota.
    rewrite Hs. reflexivity.
  - intros w c text Hc Hp Hall Htext Hs.
    destruct (deepgram_dispatch w c text Hc Hp Hall Htext) as (rest & -> & _).
    exists rest. unfold speedEvents, switchProvider.
    change (String.eqb "deepgram" "openai") with false.
    change (String.eqb "deepgram" "elevenlabs") with false.
    change (String.eqb "deepgram" "deepgram") with true. cbv iota.
    rewrite Hs. reflexivity.
  - intros w c text req Hp Htext Hin.
    destruct (deepgram_requests w c text Hp Htext) as [E | E];
      rewrite E in Hin; [destruct Hin |].
    destruct Hin as [<- | []]. reflexivity.
Qed.

Lemma speed_validation_witness :
  validateSpeed "openai" f_4_0 calmWorld [] = (Done tt, [])
  /\ fatalBeforeDispatch (run calmWorld (main tooFast))
  /\ validateSpeed "elevenlabs" f_0_7 calmWorld [] = (Done tt, [])
  /\ fatalBeforeDispatch (run calmWorld (main tooFastElevenLabs))
  /\ validateSpeed "deepgram" f_2_0 calmWorld [] = (Done tt, [EStderr speedWarning])
  /\ (exists rest,
        snd (run calmWorld (main fastDeepgram))
        = EStderr speedWarning
          :: ESynth (CallDeepgram "dg-token" "aura-luna-en" "Hi") :: rest)
  /\ (exists rest,
        snd (run calmWorld (main helloWorld))
        = ESynth (CallOpenAI "sk-env" "tts-1-hd" "alloy" "Hello world" f_1_0)
          :: rest)
  /\ (exists rest,
        snd (run calmWorld (main rawVoice))
        = ESynth (CallElevenLabs "xi-token" "eleven_multilingual_v2"
                    "nonexistent-preset" "Hi" f_1_0 f_0_5 f_0_75) :: rest).
Proof.
  destruct speed_validation
    as (H1 & H2 & H3 & H4 & H5 & H6 & H7 & H8 & H9 & H10 & H11).
  split; [apply H1; split; reflexivity |].
  split; [apply H3; [reflexivity | reflexivity | right; reflexivity] |].
  split; [apply H4; split; reflexivity |].
  split; [apply H6; [reflexivity | reflexivity | right; reflexivity] |].
  split; [apply H7; reflexivity |].
  split; [apply (H8 calmWorld fastDeepgram "Hi"); reflexivity |].
  split; [apply (H10 calmWorld helloWorld "Hello world"); try reflexivity;
          split; reflexivity |].
  apply (H11 calmWorld rawVoice "Hi"); try reflexivity; split; reflexivity.
Defined.

(** ** Voices *)

Lemma equalFold_lower a b :
  equalFold a b = true ->
  isASCII a = true /\ mapChars lowerChar a = mapChars lowerChar b.
Proof.
  revert b. induction a as [| x a IH]; intros [| y b] H; try discriminate.
  - split; reflexivity.
  - cbn [equalFold] in H.
    apply andb_true_iff in H as [H Hr].
    apply andb_true_iff in H as [H Hxy].
    apply andb_true_iff in H as [Hx Hy].
    apply Ascii.eqb_eq in Hxy. destruct (IH b Hr) as [Ha Hab].
    cbn [isASCII mapChars]. rewrite Hx, Ha, Hxy, Hab. split; reflexivity.
Qed.

(** An ASCII string that equals a lower-case name up to case is lowered
    to that name. *)
Lemma ToLower_fold lower voice name :
  mapChars lowerChar name = name -> equalFold voice name = true ->
  ToLower lower voice = name.
Proof.
  intros Hname H. apply equalFold_lower in H as [Ha Hl].
  unfold ToLower. rewrite Ha, Hl. exact Hname.
Qed.

Lemma isValidVoiceIn_In voices voice :
  isValidVoiceIn voices voice = true <-> In voice voices.
Proof.
  induction voices as [| v voices IH]; cbn [isValidVoiceIn In].
  - split; [discriminate | tauto].
  - destruct (String.eqb v voice) eqn:E.
    + apply String.eqb_eq in E. tauto.
    + apply String.eqb_neq in E. rewrite IH. tauto.
Qed.

Lemma elevenLabs_lookup name id :
  In (name, id) elevenLabsPresets ->
  elevenLabsVoices !! name = Some id /\ mapChars lowerChar name = name.
Proof.
  intros H. unfold elevenLabsPresets in H. cbn [In] in H.
  repeat (destruct H as [H | H];
          [injection H as <- <-; split; vm_compute; reflexivity |]).
  destruct H.
Qed.

Lemma deepgram_lookup name id :
  In (name, id) deepgramPresets ->
  deepgramVoices !! name = Some id /\ mapChars lowerChar name = name.
Proof.
  intros H. unfold deepgramPresets in H. cbn [In] in H.
  repeat (destruct H as [H | H];
          [injection H as <- <-; split; vm_compute; reflexivity |]).
  destruct H.
Qed.

Lemma lookup_presets (presets : list (string * string)) name id :
  (list_to_map presets : gmap string string) !! name = Some id ->
  In (name, id) presets.
Proof.
  intros H. apply elem_of_list_to_map_2 in H. apply list_elem_of_In. exact H.
Qed.

(** C3, as the specification states it, fails for OpenAI: [alloy] is a
    preset and [ALLOY] equals it up to case, yet the run with [-v ALLOY]
    ends with the invalid-voice error and makes no call. *)
Lemma voice_resolution_counterexample :
  In "alloy" openAIVoices
  /\ equalFold "ALLOY" "alloy" = true
  /\ voiceOf calmWorld shoutedVoice = "ALLOY"
  /\ run calmWorld (main shoutedVoice)
     = (Exited 1,
        [EStderr ("Error: Invalid OpenAI voice 'ALLOY'. Valid voices: "
                  +:+ "alloy, echo, fable, onyx, nova, shimmer" +:+ nl)])
  /\ synthCalls (snd (run calmWorld (main shoutedVoice))) = [].
Proof. repeat split; try reflexivity. left. reflexivity. Qed.

(** C3 (amended): for ElevenLabs and Deepgram, resolution looks the
    lowered voice up in the preset table, so every preset name, in any
    letter case, gives the identifier of the table, and a string whose
    lowered form is no preset name is returned unchanged.  OpenAI has no
    resolver: a voice is accepted only when it is a preset name exactly as
    written, and it is then sent verbatim. *)
Theorem voice_resolution :
  (forall lower name id voice,
     In (name, id) elevenLabsPresets ->
     ToLower lower voice = name \/ equalFold voice name = true ->
     resolveElevenLabsVoice lower voice = id)
  /\ (forall lower voice,
        (forall name id, In (name, id) elevenLabsPresets ->
                         ToLower lower voice <> name) ->
        resolveElevenLabsVoice lower voice = voice)
  /\ (forall lower name id voice,
        In (name, id) deepgramPresets ->
        ToLower lower voice = name \/ equalFold voice name = true ->
        resolveDeepgramVoice lower voice = id)
  /\ (forall lower voice,
        (forall name id, In (name, id) deepgramPresets ->
                         ToLower lower voice <> name) ->
        resolveDeepgramVoice lower voice = voice)
  /\ (forall voice, isValidOpenAIVoice voice = true <-> In voice openAIVoices)
  /\ (forall w c text,
        checked w c = true -> providerOf w c = "openai" -> flagAll c = false ->
        textOf w c = Some text -> In (voiceOf w c) openAIVoices ->
        exists rest,
          snd (run w (main c))
          = ESynth (CallOpenAI (apiKeyOf w c) (modelOf w c) (voiceOf w c) text
                      (flagSpeed c)) :: rest).
Proof.
  repeat apply conj.
  - intros lower name id voice Hin Hv.
    destruct (elevenLabs_lookup name id Hin) as [Hl Hn].
    assert (E : ToLower lower voice = name)
      by (destruct Hv as [Hv | Hv]; [exact Hv | exact (ToLower_fold _ _ _ Hn Hv)]).
    unfold resolveElevenLabsVoice. rewrite E, Hl. reflexivity.
  - intros lower voice Hmiss. unfold resolveElevenLabsVoice.
    destruct (elevenLabsVoices !! ToLower lower voice) as [id |] eqn:E;
      [| reflexivity].
    apply lookup_presets in E. destruct (Hmiss _ _ E eq_refl).
  - intros lower name id voice Hin Hv.
    destruct (deepgram_lookup name id Hin) as [Hl Hn].
    assert (E : ToLower lower voice = name)
      by (destruct Hv as [Hv | Hv]; [exact Hv | exact (ToLower_fold _ _ _ Hn Hv)]).
    unfold resolveDeepgramVoice. rewrite E, Hl. reflexivity.
  - intros lower voice Hmiss. unfold resolveDeepgramVoice.
    destruct (deepgramVoices !! ToLower lower voice) as [id |] eqn:E;
      [| reflexivity].
    apply lookup_presets in E. destruct (Hmiss _ _ E eq_refl).
  - intros voice. apply isValidVoiceIn_In.
  - intros w c text Hc Hp Hall Htext Hv.
    apply openai_dispatch; try assumption.
    apply isValidVoiceIn_In, Hv.
Qed.

Lemma voice_resolution_witness :
  resolveElevenLabsVoice (fun s => s) "RaChEl" = "21m00Tcm4TlvDq8ikWAM"
  /\ resolveDeepgramVoice (fun s => s) "LUNA" = "aura-luna-en"
  /\ (exists rest,
        snd (run calmWorld (main helloWorld))
        = ESynth (CallOpenAI "sk-env" "tts-1-hd" "alloy" "Hello world" f_1_0)
          :: rest).
Proof.
  destruct voice_resolution as (H1 & H2 & H3 & H4 & H5 & H6).
  split; [apply (H1 _ "rachel"); [left; reflexivity | right; reflexivity] |].
  split; [apply (H3 _ "luna"); [right; left; reflexivity | right; reflexivity] |].
  apply (H6 calmWorld helloWorld "Hello world"); try reflexivity.
  left. reflexivity.
Defined.

Lemma marshalFloat_finite f :
  isFinite f = true -> marshalFloat f = inl (JNumber f).
Proof. destruct f as [sg | sg | | sg mt ex]; try reflexivity; discriminate. Qed.

Lemma optionalFloat_finite name f :
  isFinite f = true -> exists fields, optionalFloat name f = inl fields.
Proof.
  intros Hf. unfold optionalFloat. destruct (isEmptyFloat f); [eauto |].
  rewrite (marshalFloat_finite f Hf). eauto.
Qed.

Lemma marshalElevenLabs_finite x m s st sb :
  isFinite s = true -> isFinite st = true -> isFinite sb = true ->
  exists body,
    marshalElevenLabs
      {| el_Text := x; el_ModelID := m;
         el_VoiceSettings := Some {| vs_Stability := st;
                                     vs_SimilarityBoost := sb;
                                     vs_Style := f_zero;
                                     vs_Speed := s |} |} = inl body.
Proof.
  intros Hs Hst Hsb.
  unfold marshalElevenLabs, marshalVoiceSettings.
  cbn [el_VoiceSettings el_Text el_ModelID vs_Stability vs_SimilarityBoost
       vs_Style vs_Speed].
  rewrite (marshalFloat_finite st Hst), (marshalFloat_finite sb Hsb).
  change (optionalFloat "style" f_zero) with (@inl (list (string * json)) string []).
  cbv iota beta.
  destruct (optionalFloat_finite "speed" s Hs) as [fields ->]. eauto.
Qed.

Lemma synthesizeElevenLabs_run k m v x s st sb w h :
  synthesizeElevenLabs k m v x s st sb w h =
    match marshalElevenLabs
            {| el_Text := x; el_ModelID := m;
               el_VoiceSettings := Some {| vs_Stability := st;
                                           vs_SimilarityBoost := sb;
                                           vs_Style := f_zero;
                                           vs_Speed := s |} |} with
    | inr e =>
        (Done (inr ("failed to marshal request: " +:+ e)),
         [ESynth (CallElevenLabs k m v x s st sb)])
    | inl body =>
        match newRequestError w "POST" (req_url (elevenLabsRequest k v body)) with
        | Some e =>
            (Done (inr ("failed to create request: " +:+ e)),
             [ESynth (CallElevenLabs k m v x s st sb)])
        | None =>
            let res := clientDo w (h ++ [ESynth (CallElevenLabs k m v x s st sb)])
                         (elevenLabsRequest k v body) in
            (Done (interpretResponse res),
             [ESynth (CallElevenLabs k m v x s st sb);
              EHttp 60 (elevenLabsRequest k v body) res])
        end
    end.
Proof.
  unfold synthesizeElevenLabs. unfold bind at 1. cbn [emit].
  destruct (marshalElevenLabs _) as [body | e]; [| reflexivity].
  rewrite (bind_done _ _ _ _ _ _ (newRequest_run _ _ _ _ _ _)).
  cbn [elevenLabsRequest req_url].
  destruct (newRequestError w "POST" _); [reflexivity |].
  rewrite app_nil_r. unfold roundTrip, bind, callHttp. reflexivity.
Qed.

(** A single-shot ElevenLabs run that passed the checks: the call with the
    resolved voice, and the exchange when the request can be built. *)
Lemma elevenlabs_dispatch w c text :
  checked w c = true -> providerOf w c = "elevenlabs" -> flagAll c = false ->
  textOf w c = Some text ->
  exists rest,
    snd (run w (main c))
    = ESynth (CallElevenLabs (apiKeyOf w c) (modelOf w c)
                (resolveElevenLabsVoice (unicodeLower w) (voiceOf w c)) text
                (flagSpeed c) (flagStability c) (flagSimilarity c))
      :: rest
    /\ (isFinite (flagSpeed c) = true -> isFinite (flagStability c) = true ->
        isFinite (flagSimilarity c) = true ->
        (forall body,
           newRequestError w "POST"
             (req_url (elevenLabsRequest (apiKeyOf w c)
                (resolveElevenLabsVoice (unicodeLower w) (voiceOf w c)) body))
           = None) ->
        exists body res rest',
          rest = EHttp 60 (elevenLabsRequest (apiKeyOf w c)
                   (resolveElevenLabsVoice (unicodeLower w) (voiceOf w c)) body) res
                 :: rest').
Proof.
  intros Hc Hp Hall Htext.
  destruct (main_checked w c Hc) as (text' & Htext' & _ & Hrun).
  rewrite Htext in Htext'. injection Htext' as <-.
  rewrite Hrun, Hp, Hall. cbv zeta.
  change (speedEvents "elevenlabs" (flagSpeed c)) with (@nil event).
  unfold speakOnce. unfold bind at 1.
  rewrite synthesize_elevenlabs, synthesizeElevenLabs_run.
  destruct (marshalElevenLabs _) as [body | e] eqn:Hm.
  2:{ destruct (bind _ _ _ _) as [o t]. cbn [snd app].
      eexists. split; [reflexivity |]. intros Hs Hst Hsb _.
      destruct (marshalElevenLabs_finite text (modelOf w c) _ _ _ Hs Hst Hsb) as [b Hb].
      rewrite Hb in Hm. discriminate. }
  destruct (newRequestError w "POST" _) as [e |] eqn:Hn.
  - destruct (bind _ _ _ _) as [o t]. cbn [snd app].
    eexists. split; [reflexivity |]. intros _ _ _ Hreq.
    rewrite Hreq in Hn. discriminate.
  - cbv beta iota zeta.
    match goal with |- context [interpretResponse ?r] =>
      destruct (interpretResponse r) as [audio | e] end.
    + destruct (deliver _ _ _ _ _) as [o t]. cbn [snd app].
      eexists. split; [reflexivity |]. intros _ _ _ _. eauto.
    + destruct (bind _ _ _ _) as [o t]. cbn [snd app].
      eexists. split; [reflexivity |]. intros _ _ _ _. eauto.
Qed.

Lemma openai_invalid_voice w c :
  flagHelp c = false -> flagAll c = false -> providerOf w c = "openai" ->
  isValidOpenAIVoice (voiceOf w c) = false ->
  fatalBeforeDispatch (run w (main c)).
Proof.
  intros Hh Hall Hp Hv.
  destruct (checked w c) eqn:Hc; [| exact (main_unchecked w c Hh Hc)].
  destruct (main_checked w c Hc) as (text & _ & _ & Hrun).
  rewrite Hrun, Hp, Hall. cbv zeta.
  change (speedEvents "openai" (flagSpeed c)) with (@nil event).
  unfold speakOnce.
  rewrite (bind_exited _ _ _ _ _ _ (synthesize_openai_invalid _ _ _ _ _ _ _ _ _ Hv)).
  exists 1. eexists [_]. split; [lia |]. split; [discriminate | reflexivity].
Qed.

(** A single-shot ElevenLabs run whose request [http.NewRequest] refuses:
    the call is entered, the error is reported and the process ends with
    status 1; nothing is sent. *)
Lemma elevenlabs_refused w c text e :
  checked w c = true -> providerOf w c = "elevenlabs" -> flagAll c = false ->
  textOf w c = Some text ->
  isFinite (flagSpeed c) = true -> isFinite (flagStability c) = true ->
  isFinite (flagSimilarity c) = true ->
  newRequestError w "POST"
    (elevenLabsAPIURL +:+ "/"
     +:+ resolveElevenLabsVoice (unicodeLower w) (voiceOf w c)
     +:+ "?output_format=mp3_44100_128") = Some e ->
  run w (main c)
  = (Exited 1,
     [ESynth (CallElevenLabs (apiKeyOf w c) (modelOf w c)
                (resolveElevenLabsVoice (unicodeLower w) (voiceOf w c)) text
                (flagSpeed c) (flagStability c) (flagSimilarity c));
      EStderr ("Error synthesizing speech: "
               +:+ ("failed to create request: " +:+ e) +:+ nl)]).
Proof.
  intros Hc Hp Hall Htext Hs Hst Hsb Hn.
  destruct (main_checked w c Hc) as (text' & Htext' & _ & Hrun).
  rewrite Htext in Htext'. injection Htext' as <-.
  rewrite Hrun, Hp, Hall. cbv zeta.
  change (speedEvents "elevenlabs" (flagSpeed c)) with (@nil event).
  unfold speakOnce. unfold bind at 1.
  rewrite synthesize_elevenlabs, synthesizeElevenLabs_run.
  destruct (marshalElevenLabs_finite text (modelOf w c) _ _ _ Hs Hst Hsb)
    as [body ->].
  cbn [elevenLabsRequest req_url]. rewrite Hn. reflexivity.
Qed.

(** The same for Deepgram, after the events of the speed validation. *)
Lemma deepgram_refused w c text e :
  checked w c = true -> providerOf w c = "deepgram" -> flagAll c = false ->
  textOf w c = Some text ->
  newRequestError w "POST"
    (deepgramAPIURL +:+ "?model="
     +:+ resolveDeepgramVoice (unicodeLower w) (voiceOf w c)
     +:+ "&encoding=mp3") = Some e ->
  run w (main c)
  = (Exited 1,
     speedEvents "deepgram" (flagSpeed c)
     ++ [ESynth (CallDeepgram (apiKeyOf w c)
                   (resolveDeepgramVoice (unicodeLower w) (voiceOf w c)) text);
         EStderr ("Error synthesizing speech: "
                  +:+ ("failed to create request: " +:+ e) +:+ nl)]).
Proof.
  intros Hc Hp Hall Htext Hn.
  destruct (main_checked w c Hc) as (text' & Htext' & _ & Hrun).
  rewrite Htext in Htext'. injection Htext' as <-.
  rewrite Hrun, Hp, Hall. cbv zeta.
  unfold speakOnce. unfold bind at 1.
  rewrite synthesize_deepgram, synthesizeDeepgram_run.
  cbn [deepgramRequest req_url]. rewrite Hn. reflexivity.
Qed.

(** C4, as the specification states it, fails for ElevenLabs: the voice
    [%zz] is no preset and passes every check, yet it is rejected locally:
    the URL built from it is refused when the request is created, the run
    ends with status 1 and nothing is dispatched. *)
Lemma voice_validation_counterexample :
  checked parsingWorld badEscapeVoice = true
  /\ providerOf parsingWorld badEscapeVoice = "elevenlabs"
  /\ flagAll badEscapeVoice = false
  /\ resolveElevenLabsVoice (unicodeLower parsingWorld)
       (voiceOf parsingWorld badEscapeVoice) = "%zz"
  /\ run parsingWorld (main badEscapeVoice)
     = (Exited 1,
        [ESynth (CallElevenLabs "xi-token" "eleven_multilingual_v2" "%zz" "Hi"
                   f_1_0 f_0_5 f_0_75);
         EStderr ("Error synthesizing speech: failed to create request: parse "
                  +:+ dquote
                  +:+ "https://api.elevenlabs.io/v1/text-to-speech/%zz?output_format=mp3_44100_128"
                  +:+ dquote +:+ ": invalid URL escape " +:+ dquote +:+ "%zz"
                  +:+ dquote +:+ nl)])
  /\ httpRequests (snd (run parsingWorld (main badEscapeVoice))) = [].
Proof. repeat split; reflexivity. Qed.

(** C4 (amended): in single-shot mode an OpenAI voice outside the preset
    list is a fatal error before any request is built; for ElevenLabs and
    Deepgram no voice is refused by a check of its name: whatever the
    voice, the call is made with the resolved string, and the checks made
    before synthesis never look at the voice.  The request goes out when
    [http.NewRequest] accepts the URL built from the resolved voice; when
    it refuses the URL, the run ends with status 1 on the error of the
    request and nothing is sent. *)
Theorem voice_validation :
  (forall w c,
     flagHelp c = false -> flagAll c = false -> providerOf w c = "openai" ->
     isValidOpenAIVoice (voiceOf w c) = false ->
     fatalBeforeDispatch (run w (main c)))
  /\ (forall w c text,
        checked w c = true -> providerOf w c = "elevenlabs" ->
        flagAll c = false -> textOf w c = Some text ->
        exists rest,
          snd (run w (main c))
          = ESynth (CallElevenLabs (apiKeyOf w c) (modelOf w c)
                      (resolveElevenLabsVoice (unicodeLower w) (voiceOf w c)) text
                      (flagSpeed c) (flagStability c) (flagSimilarity c))
            :: rest
          /\ (isFinite (flagSpeed c) = true -> isFinite (flagStability c) = true ->
              isFinite (flagSimilarity c) = true ->
              (forall body,
                 newRequestError w "POST"
                   (req_url (elevenLabsRequest (apiKeyOf w c)
                      (resolveElevenLabsVoice (unicodeLower w) (voiceOf w c)) body))
                 = None) ->
              exists body res rest',
                rest = EHttp 60 (elevenLabsRequest (apiKeyOf w c)
                         (resolveElevenLabsVoice (unicodeLower w) (voiceOf w c)) body)
                         res :: rest'))
  /\ (forall w c text,
        checked w c = true -> providerOf w c = "deepgram" ->
        flagAll c = false -> textOf w c = Some text ->
        exists rest,
          snd (run w (main c))
          = speedEvents "deepgram" (flagSpeed c)
            ++ ESynth (CallDeepgram (apiKeyOf w c)
                         (resolveDeepgramVoice (unicodeLower w) (voiceOf w c)) text)
               :: rest
          /\ (newRequestError w "POST"
                (req_url (deepgramRequest (apiKeyOf w c)
                   (resolveDeepgramVoice (unicodeLower w) (voiceOf w c)) text))
              = None ->
              exists res rest',
                rest = EHttp 60 (deepgramRequest (apiKeyOf w c)
                         (resolveDeepgramVoice (unicodeLower w) (voiceOf w c)) text)
                         res :: rest'))
  /\ (forall w c voice, checked w (setVoice c voice) = checked w c)
  /\ (forall w c text e,
        checked w c = true -> providerOf w c = "elevenlabs" ->
        flagAll c = false -> textOf w c = Some text ->
        isFinite (flagSpeed c) = true -> isFinite (flagStability c) = true ->
        isFinite (flagSimilarity c) = true ->
        newRequestError w "POST"
          (elevenLabsAPIURL +:+ "/"
           +:+ resolveElevenLabsVoice (unicodeLower w) (voiceOf w c)
           +:+ "?output_format=mp3_44100_128") = Some e ->
        run w (main c)
        = (Exited 1,
           [ESynth (CallElevenLabs (apiKeyOf w c) (modelOf w c)
                      (resolveElevenLabsVoice (unicodeLower w) (voiceOf w c)) text
                      (flagSpeed c) (flagStability c) (flagSimilarity c));
            EStderr ("Error synthesizing speech: "
                     +:+ ("failed to create request: " +:+ e) +:+ nl)]))
  /\ (forall w c text e,
        checked w c = true -> providerOf w c = "deepgram" ->
        flagAll c = false -> textOf w c = Some text ->
        newRequestError w "POST"
          (deepgramAPIURL +:+ "?model="
           +:+ resolveDeepgramVoice (unicodeLower w) (voiceOf w c)
           +:+ "&encoding=mp3") = Some e ->
        run w (main c)
        = (Exited 1,
           speedEvents "deepgram" (flagSpeed c)
           ++ [ESynth (CallDeepgram (apiKeyOf w c)
                         (resolveDeepgramVoice (unicodeLower w) (voiceOf w c))
                         text);
               EStderr ("Error synthesizing speech: "
                        +:+ ("failed to create request: " +:+ e) +:+ nl)])).
Proof.
  repeat apply conj.
  - exact openai_invalid_voice.
  - exact elevenlabs_dispatch.
  - exact deepgram_dispatch.
  - reflexivity.
  - exact elevenlabs_refused.
  - exact deepgram_refused.
Qed.

Lemma voice_validation_witness :
  fatalBeforeDispatch (run calmWorld (main shoutedVoice))
  /\ (exists rest,
        snd (run calmWorld (main rawVoice))
        = ESynth (CallElevenLabs "xi-token" "eleven_multilingual_v2"
                    "nonexistent-preset" "Hi" f_1_0 f_0_5 f_0_75)
          :: rest
        /\ exists body res rest',
             rest = EHttp 60 (elevenLabsRequest "xi-token" "nonexistent-preset" body)
                      res :: rest')
  /\ (exists rest,
        snd (run calmWorld (main fastDeepgram))
        = [EStderr speedWarning;
           ESynth (CallDeepgram "dg-token" "aura-luna-en" "Hi")] ++ rest)
  /\ fst (run parsingWorld (main badEscapeVoice)) = Exited 1.
Proof.
  destruct voice_validation as (H1 & H2 & H3 & _ & H5 & _).
  split; [apply H1; reflexivity |].
  split.
  - destruct (H2 calmWorld rawVoice "Hi") as (rest & E & Hsend);
      try reflexivity.
    exists rest. split; [exact E |].
    apply Hsend; reflexivity.
  - split.
    + destruct (H3 calmWorld fastDeepgram "Hi") as (rest & E & _);
        try reflexivity.
      exists rest. exact E.
    + rewrite (H5 parsingWorld badEscapeVoice "Hi" _ eq_refl eq_refl eq_refl
                 eq_refl eq_refl eq_refl eq_refl eq_refl).
      reflexivity.
Defined.

Lemma speedEvents_stderr p s : exists msgs, speedEvents p s = map EStderr msgs.
Proof.
  unfold speedEvents, switchProvider.
  repeat match goal with |- context [if ?b then _ else _] => destruct b end;
    solve [exists []; reflexivity | eexists [_]; reflexivity].
Qed.

(** The run of a single-shot invocation that passed the checks, seen from
    its result. *)
Lemma single_shot_run w c :
  checked w c = true -> flagAll c = false ->
  (fst (run w (main c)) = Done tt
   /\ exists audio,
        received (snd (run w (main c))) = [audio]
        /\ forallb (fun e => negb (isSinkFailure e)) (snd (run w (main c))) = true
        /\ written (snd (run w (main c)))
           = (if isEmpty (flagOutput c) then [] else [(flagOutput c, audio)])
        /\ played (snd (run w (main c)))
           = (if isEmpty (flagOutput c) || flagSpeak c then [audio] else []))
  \/ (fst (run w (main c)) = Exited 1
      /\ (received (snd (run w (main c))) = []
          \/ forallb (fun e => negb (isSinkFailure e)) (snd (run w (main c))) = false)
      /\ exists t' msg, snd (run w (main c)) = t' ++ [EStderr msg]).
Proof.
  intros Hc Hall.
  destruct (main_checked w c Hc) as (text & _ & _ & Hrun).
  rewrite Hrun, Hall. cbv zeta.
  assert (Hp : isProvider (providerOf w c) = true).
  { unfold checked in Hc. destruct (isProvider (providerOf w c)); [reflexivity |].
    rewrite andb_false_r in Hc. discriminate. }
  destruct (speedEvents_stderr (providerOf w c) (flagSpeed c)) as [msgs Hpre].
  destruct (stderr_only msgs) as (_ & _ & Hpl & Hwr & Hrc & Hq).
  rewrite <- Hpre in Hpl, Hwr, Hrc, Hq.
  destruct (speakOnce_spec (providerOf w c) (apiKeyOf w c) (modelOf w c) (voiceOf w c)
              text (flagSpeed c) (flagStability c) (flagSimilarity c)
              (flagOutput c) (flagSpeak c) w (speedEvents (providerOf w c) (flagSpeed c)) Hp)
    as (o & t & -> & [(-> & audio & Hr & Hq' & Hw' & Hp') | (-> & Hfail & t' & msg & ->)]);
    cbn [fst snd].
  - left. split; [reflexivity |]. exists audio.
    rewrite received_app, quiet_app, written_app, played_app.
    rewrite Hrc, Hq, Hwr, Hpl, Hr, Hq', Hw', Hp'. repeat split.
  - right. split; [reflexivity |]. split.
    + rewrite received_app, quiet_app, Hrc, Hq. exact Hfail.
    + eexists (_ ++ t'), msg. apply app_assoc.
Qed.

(** C5: a single-shot invocation that ends with status 0 received one audio
    buffer; it wrote it to the output path exactly when a path was given,
    and played it exactly when no path was given or the speak flag was set;
    no other file output or playback was attempted. *)
Theorem output_orchestration (w : World) (c : Flags) :
  flagHelp c = false -> flagAll c = false ->
  exitStatus (fst (run w (main c))) = 0 ->
  exists audio,
    received (snd (run w (main c))) = [audio]
    /\ forallb (fun e => negb (isSinkFailure e)) (snd (run w (main c))) = true
    /\ (flagOutput c = EmptyString -> flagSpeak c = false ->
        played (snd (run w (main c))) = [audio]
        /\ written (snd (run w (main c))) = [])
    /\ (flagOutput c <> EmptyString -> flagSpeak c = false ->
        written (snd (run w (main c))) = [(flagOutput c, audio)]
        /\ played (snd (run w (main c))) = [])
    /\ (flagOutput c <> EmptyString -> flagSpeak c = true ->
        written (snd (run w (main c))) = [(flagOutput c, audio)]
        /\ played (snd (run w (main c))) = [audio])
    /\ (played (snd (run w (main c))) = [audio]
        <-> flagOutput c = EmptyString \/ flagSpeak c = true)
    /\ (played (snd (run w (main c))) = []
        <-> ~ (flagOutput c = EmptyString \/ flagSpeak c = true)).
Proof.
  intros Hh Hall Hexit.
  destruct (checked w c) eqn:Hc.
  2:{ destruct (main_unchecked w c Hh Hc) as (code & msgs & Hcode & _ & E).
      rewrite E in Hexit. cbn in Hexit. contradiction. }
  destruct (single_shot_run w c Hc Hall)
    as [(_ & audio & Hr & Hq & Hw & Hp) | (E & _)].
  2:{ rewrite E in Hexit. discriminate. }
  exists audio. split; [exact Hr |]. split; [exact Hq |].
  rewrite Hw, Hp. clear Hw Hp.
  destruct (isEmpty (flagOutput c)) eqn:Ho;
    [apply isEmpty_true in Ho | apply isEmpty_false in Ho];
    destruct (flagSpeak c); cbn [orb];
    repeat split; try tauto; try congruence; try discriminate;
    intuition congruence.
Qed.

Lemma output_orchestration_witness :
  exists audio,
    received (snd (run calmWorld (main saveOnly))) = [audio]
    /\ written (snd (run calmWorld (main saveOnly))) = [("out.mp3", audio)]
    /\ played (snd (run calmWorld (main saveOnly))) = [].
Proof.
  destruct (output_orchestration calmWorld saveOnly) as (audio & Hr & _ & _ & H & _);
    try reflexivity.
  exists audio. split; [exact Hr |]. apply H; [discriminate | reflexivity].
Defined.

(** ** Credentials *)









(** ** Fatal errors *)

Lemma fatal_nothing_sent r :
  fatalBeforeDispatch r ->
  exitStatus (fst r) <> 0
  /\ synthCalls (snd r) = [] /\ httpRequests (snd r) = []
  /\ exists t msg, snd r = t ++ [EStderr msg].
Proof.
  intros (code & msgs & Hcode & Hmsgs & ->). cbn [fst snd exitStatus].
  destruct (stderr_only msgs) as (Hs & Hh & _).
  repeat split; try assumption.
  destruct (exists_last Hmsgs) as (front & msg & ->).
  exists (map EStderr front), msg. rewrite map_app. reflexivity.
Qed.

Lemma all_flag_other_provider w c :
  flagHelp c = false -> flagAll c = true -> providerOf w c <> "openai" ->
  fatalBeforeDispatch (run w (main c)).
Proof.
  intros Hh Hall Hp.
  destruct (checked w c) eqn:Hc; [| exact (main_unchecked w c Hh Hc)].
  destruct (main_checked w c Hc) as (text & _ & _ & Hrun).
  rewrite Hrun, Hall. cbv zeta. rewrite (speakAll_other _ _ _ _ _ _ _ Hp).
  destruct (speedEvents_stderr (providerOf w c) (flagSpeed c)) as [msgs ->].
  exists 1, (msgs ++ ["Error: --all flag is only supported for OpenAI provider" +:+ nl]).
  split; [lia |]. split; [destruct msgs; discriminate |].
  rewrite map_app. reflexivity.
Qed.

(** C7: with the all flag and a provider other than OpenAI the run ends
    with a status other than 0 after messages on standard error only: no
    synthesize function is entered and no request is sent. *)
Theorem all_flag_needs_openai (w : World) (c : Flags) :
  flagHelp c = false -> flagAll c = true -> providerOf w c <> "openai" ->
  fatalBeforeDispatch (run w (main c))
  /\ exitStatus (fst (run w (main c))) <> 0
  /\ synthCalls (snd (run w (main c))) = []
  /\ httpRequests (snd (run w (main c))) = [].
Proof.
  intros Hh Hall Hp.
  assert (F : fatalBeforeDispatch (run w (main c)))
    by (apply all_flag_other_provider; assumption).
  split; [exact F |].
  destruct (fatal_nothing_sent _ F) as (H1 & H2 & H3 & _). auto.
Qed.

Lemma all_flag_needs_openai_witness :
  fatalBeforeDispatch (run calmWorld (main demoAllElevenLabs))
  /\ exitStatus (fst (run calmWorld (main demoAllElevenLabs))) <> 0
  /\ synthCalls (snd (run calmWorld (main demoAllElevenLabs))) = []
  /\ httpRequests (snd (run calmWorld (main demoAllElevenLabs))) = [].
Proof.
  apply all_flag_needs_openai; [reflexivity | reflexivity | discriminate].
Defined.

(** ** The Deepgram request *)

(** C8: the request of [synthesizeDeepgram] is a function of the key, the
    voice model and the text alone: POST to the API URL with the model and
    the mp3 encoding as query parameters, an Authorization header of the
    Token kind, and a body that holds the text field only.  It is sent at
    most once, and exactly once when it can be built; in a run of [main] for
    Deepgram every request sent is that one for the resolved voice. *)
Theorem deepgram_request_shape :
  (forall apiKey voiceModel text,
     req_method (deepgramRequest apiKey voiceModel text) = "POST"
     /\ req_url (deepgramRequest apiKey voiceModel text)
        = "https://api.deepgram.com/v1/speak?model=" +:+ voiceModel
          +:+ "&encoding=mp3"
     /\ req_headers (deepgramRequest apiKey voiceModel text)
        = [("Content-Type", "application/json");
           ("Authorization", "Token " +:+ apiKey)]
     /\ req_body (deepgramRequest apiKey voiceModel text)
        = JObject [("text", JString text)])
  /\ (forall apiKey voiceModel text w h req,
        In req (httpRequests (snd (synthesizeDeepgram apiKey voiceModel text w h))) ->
        req = deepgramRequest apiKey voiceModel text)
  /\ (forall apiKey voiceModel text w h,
        newRequestError w "POST" (req_url (deepgramRequest apiKey voiceModel text))
        = None ->
        httpRequests (snd (synthesizeDeepgram apiKey voiceModel text w h))
        = [deepgramRequest apiKey voiceModel text])
  /\ (forall w c text req,
        providerOf w c = "deepgram" -> textOf w c = Some text ->
        In req (httpRequests (snd (run w (main c)))) ->
        req = deepgramRequest (apiKeyOf w c)
                (resolveDeepgramVoice (unicodeLower w) (voiceOf w c)) text).
Proof.
  repeat apply conj.
  - intros apiKey voiceModel text. repeat split.
  - intros apiKey voiceModel text w h req.
    rewrite synthesizeDeepgram_run.
    destruct (newRequestError w "POST" _); cbn [snd httpRequests In];
      [tauto | intros [<- | []]; reflexivity].
  - intros apiKey voiceModel text w h Hn.
    rewrite synthesizeDeepgram_run, Hn. reflexivity.
  - intros w c text req Hp Htext Hin.
    destruct (deepgram_requests w c text Hp Htext) as [E | E];
      rewrite E in Hin; [destruct Hin |].
    destruct Hin as [<- | []]. reflexivity.
Qed.

Lemma deepgram_request_shape_witness :
  httpRequests (snd (synthesizeDeepgram "dg-token" "aura-luna-en" "Hi" calmWorld []))
  = [deepgramRequest "dg-token" "aura-luna-en" "Hi"]
  /\ (forall req,
        In req (httpRequests (snd (run calmWorld (main fastDeepgram)))) ->
        req = deepgramRequest "dg-token" "aura-luna-en" "Hi").
Proof.
  destruct deepgram_request_shape as (_ & _ & H3 & H4).
  split; [apply H3; reflexivity |].
  intros req. apply (H4 calmWorld fastDeepgram "Hi"); reflexivity.
Defined.

(** ** Exit status *)

Lemma demo_all_returns w c :
  checked w c = true -> flagAll c = true -> providerOf w c = "openai" ->
  fst (run w (main c)) = Done tt.
Proof.
  intros Hc Hall Hp.
  destruct (main_checked w c Hc) as (text & _ & _ & Hrun).
  rewrite Hrun, Hall, Hp. cbv zeta. rewrite speakAll_openai.
  destruct (forEach_speakVoice (apiKeyOf w c) (modelOf w c) text (flagSpeed c)
              openAIVoices w (speedEvents "openai" (flagSpeed c)))
    as (announced & t & _ & -> & _).
  reflexivity.
Qed.

Lemma demo_all_other_provider w c :
  checked w c = true -> flagAll c = true -> providerOf w c <> "openai" ->
  fatalBeforeDispatch (run w (main c)).
Proof.
  intros Hc Hall Hp. apply all_flag_other_provider; try assumption.
  unfold checked in Hc. destruct (flagHelp c); [discriminate | reflexivity].
Qed.

(** C9: a status other than 0 always follows a message on standard error;
    a failed check gives such a status; a single-shot run ends with status
    0 exactly when it received the audio and no file output or playback
    failed; a demo-all run that entered its loop ends with status 0
    whatever its attempts did. *)
Theorem exit_behavior (w : World) (c : Flags) :
  (exitStatus (fst (run w (main c))) <> 0 ->
   exists t msg, snd (run w (main c)) = t ++ [EStderr msg])
  /\ (flagHelp c = false -> checked w c = false ->
      exitStatus (fst (run w (main c))) <> 0)
  /\ (flagHelp c = false -> flagAll c = false ->
      (exitStatus (fst (run w (main c))) = 0
       <-> received (snd (run w (main c))) <> []
           /\ forallb (fun e => negb (isSinkFailure e)) (snd (run w (main c)))
              = true))
  /\ (checked w c = true -> flagAll c = true -> providerOf w c = "openai" ->
      fst (run w (main c)) = Done tt
      /\ exitStatus (fst (run w (main c))) = 0).
Proof.
  repeat apply conj.
  - intros Hexit.
    destruct (flagHelp c) eqn:Hh.
    { rewrite (main_help w c Hh) in Hexit. cbn in Hexit. contradiction. }
    destruct (checked w c) eqn:Hc.
    2:{ apply fatal_nothing_sent, main_unchecked; assumption. }
    destruct (flagAll c) eqn:Hall.
    + destruct (String.eqb (providerOf w c) "openai") eqn:Hp.
      * apply String.eqb_eq in Hp.
        rewrite (demo_all_returns w c Hc Hall Hp) in Hexit.
        cbn in Hexit. contradiction.
      * apply String.eqb_neq in Hp.
        apply fatal_nothing_sent, demo_all_other_provider; assumption.
    + destruct (single_shot_run w c Hc Hall) as [(E & _) | (_ & _ & H)];
        [| exact H].
      rewrite E in Hexit. cbn in Hexit. contradiction.
  - intros Hh Hc. apply fatal_nothing_sent, main_unchecked; assumption.
  - intros Hh Hall.
    destruct (checked w c) eqn:Hc.
    + destruct (single_shot_run w c Hc Hall)
        as [(E & audio & Hr & Hq & _) | (E & Hfail & _)]; rewrite E; cbn [exitStatus].
      * rewrite Hr, Hq. split; [intros _; split; [discriminate | reflexivity] | reflexivity].
      * split; [discriminate |]. intros [Hr Hq].
        destruct Hfail as [Hf | Hf]; [contradiction | congruence].
    + destruct (main_unchecked w c Hh Hc) as (code & msgs & Hcode & _ & E).
      rewrite E. cbn [fst snd exitStatus].
      split; [contradiction |]. intros [Hr _].
      destruct (stderr_only msgs) as (_ & _ & _ & _ & Hrc & _). contradiction.
  - intros Hc Hall Hp. rewrite (demo_all_returns w c Hc Hall Hp).
    split; reflexivity.
Qed.

Lemma exit_behavior_witness :
  exitStatus (fst (run offlineWorld (main demoAll))) = 0
  /\ exitStatus (fst (run offlineWorld (main helloWorld))) <> 0
  /\ exitStatus (fst (run calmWorld (main helloWorld))) = 0
  /\ exitStatus (fst (run bareWorld (main helloWorld))) <> 0.
Proof.
  split; [apply (exit_behavior offlineWorld demoAll); reflexivity |].
  split.
  - intros H.
    apply (proj1 (proj2 (proj2 (exit_behavior offlineWorld helloWorld)))) in H;
      try reflexivity.
    destruct H as [H _]. apply H. reflexivity.
  - split.
    + apply (proj1 (proj2 (proj2 (exit_behavior calmWorld helloWorld))));
        try reflexivity.
      split; [discriminate | reflexivity].
    + apply (exit_behavior bareWorld helloWorld); reflexivity.
Defined.

(** ** The voice flag in demo-all mode *)

Lemma attempts_announce_all k m x s voices announced v :
  length announced = length voices -> In v voices ->
  In (announcement k m s v) (attempts k m x s voices announced).
Proof.
  revert announced. induction voices as [| u voices IH]; intros [| ok oks] L Hin;
    try discriminate; [destruct Hin |].
  injection L as L. cbn [attempts].
  destruct Hin as [-> | Hin]; [left; reflexivity |].
  right. apply in_or_app. right. apply IH; assumption.
Qed.

Lemma main_all_voice w c voice :
  flagAll c = true -> run w (main (setVoice c voice)) = run w (main c).
Proof.
  intros Hall. unfold run, main.
  cbn [setVoice flagProvider flagVoice flagModel flagOutput flagSpeed flagSpeak
       flagToken flagHelp flagAll flagStability flagSimilarity flagArgs].
  rewrite Hall. reflexivity.
Qed.

(** C10: with the all flag the run is the same whatever the voice flag
    holds; in particular, with OpenAI and the checks passed, the run
    returns and announces every preset voice, valid voice flag or not. *)
Theorem all_ignores_voice (w : World) (c : Flags) (voice : string) :
  flagAll c = true ->
  run w (main (setVoice c voice)) = run w (main c)
  /\ (checked w c = true -> providerOf w c = "openai" ->
      fst (run w (main (setVoice c voice))) = Done tt
      /\ forall v, In v openAIVoices ->
           In (announcement (apiKeyOf w c) (modelOf w c) (flagSpeed c) v)
              (synthCalls (snd (run w (main (setVoice c voice)))))).
Proof.
  intros Hall. split; [apply main_all_voice, Hall |].
  intros Hc Hp. rewrite (main_all_voice w c voice Hall).
  split; [apply demo_all_returns; assumption |].
  intros v Hv.
  destruct (main_checked w c Hc) as (text & _ & _ & Hrun).
  rewrite Hrun, Hall, Hp. cbv zeta. rewrite speakAll_openai.
  destruct (forEach_speakVoice (apiKeyOf w c) (modelOf w c) text (flagSpeed c)
              openAIVoices w (speedEvents "openai" (flagSpeed c)))
    as (announced & t & L & -> & C).
  cbn [snd]. rewrite synthCalls_app, C.
  change (synthCalls (speedEvents "openai" (flagSpeed c))) with (@nil SynthCall).
  apply attempts_announce_all; assumption.
Qed.

Lemma all_ignores_voice_witness :
  run calmWorld (main demoAllOddVoice) = run calmWorld (main demoAll)
  /\ isValidOpenAIVoice (flagVoice demoAllOddVoice) = false
  /\ fst (run calmWorld (main demoAllOddVoice)) = Done tt.
Proof.
  destruct (all_ignores_voice calmWorld demoAll "nosuchvoice" eq_refl)
    as [H1 H2].
  destruct (H2 eq_refl eq_refl) as [H3 _].
  split; [exact H1 |]. split; [reflexivity | exact H3].
Defined.

(** * Further properties of the program *)

(** ** The run of main, stage by stage *)

Lemma validateSpeed_run p s w h :
  validateSpeed p s w h = validateSpeed p s w [].
Proof.
  unfold validateSpeed, switchProvider, when.
  repeat match goal with |- context [if ?b then _ else _] => destruct b end;
    reflexivity.
Qed.

Lemma getText_run args w h : getText args w h = getText args w [].
Proof.
  unfold getText. destruct args; [| reflexivity].
  unfold bind, ask. destruct (stdin w) as [| | data [e |]]; reflexivity.
Qed.

(** The run of [main] as the sequence of its checks. *)
Lemma main_run w c :
  run w (main c) =
    if flagHelp c then (Exited 0, map EStderr usageLines)
    else if negb (isProvider (providerOf w c)) then
      (Exited 1,
       [EStderr ("Error: Invalid provider '" +:+ providerOf w c
                 +:+ "'. Use 'openai', 'elevenlabs', or 'deepgram'" +:+ nl)])
    else if isEmpty (apiKeyOf w c) then
      (Exited 1,
       [EStderr ("Error: " +:+ envVarOf (providerOf w c)
                 +:+ " environment variable not set and --token not provided"
                 +:+ nl)])
    else
      match validateSpeed (providerOf w c) (flagSpeed c) w [] with
      | (Exited code, t1) => (Exited code, t1)
      | (Done _, t1) =>
          match getText (flagArgs c) w [] with
          | (Exited code, t2) => (Exited code, t1 ++ t2)
          | (Done text, t2) =>
              if isEmpty text then
                (Exited 1,
                 t1 ++ t2 ++ EStderr ("Error: No text provided" +:+ nl)
                            :: map EStderr usageLines)
              else
                let (o, t3) :=
                  (if flagAll c then
                     speakAll (providerOf w c) (apiKeyOf w c) (modelOf w c) text
                       (flagSpeed c)
                   else
                     speakOnce (providerOf w c) (apiKeyOf w c) (modelOf w c)
                       (voiceOf w c) text (flagSpeed c) (flagStability c)
                       (flagSimilarity c) (flagOutput c) (flagSpeak c))
                    w (t1 ++ t2) in
                (o, t1 ++ t2 ++ t3)
          end
      end.
Proof.
  unfold run, main.
  unfold bind at 1. destruct (flagHelp c); [reflexivity |]. cbn [when ret].
  unfold bind at 1. cbn [ask]. fold (providerOf w c).
  unfold bind at 1. destruct (isProvider (providerOf w c)); cbn [negb when ret];
    [| reflexivity].
  fold (voiceOf w c) (modelOf w c).
  rewrite (bind_done _ _ _ _ _ _ (getAPIKey_run w _ c)).
  unfold bind at 1. destruct (isEmpty (apiKeyOf w c)); cbn [when ret];
    [reflexivity |].
  cbn [app]. unfold bind at 1.
  destruct (validateSpeed _ _ w []) as [[[] | code] t1]; [| reflexivity].
  unfold bind at 1. rewrite getText_run.
  destruct (getText _ w []) as [[text | code] t2]; [| reflexivity].
  unfold bind at 1. destruct (isEmpty text); cbn [when ret].
  - unfold bind. cbn [stderr emit osExit]. rewrite Usage_run.
    cbn [app]. rewrite !app_nil_r. reflexivity.
  - cbn [app]. rewrite !app_nil_r.
    destruct (flagAll c);
      [destruct (speakAll _ _ _ _ _ _ _) | destruct (speakOnce _ _ _ _ _ _ _ _ _ _ _ _)];
      reflexivity.
Qed.

(** ** More observations on traces *)

Lemma playbacks_app t u : playbacks (t ++ u) = playbacks t ++ playbacks u.
Proof.
  induction t as [| e t IH]; [reflexivity |].
  destruct e; cbn [app playbacks]; rewrite IH; reflexivity.
Qed.

Lemma fileOutputs_app t u : fileOutputs (t ++ u) = fileOutputs t ++ fileOutputs u.
Proof.
  induction t as [| e t IH]; [reflexivity |].
  destruct e; cbn [app fileOutputs]; rewrite IH; reflexivity.
Qed.

Lemma effects_app t u : effects (t ++ u) = effects t ++ effects u.
Proof.
  induction t as [| e t IH]; [reflexivity |].
  destruct e; cbn [app effects]; rewrite IH; reflexivity.
Qed.

Lemma messages_app t u : messages (t ++ u) = messages t ++ messages u.
Proof.
  induction t as [| e t IH]; [reflexivity |].
  destruct e; cbn [app messages]; rewrite IH; reflexivity.
Qed.

Lemma stderr_silent msgs :
  playbacks (map EStderr msgs) = [] /\ fileOutputs (map EStderr msgs) = []
  /\ effects (map EStderr msgs) = [] /\ messages (map EStderr msgs) = msgs.
Proof.
  induction msgs as [| m msgs IH]; [repeat split |].
  cbn. destruct IH as (? & ? & ? & ->). repeat split; assumption.
Qed.

Lemma playbacks_sleeps ms n : playbacks (repeat (ESleep ms) n) = [].
Proof. induction n; [reflexivity | exact IHn]. Qed.

Lemma fileOutputs_sleeps ms n : fileOutputs (repeat (ESleep ms) n) = [].
Proof. induction n; [reflexivity | exact IHn]. Qed.

Lemma messages_sleeps ms n : messages (repeat (ESleep ms) n) = [].
Proof. induction n; [reflexivity | exact IHn]. Qed.

Create Rewrite HintDb observe2.
#[local] Hint Rewrite synthCalls_app httpRequests_app played_app written_app
  received_app playbacks_app fileOutputs_app messages_app effects_app
  synthCalls_sleeps httpRequests_sleeps played_sleeps written_sleeps
  received_sleeps playbacks_sleeps fileOutputs_sleeps messages_sleeps
  app_nil_r : observe2.

(** Normalizes every observation made on a trace given piece by piece. *)
Ltac observe_all :=
  repeat first
    [ progress autorewrite with observe2
    | progress cbn [app synthCalls httpRequests played written received
                    playbacks fileOutputs messages effects length] ].

Lemma speedEvents_silent p s :
  synthCalls (speedEvents p s) = [] /\ httpRequests (speedEvents p s) = []
  /\ playbacks (speedEvents p s) = [] /\ fileOutputs (speedEvents p s) = []
  /\ effects (speedEvents p s) = [].
Proof.
  destruct (speedEvents_stderr p s) as [msgs ->].
  destruct (stderr_only msgs) as (? & ? & _).
  destruct (stderr_silent msgs) as (? & ? & ? & _).
  repeat split; assumption.
Qed.

(** ** The requests of OpenAI and ElevenLabs *)

Lemma marshalFloat_inl f j :
  marshalFloat f = inl j <-> isFinite f = true /\ j = JNumber f.
Proof.
  destruct f as [sg | [] | | sg mt ex]; cbn; split;
    try (intros [= <-]; split; reflexivity);
    try (intros [_ ->]; reflexivity);
    try discriminate; intros [H _]; discriminate.
Qed.

Lemma marshalFloat_inr f e :
  marshalFloat f = inr e ->
  isFinite f = false
  /\ In e ["json: unsupported value: NaN"; "json: unsupported value: +Inf";
           "json: unsupported value: -Inf"].
Proof.
  destruct f as [sg | [] | | sg mt ex]; cbn; try discriminate;
    intros [= <-]; split; auto.
Qed.

Lemma synthesizeOpenAI_run k m v x s w h :
  synthesizeOpenAI k m v x s w h =
    match marshalFloat s with
    | inr e =>
        (Done (inr ("failed to marshal request: " +:+ e)),
         [ESynth (CallOpenAI k m v x s)])
    | inl _ =>
        match newRequestError w "POST" openAIAPIURL with
        | Some e =>
            (Done (inr ("failed to create request: " +:+ e)),
             [ESynth (CallOpenAI k m v x s)])
        | None =>
            let res := clientDo w (h ++ [ESynth (CallOpenAI k m v x s)])
                         (openAIRequest k m v x s) in
            (Done (interpretResponse res),
             [ESynth (CallOpenAI k m v x s);
              EHttp 60 (openAIRequest k m v x s) res])
        end
    end.
Proof.
  unfold synthesizeOpenAI. unfold bind at 1. cbn [emit].
  unfold marshalOpenAI. cbn [oa_Speed oa_Model oa_Input oa_Voice oa_ResponseFormat].
  destruct (marshalFloat s) as [j | e] eqn:Hs; [| reflexivity].
  apply marshalFloat_inl in Hs as [_ ->].
  rewrite (bind_done _ _ _ _ _ _ (newRequest_run _ _ _ _ _ _)).
  fold (openAIRequest k m v x s).
  destruct (newRequestError w "POST" openAIAPIURL); [reflexivity |].
  rewrite app_nil_r. unfold roundTrip, bind, callHttp. reflexivity.
Qed.

(** X1: every request [synthesizeOpenAI] sends is the POST to the speech
    endpoint with the Bearer key and the five fields of the body; it is
    sent once when the speed can be encoded and the request built, and a
    speed that JSON cannot carry (NaN, an infinity) is reported as a
    marshalling error without any exchange. *)
Theorem openai_request_shape (k m v x : string) (s : float64) (w : World)
    (h : trace) :
  (forall req,
     In req (httpRequests (snd (synthesizeOpenAI k m v x s w h))) ->
     req = openAIRequest k m v x s /\ isFinite s = true)
  /\ (isFinite s = true -> newRequestError w "POST" openAIAPIURL = None ->
      httpRequests (snd (synthesizeOpenAI k m v x s w h))
      = [openAIRequest k m v x s])
  /\ (isFinite s = false ->
      exists e,
        synthesizeOpenAI k m v x s w h
        = (Done (inr ("failed to marshal request: json: unsupported value: " +:+ e)),
           [ESynth (CallOpenAI k m v x s)])
        /\ In e ["NaN"; "+Inf"; "-Inf"]).
Proof.
  rewrite synthesizeOpenAI_run. repeat apply conj.
  - intros req. destruct (marshalFloat s) as [j | e] eqn:Hs; [| intros []].
    apply marshalFloat_inl in Hs as [Hs _].
    destruct (newRequestError w "POST" openAIAPIURL); [intros [] |].
    cbn [snd httpRequests In]. intros [<- | []]. split; [reflexivity | exact Hs].
  - intros Hs Hn. rewrite (marshalFloat_finite s Hs), Hn. reflexivity.
  - intros Hs. destruct s as [sg | [] | | sg mt ex]; try discriminate; cbn [marshalFloat].
    + exists "-Inf". split; [reflexivity | right; right; left; reflexivity].
    + exists "+Inf". split; [reflexivity | right; left; reflexivity].
    + exists "NaN". split; [reflexivity | left; reflexivity].
Qed.

Lemma openai_request_shape_witness :
  httpRequests (snd (synthesizeOpenAI "sk" "tts-1" "nova" "Hi" f_2_0 calmWorld []))
  = [openAIRequest "sk" "tts-1" "nova" "Hi" f_2_0]
  /\ httpRequests (snd (synthesizeOpenAI "sk" "tts-1" "nova" "Hi" f_nan calmWorld []))
     = [].
Proof.
  split.
  - apply (openai_request_shape "sk" "tts-1" "nova" "Hi" f_2_0 calmWorld []);
      reflexivity.
  - destruct (proj2 (proj2 (openai_request_shape "sk" "tts-1" "nova" "Hi" f_nan
                              calmWorld [])) eq_refl) as (e & -> & _).
    reflexivity.
Defined.

(** The body [synthesizeElevenLabs] encodes: the style is never set and is
    omitted, the speed is omitted when it is zero. *)
Lemma marshalElevenLabs_inl x m s st sb body :
  marshalElevenLabs
    {| el_Text := x; el_ModelID := m;
       el_VoiceSettings := Some {| vs_Stability := st;
                                   vs_SimilarityBoost := sb;
                                   vs_Style := f_zero;
                                   vs_Speed := s |} |} = inl body ->
  isFinite st = true /\ isFinite sb = true
  /\ (isEmptyFloat s = true \/ isFinite s = true)
  /\ body = JObject [("text", JString x);
                     ("model_id", JString m);
                     ("voice_settings",
                      JObject ([("stability", JNumber st);
                                ("similarity_boost", JNumber sb)]
                               ++ if isEmptyFloat s then []
                                  else [("speed", JNumber s)]))].
Proof.
  unfold marshalElevenLabs, marshalVoiceSettings.
  cbn [el_VoiceSettings el_Text el_ModelID vs_Stability vs_SimilarityBoost
       vs_Style vs_Speed].
  destruct (marshalFloat st) as [jst | e] eqn:Hst; [| discriminate].
  destruct (marshalFloat sb) as [jsb | e] eqn:Hsb; [| discriminate].
  apply marshalFloat_inl in Hst as [Hst ->], Hsb as [Hsb ->].
  change (optionalFloat "style" f_zero) with (@inl (list (string * json)) string []).
  cbv iota beta. unfold optionalFloat.
  destruct (isEmptyFloat s) eqn:He.
  - intros [= <-]. repeat split; auto.
  - destruct (marshalFloat s) as [js | e] eqn:Hs; [| discriminate].
    apply marshalFloat_inl in Hs as [Hs ->].
    intros [= <-]. repeat split; auto.
Qed.

(** X2: every request [synthesizeElevenLabs] sends is a POST whose URL
    carries the voice id in its path and the fixed mp3 output format as
    its query, with the key in the xi-api-key header; its body holds the
    text, the model id and the voice settings: stability, similarity
    boost, the speed unless it is zero, and never a style.  Nothing is
    sent when a setting cannot be encoded. *)
Theorem elevenlabs_request_shape (k m v x : string) (s st sb : float64)
    (w : World) (h : trace) (req : Request) :
  In req (httpRequests (snd (synthesizeElevenLabs k m v x s st sb w h))) ->
  req_method req = "POST"
  /\ req_url req
     = "https://api.elevenlabs.io/v1/text-to-speech/" +:+ v
       +:+ "?output_format=mp3_44100_128"
  /\ req_headers req
     = [("Content-Type", "application/json"); ("xi-api-key", k)]
  /\ req_body req
     = JObject [("text", JString x);
                ("model_id", JString m);
                ("voice_settings",
                 JObject ([("stability", JNumber st);
                           ("similarity_boost", JNumber sb)]
                          ++ if isEmptyFloat s then []
                             else [("speed", JNumber s)]))]
  /\ isFinite st = true /\ isFinite sb = true
  /\ httpRequests (snd (synthesizeElevenLabs k m v x s st sb w h)) = [req].
Proof.
  rewrite synthesizeElevenLabs_run.
  destruct (marshalElevenLabs _) as [body | e] eqn:Hm; [| intros []].
  apply marshalElevenLabs_inl in Hm as (Hst & Hsb & _ & ->).
  destruct (newRequestError w "POST" _); [intros [] |].
  cbn [snd httpRequests In]. intros [<- | []].
  repeat split; assumption.
Qed.

Lemma elevenlabs_request_shape_witness :
  let req :=
    elevenLabsRequest "xi-token" "nonexistent-preset"
      (JObject [("text", JString "Hi");
                ("model_id", JString "eleven_multilingual_v2");
                ("voice_settings",
                 JObject [("stability", JNumber f_0_5);
                          ("similarity_boost", JNumber f_0_75);
                          ("speed", JNumber f_1_0)])]) in
  req_url req
  = "https://api.elevenlabs.io/v1/text-to-speech/nonexistent-preset?output_format=mp3_44100_128"
  /\ httpRequests
       (snd (synthesizeElevenLabs "xi-token" "eleven_multilingual_v2"
               "nonexistent-preset" "Hi" f_1_0 f_0_5 f_0_75 calmWorld []))
     = [req].
Proof.
  intros req.
  destruct (elevenlabs_request_shape "xi-token" "eleven_multilingual_v2"
              "nonexistent-preset" "Hi" f_1_0 f_0_5 f_0_75 calmWorld [] req)
    as (_ & Hu & _ & _ & _ & _ & Hall); [left; reflexivity |].
  split; [exact Hu | exact Hall].
Defined.

(** ** The single-shot run, event by event *)

Lemma playOrExit_run data w h :
  exists o t,
    (err <- playAudio data ;;
     match err with
     | Some e => stderr ("Error playing audio: " +:+ e +:+ nl) ;;; osExit 1
     | None => ret tt
     end) w h = (o, t)
    /\ playOrExit data o t.
Proof.
  unfold playAudio, callAudio, bind.
  destruct (audioDevice w h data) as [e | e | polls]; cbn [ret stderr emit osExit app].
  - do 2 eexists. split; [reflexivity | constructor].
  - do 2 eexists. split; [reflexivity | constructor].
  - rewrite repeatM_sleep. cbn [ret app]. rewrite !app_nil_r.
    do 2 eexists. split; [reflexivity | constructor].
Qed.

Lemma deliver_sinkRun output speak data w h :
  exists o t,
    deliver output speak data w h = (o, t) /\ sinkRun output speak data o t.
Proof.
  unfold deliver. destruct (isEmpty output) eqn:Hout; cbn [negb when orb].
  - unfold bind at 1. cbn [ret app].
    destruct (playOrExit_run data w (h ++ [])) as (o & t & -> & R).
    do 2 eexists. split; [reflexivity |]. apply sink_play; assumption.
  - unfold bind at 1. unfold bind at 1. unfold callWriteFile.
    destruct (writeFile w h output data 420) as [e |].
    + unfold bind. cbn [stderr emit osExit app].
      do 2 eexists. split; [reflexivity |]. apply sink_unsaved, Hout.
    + cbn [stderr emit app]. destruct speak; cbn [when].
      * match goal with |- context [bind (playAudio data) _ w ?h'] =>
          destruct (playOrExit_run data w h') as (o & t & -> & R) end.
        do 2 eexists. split; [reflexivity |].
        cbn [app]. apply sink_saved_play; auto.
      * cbn [ret app]. do 2 eexists. split; [reflexivity |].
        apply sink_saved; auto.
Qed.

Lemma synthesizeOpenAI_exchange k m v x s w h :
  exists r t,
    synthesizeOpenAI k m v x s w h = (Done r, t)
    /\ exchangeRun (CallOpenAI k m v x s) r t.
Proof.
  rewrite synthesizeOpenAI_run.
  destruct (marshalFloat s) as [j | e] eqn:Hs;
    [apply marshalFloat_inl in Hs as [Hs _];
     destruct (newRequestError w "POST" openAIAPIURL) |];
    do 2 eexists; (split; [reflexivity |]); constructor.
  split; [reflexivity | exact Hs].
Qed.

Lemma synthesizeElevenLabs_exchange k m v x s st sb w h :
  exists r t,
    synthesizeElevenLabs k m v x s st sb w h = (Done r, t)
    /\ exchangeRun (CallElevenLabs k m v x s st sb) r t.
Proof.
  rewrite synthesizeElevenLabs_run.
  destruct (marshalElevenLabs _) as [body | e] eqn:Hm.
  - apply marshalElevenLabs_inl in Hm as (Hst & Hsb & Hs & ->).
    destruct (newRequestError w "POST" _);
      do 2 eexists; (split; [reflexivity |]); constructor.
    repeat split; assumption.
  - do 2 eexists. split; [reflexivity | constructor].
Qed.

Lemma synthesizeDeepgram_exchange k v x w h :
  exists r t,
    synthesizeDeepgram k v x w h = (Done r, t)
    /\ exchangeRun (CallDeepgram k v x) r t.
Proof.
  rewrite synthesizeDeepgram_run.
  destruct (newRequestError w "POST" _);
    do 2 eexists; (split; [reflexivity |]); constructor. reflexivity.
Qed.

Lemma exchange_onceRun call r t output speak w h :
  exchangeRun call r t ->
  exists o t',
    match r with
    | inr e => (stderr ("Error synthesizing speech: " +:+ e +:+ nl) ;;; osExit 1)
    | inl audioData => deliver output speak audioData
    end w h = (o, t')
    /\ onceRun call output speak o (t ++ t').
Proof.
  intros [e | req res Hreq].
  - unfold bind. cbn [stderr emit osExit app].
    do 2 eexists. split; [reflexivity | constructor].
  - destruct (interpretResponse res) as [audio | e] eqn:Hres.
    + destruct (deliver_sinkRun output speak audio w h) as (o & t' & -> & R).
      do 2 eexists. split; [reflexivity |]. cbn [app].
      apply (once_delivered _ _ _ req res audio); assumption.
    + unfold bind. cbn [stderr emit osExit app].
      do 2 eexists. split; [reflexivity |]. apply once_refused; assumption.
Qed.

Lemma callOf_openai w c text :
  providerOf w c = "openai" ->
  callOf w c text
  = CallOpenAI (apiKeyOf w c) (modelOf w c) (voiceOf w c) text (flagSpeed c).
Proof. intros Hp. unfold callOf. rewrite Hp. reflexivity. Qed.

Lemma callOf_elevenlabs w c text :
  providerOf w c = "elevenlabs" ->
  callOf w c text
  = CallElevenLabs (apiKeyOf w c) (modelOf w c)
      (resolveElevenLabsVoice (unicodeLower w) (voiceOf w c)) text
      (flagSpeed c) (flagStability c) (flagSimilarity c).
Proof. intros Hp. unfold callOf. rewrite Hp. reflexivity. Qed.

Lemma callOf_deepgram w c text :
  providerOf w c = "deepgram" ->
  callOf w c text
  = CallDeepgram (apiKeyOf w c)
      (resolveDeepgramVoice (unicodeLower w) (voiceOf w c)) text.
Proof. intros Hp. unfold callOf. rewrite Hp. reflexivity. Qed.

(** The synthesis of the single-shot branch, once the voice is accepted. *)
Lemma synthesize_exchange w c text h :
  isProvider (providerOf w c) = true ->
  (providerOf w c = "openai" -> isValidOpenAIVoice (voiceOf w c) = true) ->
  exists r t,
    synthesize (providerOf w c) (apiKeyOf w c) (modelOf w c) (voiceOf w c) text
      (flagSpeed c) (flagStability c) (flagSimilarity c) w h = (Done r, t)
    /\ exchangeRun (callOf w c text) r t.
Proof.
  intros Hp Hv. destruct (isProvider_cases _ Hp) as [E | [E | E]].
  - rewrite (callOf_openai w c text E). rewrite E in *.
    rewrite (synthesize_openai _ _ _ _ _ _ _ _ _ (Hv eq_refl)).
    apply synthesizeOpenAI_exchange.
  - rewrite (callOf_elevenlabs w c text E). rewrite E.
    rewrite synthesize_elevenlabs. apply synthesizeElevenLabs_exchange.
  - rewrite (callOf_deepgram w c text E). rewrite E.
    rewrite synthesize_deepgram. apply synthesizeDeepgram_exchange.
Qed.

Lemma checked_parts w c :
  checked w c = true ->
  flagHelp c = false /\ isProvider (providerOf w c) = true
  /\ isEmpty (apiKeyOf w c) = false
  /\ speedAccepted (providerOf w c) (flagSpeed c) = true
  /\ exists text, textOf w c = Some text /\ isEmpty text = false.
Proof.
  unfold checked, hasText. intros H.
  apply andb_true_iff in H as [H Ht].
  apply andb_true_iff in H as [H Hs].
  apply andb_true_iff in H as [H Hk].
  apply andb_true_iff in H as [Hh Hp].
  apply negb_true_iff in Hh, Hk.
  destruct (textOf w c) as [text |]; [| discriminate].
  apply negb_true_iff in Ht. eauto 10.
Qed.

(** A single-shot run that passed the checks, with an accepted voice. *)
Lemma single_shot_shape w c text :
  checked w c = true -> flagAll c = false -> textOf w c = Some text ->
  (providerOf w c = "openai" -> isValidOpenAIVoice (voiceOf w c) = true) ->
  exists o t,
    run w (main c) = (o, speedEvents (providerOf w c) (flagSpeed c) ++ t)
    /\ onceRun (callOf w c text) (flagOutput c) (flagSpeak c) o t.
Proof.
  intros Hc Hall Htext Hv.
  destruct (main_checked w c Hc) as (text' & Htext' & _ & Hrun).
  rewrite Htext in Htext'. injection Htext' as <-.
  destruct (checked_parts w c Hc) as (_ & Hp & _).
  rewrite Hrun, Hall. cbv zeta. unfold speakOnce.
  destruct (synthesize_exchange w c text
              (speedEvents (providerOf w c) (flagSpeed c)) Hp Hv)
    as (r & t & E & R).
  rewrite (bind_done _ _ _ _ _ _ E).
  destruct (exchange_onceRun _ r t (flagOutput c) (flagSpeak c) w
              (speedEvents (providerOf w c) (flagSpeed c) ++ t) R)
    as (o & t' & -> & O).
  do 2 eexists. split; [reflexivity | exact O].
Qed.

(** A single-shot OpenAI run with a voice that is no preset. *)
Lemma single_shot_invalid_voice w c :
  checked w c = true -> flagAll c = false -> providerOf w c = "openai" ->
  isValidOpenAIVoice (voiceOf w c) = false ->
  run w (main c)
  = (Exited 1,
     [EStderr ("Error: Invalid OpenAI voice '" +:+ voiceOf w c
               +:+ "'. Valid voices: " +:+ Join openAIVoices ", " +:+ nl)]).
Proof.
  intros Hc Hall Hp Hv.
  destruct (main_checked w c Hc) as (text & _ & _ & Hrun).
  rewrite Hrun, Hp, Hall. cbv zeta.
  change (speedEvents "openai" (flagSpeed c)) with (@nil event).
  unfold speakOnce.
  rewrite (bind_exited _ _ _ _ _ _ (synthesize_openai_invalid _ _ _ _ _ _ _ _ _ Hv)).
  reflexivity.
Qed.

(** ** The demo-all loop, event by event *)

Lemma synthesizeOpenAI_events k m v x s w h :
  exists r t,
    synthesizeOpenAI k m v x s w h = (Done r, t)
    /\ (t = [ESynth (CallOpenAI k m v x s)]
        \/ isFinite s = true
           /\ exists res, t = [ESynth (CallOpenAI k m v x s);
                               EHttp 60 (openAIRequest k m v x s) res]).
Proof.
  rewrite synthesizeOpenAI_run.
  destruct (marshalFloat s) as [j | e] eqn:Hs;
    [apply marshalFloat_inl in Hs as [Hs _];
     destruct (newRequestError w "POST" openAIAPIURL) |];
    do 2 eexists; (split; [reflexivity |]); eauto.
Qed.

Lemma playAudio_events data w h :
  exists r t,
    playAudio data w h = (Done r, t)
    /\ exists res n, t = EPlayAudio data res :: repeat (ESleep 10) n.
Proof.
  destruct (playAudio_spec data w h) as (r & t & E & R).
  exists r, t. split; [exact E |].
  destruct R; [eexists _, _ | eexists _, 0%nat | eexists _, 0%nat]; reflexivity.
Qed.

Lemma loopEvent_sleeps k m x s v n :
  Forall (loopEvent k m x s v) (repeat (ESleep 10) n).
Proof. induction n; constructor; [left; reflexivity | assumption]. Qed.

(** Closes the goals on the events of an iteration built from its pieces. *)
Ltac loop_events :=
  repeat match goal with
         | |- Forall _ [] => constructor
         | |- Forall _ (repeat _ _) => apply loopEvent_sleeps
         | |- Forall _ (_ :: _) => constructor
         | |- Forall _ (_ ++ _) => apply Forall_app; split
         | |- loopEvent _ _ _ _ _ _ =>
             solve [cbn [loopEvent]; unfold announcement, utterance; auto 6]
         end.

Lemma speakVoice_events k m x s v w h :
  exists t,
    speakVoice k m x s v w h = (Done tt, t)
    /\ Forall (loopEvent k m x s v) t
    /\ (length (httpRequests t) <= length (synthCalls t) <= 2)%nat.
Proof.
  unfold speakVoice. unfold bind at 1. cbn [stderr emit].
  match goal with |- context [bind (synthesizeOpenAI k m v v s) _ w ?h'] =>
    destruct (synthesizeOpenAI_events k m v v s w h') as (r & t & E & Ht) end.
  rewrite (bind_done _ _ _ _ _ _ E).
  assert (Ft : Forall (loopEvent k m x s v) t
               /\ (length (httpRequests t) <= 1)%nat
               /\ length (synthCalls t) = 1%nat).
  { destruct Ht as [-> | [Hfin [res ->]]]; (split; [loop_events | cbn; lia]). }
  destruct Ft as (Ft & Lh & Ls).
  destruct r as [audio | e].
  2:{ eexists. split; [reflexivity |]. split; [loop_events; assumption |].
      observe_all. rewrite ?length_app. cbn [length]. lia. }
  match goal with |- context [bind (playAudio audio) _ w ?h'] =>
    destruct (playAudio_events audio w h') as (p & tp & Ep & res & n & ->) end.
  rewrite (bind_done _ _ _ _ _ _ Ep).
  destruct p as [e |].
  { eexists. split; [reflexivity |]. split; [loop_events; assumption |].
    observe_all. rewrite ?length_app. cbn [length]. lia. }
  unfold bind at 1. cbn [sleep emit].
  match goal with |- context [bind (synthesizeOpenAI k m v x s) _ w ?h'] =>
    destruct (synthesizeOpenAI_events k m v x s w h') as (r2 & t2 & E2 & Ht2) end.
  rewrite (bind_done _ _ _ _ _ _ E2).
  assert (Ft2 : Forall (loopEvent k m x s v) t2
                /\ (length (httpRequests t2) <= 1)%nat
                /\ length (synthCalls t2) = 1%nat).
  { destruct Ht2 as [-> | [Hfin2 [res2 ->]]]; (split; [loop_events | cbn; lia]). }
  destruct Ft2 as (Ft2 & Lh2 & Ls2).
  destruct r2 as [audio2 | e].
  2:{ eexists. split; [reflexivity |]. split; [loop_events; assumption |].
      observe_all. rewrite ?length_app. cbn [length]. lia. }
  match goal with |- context [bind (playAudio audio2) _ w ?h'] =>
    destruct (playAudio_events audio2 w h') as (p2 & tp2 & Ep2 & res2 & n2 & ->) end.
  rewrite (bind_done _ _ _ _ _ _ Ep2).
  destruct p2 as [e |]; unfold bind; cbn [stderr sleep emit ret];
    (eexists; split; [reflexivity |]);
    (split; [loop_events; assumption
            | observe_all; rewrite ?length_app; cbn [length]; lia]).
Qed.

Lemma forEach_events k m x s voices w h :
  exists t,
    forEach voices (speakVoice k m x s) w h = (Done tt, t)
    /\ Forall (fun e => exists v, In v voices /\ loopEvent k m x s v e) t
    /\ (length (httpRequests t) <= length (synthCalls t)
        <= 2 * length voices)%nat.
Proof.
  revert h. induction voices as [| v voices IH]; intros h.
  - exists []. repeat split; [constructor | cbn; lia ..].
  - destruct (speakVoice_events k m x s v w h) as (t & E & F & L).
    destruct (IH (h ++ t)) as (t' & E' & F' & L').
    exists (t ++ t'). split; [| split].
    + cbn [forEach]. rewrite (bind_done _ _ _ _ _ _ E), E'. reflexivity.
    + apply Forall_app. split.
      * eapply Forall_impl; [exact F |]. intros e He. exists v. split; [left; reflexivity | exact He].
      * eapply Forall_impl; [exact F' |]. intros e (u & Hu & He). exists u. split; [right; exact Hu | exact He].
    + rewrite httpRequests_app, synthCalls_app, !length_app. cbn [length]. lia.
Qed.

(** Every run of [main] is of one of three kinds: it ends on messages
    alone; it is a single-shot run with its call; it is a demo-all run. *)
Lemma run_cases w c :
  (exists code msgs, run w (main c) = (Exited code, map EStderr msgs))
  \/ (exists text o t,
        checked w c = true /\ flagAll c = false /\ textOf w c = Some text
        /\ run w (main c) = (o, speedEvents (providerOf w c) (flagSpeed c) ++ t)
        /\ onceRun (callOf w c text) (flagOutput c) (flagSpeak c) o t)
  \/ (exists text t,
        checked w c = true /\ flagAll c = true /\ providerOf w c = "openai"
        /\ textOf w c = Some text
        /\ run w (main c) = (Done tt, t)
        /\ Forall (fun e => exists v, In v openAIVoices
                            /\ loopEvent (apiKeyOf w c) (modelOf w c) text
                                 (flagSpeed c) v e) t
        /\ (length (httpRequests t) <= length (synthCalls t)
            <= 2 * length openAIVoices)%nat).
Proof.
  destruct (flagHelp c) eqn:Hh.
  { left. rewrite (main_help w c Hh). eauto. }
  destruct (checked w c) eqn:Hc.
  2:{ left. destruct (main_unchecked w c Hh Hc) as (code & msgs & _ & _ & E). eauto. }
  destruct (checked_parts w c Hc) as (_ & Hp & _ & _ & text & Htext & _).
  destruct (flagAll c) eqn:Hall.
  - destruct (String.eqb (providerOf w c) "openai") eqn:Hpo.
    + apply String.eqb_eq in Hpo. right. right.
      destruct (main_checked w c Hc) as (text' & Htext' & _ & Hrun).
      rewrite Htext in Htext'. injection Htext' as <-.
      rewrite Hall, Hpo in Hrun. cbv zeta in Hrun. rewrite speakAll_openai in Hrun.
      change (speedEvents "openai" (flagSpeed c)) with (@nil event) in Hrun.
      destruct (forEach_events (apiKeyOf w c) (modelOf w c) text (flagSpeed c)
                  openAIVoices w []) as (t & E & F & L).
      rewrite E in Hrun. exists text, t. repeat split; try assumption; apply L.
    + apply String.eqb_neq in Hpo. left.
      destruct (all_flag_other_provider w c Hh Hall Hpo) as (code & msgs & _ & _ & E).
      eauto.
  - destruct (String.eqb (providerOf w c) "openai" && negb (isValidOpenAIVoice (voiceOf w c)))
      eqn:Hv.
    + apply andb_true_iff in Hv as [Hpo Hv].
      apply String.eqb_eq in Hpo. apply negb_true_iff in Hv. left.
      rewrite (single_shot_invalid_voice w c Hc Hall Hpo Hv). exists 1. eexists [_]. reflexivity.
    + right. left.
      assert (Hv' : providerOf w c = "openai" -> isValidOpenAIVoice (voiceOf w c) = true).
      { intros Hpo. rewrite Hpo in Hv. cbn [String.eqb Ascii.eqb Bool.eqb andb] in Hv.
        apply negb_false_iff in Hv. exact Hv. }
      destruct (single_shot_shape w c text Hc Hall Htext Hv') as (o & t & E & O).
      exists text, o, t. auto.
Qed.

(** ** What the synthesize functions return *)

Lemma interpretResponse_inl res audio :
  interpretResponse res = inl audio <-> res = Response 200 audio None.
Proof.
  destruct res as [e | status body [e |]]; cbn [interpretResponse];
    try (split; discriminate).
  - destruct (status =? 200) eqn:Hs; cbn [negb]; split; try discriminate.
  - destruct (status =? 200) eqn:Hs; cbn [negb]; split; try discriminate.
    + intros [= ->]. apply Z.eqb_eq in Hs. subst. reflexivity.
    + intros [= -> ->]. reflexivity.
    + intros [= -> ->]. discriminate.
Qed.

Lemma synthRun_audio call r t audio :
  synthRun call r t ->
  (r = inl audio
   <-> exists req, t = [ESynth call; EHttp 60 req (Response 200 audio None)]).
Proof.
  intros [e | req res]; split.
  - discriminate.
  - intros [req [=]].
  - intros H. apply interpretResponse_inl in H. subst. eauto.
  - intros [req' [= _ ->]]. reflexivity.
Qed.

(** X3: each of the three synthesize functions returns to its caller (it
    never ends the process), and it returns audio exactly when its one
    exchange was answered with status 200 and a body that could be read: the
    audio is that body.  Every other answer, and every request that was
    not sent, comes back as an error. *)
Theorem synthesis_audio_iff_ok (w : World) (h : trace) (audio : bytes) :
  (forall k m v x s,
     exists r t,
       synthesizeOpenAI k m v x s w h = (Done r, t)
       /\ (r = inl audio
           <-> exists req, t = [ESynth (CallOpenAI k m v x s);
                                EHttp 60 req (Response 200 audio None)]))
  /\ (forall k m v x s st sb,
        exists r t,
          synthesizeElevenLabs k m v x s st sb w h = (Done r, t)
          /\ (r = inl audio
              <-> exists req, t = [ESynth (CallElevenLabs k m v x s st sb);
                                   EHttp 60 req (Response 200 audio None)]))
  /\ (forall k v x,
        exists r t,
          synthesizeDeepgram k v x w h = (Done r, t)
          /\ (r = inl audio
              <-> exists req, t = [ESynth (CallDeepgram k v x);
                                   EHttp 60 req (Response 200 audio None)])).
Proof.
  repeat apply conj.
  - intros k m v x s.
    destruct (synthesizeOpenAI_spec k m v x s w h) as (r & t & E & R).
    exists r, t. split; [exact E | apply synthRun_audio, R].
  - intros k m v x s st sb.
    destruct (synthesizeElevenLabs_spec k m v x s st sb w h) as (r & t & E & R).
    exists r, t. split; [exact E | apply synthRun_audio, R].
  - intros k v x.
    destruct (synthesizeDeepgram_spec k v x w h) as (r & t & E & R).
    exists r, t. split; [exact E | apply synthRun_audio, R].
Qed.

Lemma synthesis_audio_iff_ok_witness :
  exists r t,
    synthesizeOpenAI "sk" "tts-1" "nova" "Hi" f_1_0 calmWorld [] = (Done r, t)
    /\ r = inl [x49; x44; x33].
Proof.
  destruct (proj1 (synthesis_audio_iff_ok calmWorld [] [x49; x44; x33])
              "sk" "tts-1" "nova" "Hi" f_1_0) as (r & t & E & H).
  exists r, t. split; [exact E |]. apply H.
  vm_compute in E. injection E as _ <-. eexists. reflexivity.
Defined.

(** ** playAudio *)

(** X4: [playAudio] hands the buffer to the audio device once and returns:
    nil after the player was polled to its end in steps of 10 ms, or an
    error that tells a buffer that could not be decoded from an audio
    context that could not be created.  It prints nothing, sends nothing,
    writes nothing and never ends the process. *)
Theorem playAudio_reports (data : bytes) (w : World) (h : trace) :
  exists r t,
    playAudio data w h = (Done r, t)
    /\ playbacks t = [data]
    /\ messages t = [] /\ httpRequests t = [] /\ fileOutputs t = []
    /\ synthCalls t = []
    /\ match audioDevice w h data with
       | Played polls =>
           r = None
           /\ t = EPlayAudio data (Played polls) :: repeat (ESleep 10) polls
       | DecodeError e =>
           r = Some ("failed to decode MP3: " +:+ e)
           /\ t = [EPlayAudio data (DecodeError e)]
       | ContextError e =>
           r = Some ("failed to create audio context: " +:+ e)
           /\ t = [EPlayAudio data (ContextError e)]
       end.
Proof.
  unfold playAudio, bind, callAudio.
  destruct (audioDevice w h data) as [e | e | polls].
  - do 2 eexists. split; [reflexivity |]. repeat split.
  - do 2 eexists. split; [reflexivity |]. repeat split.
  - rewrite repeatM_sleep. cbn [ret app]. rewrite app_nil_r.
    do 2 eexists. split; [reflexivity |]. observe_all. repeat split.
Qed.

(** ** The checks of main, in their order *)

Lemma equalFold_ascii a b :
  equalFold a b = true -> isASCII b = true.
Proof.
  revert b. induction a as [| x a IH]; intros [| y b] H; try discriminate;
    [reflexivity |].
  cbn [equalFold] in H.
  apply andb_true_iff in H as [H Hr].
  apply andb_true_iff in H as [H _].
  apply andb_true_iff in H as [_ Hy].
  cbn [isASCII]. rewrite Hy, (IH b Hr). reflexivity.
Qed.

Lemma ToLower_equalFold lower a b :
  equalFold a b = true -> ToLower lower a = ToLower lower b.
Proof.
  intros H. pose proof (equalFold_ascii a b H) as Hb.
  apply equalFold_lower in H as [Ha Hl].
  unfold ToLower. rewrite Ha, Hb. exact Hl.
Qed.

Lemma main_provider w c a b :
  ToLower (unicodeLower w) a = ToLower (unicodeLower w) b ->
  run w (main (setProvider c a)) = run w (main (setProvider c b)).
Proof.
  intros H. rewrite !main_run. unfold providerOf, apiKeyOf, modelOf, voiceOf, providerOf.
  cbn [setProvider flagProvider flagVoice flagModel flagOutput flagSpeed flagSpeak
       flagToken flagHelp flagAll flagStability flagSimilarity flagArgs].
  rewrite H. reflexivity.
Qed.

(** X5: the provider is read without regard to the case of its letters:
    two spellings that differ in case only give the same run; a name that is
    none of the three providers ends the run with status 1 on the one
    message that quotes the name in lower case, before the key, the speed
    or the text are looked at. *)
Theorem provider_normalization (w : World) (c : Flags) :
  (forall a b, equalFold a b = true ->
     run w (main (setProvider c a)) = run w (main (setProvider c b)))
  /\ (flagHelp c = false -> isProvider (providerOf w c) = false ->
      run w (main c)
      = (Exited 1,
         [EStderr ("Error: Invalid provider '"
                   +:+ ToLower (unicodeLower w) (flagProvider c)
                   +:+ "'. Use 'openai', 'elevenlabs', or 'deepgram'" +:+ nl)])).
Proof.
  split.
  - intros a b H. apply main_provider, ToLower_equalFold, H.
  - intros Hh Hp. rewrite main_run, Hh, Hp. reflexivity.
Qed.

Lemma provider_normalization_witness :
  run calmWorld (main mixedCaseProvider) = run calmWorld (main helloWorld)
  /\ run bareWorld (main unknownProvider)
     = (Exited 1,
        [EStderr ("Error: Invalid provider 'azure'. Use 'openai', 'elevenlabs', or 'deepgram'"
                  +:+ nl)]).
Proof.
  destruct (provider_normalization calmWorld helloWorld) as [H1 _].
  destruct (provider_normalization bareWorld unknownProvider) as [_ H2].
  split.
  - exact (H1 "OpenAI" "openai" eq_refl).
  - apply H2; reflexivity.
Defined.

Lemma validateSpeed_rejected_openai s w h :
  speedAccepted "openai" s = false ->
  validateSpeed "openai" s w h
  = (Exited 1,
     [EStderr ("Error: Speed must be between 0.25 and 4.0 for OpenAI" +:+ nl)]).
Proof.
  unfold speedAccepted, validateSpeed, switchProvider.
  change (String.eqb "openai" "openai") with true. cbv iota.
  intros H. apply negb_false_iff in H. rewrite H. reflexivity.
Qed.

Lemma validateSpeed_rejected_elevenlabs s w h :
  speedAccepted "elevenlabs" s = false ->
  validateSpeed "elevenlabs" s w h
  = (Exited 1,
     [EStderr ("Error: Speed must be between 0.7 and 1.2 for ElevenLabs" +:+ nl)]).
Proof.
  unfold speedAccepted, validateSpeed, switchProvider.
  change (String.eqb "elevenlabs" "openai") with false.
  change (String.eqb "elevenlabs" "elevenlabs") with true. cbv iota.
  intros H. apply negb_false_iff in H. rewrite H. reflexivity.
Qed.

(** X6: a speed the provider refuses ends the run with status 1 on the
    one message of that provider, once the provider is known and a key is
    there; standard input is not read and the arguments are not looked at,
    so the message is the same whether a text was given or not. *)
Theorem speed_error_first (w : World) (c : Flags) :
  flagHelp c = false -> isEmpty (apiKeyOf w c) = false ->
  speedAccepted (providerOf w c) (flagSpeed c) = false ->
  (providerOf w c = "openai" ->
   forall input,
     run (setStdin w input) (main c)
     = (Exited 1,
        [EStderr ("Error: Speed must be between 0.25 and 4.0 for OpenAI" +:+ nl)]))
  /\ (providerOf w c = "elevenlabs" ->
      forall input,
        run (setStdin w input) (main c)
        = (Exited 1,
           [EStderr ("Error: Speed must be between 0.7 and 1.2 for ElevenLabs"
                     +:+ nl)]))
  /\ providerOf w c <> "deepgram".
Proof.
  intros Hh Hk Hs. repeat apply conj.
  - intros Hp input. rewrite main_run.
    change (providerOf (setStdin w input) c) with (providerOf w c).
    change (apiKeyOf (setStdin w input) c) with (apiKeyOf w c).
    rewrite Hh, Hk, Hp in *. cbn [isProvider String.eqb Ascii.eqb Bool.eqb negb orb].
    rewrite (validateSpeed_rejected_openai _ _ _ Hs). reflexivity.
  - intros Hp input. rewrite main_run.
    change (providerOf (setStdin w input) c) with (providerOf w c).
    change (apiKeyOf (setStdin w input) c) with (apiKeyOf w c).
    rewrite Hh, Hk, Hp in *. cbn [isProvider String.eqb Ascii.eqb Bool.eqb negb orb].
    rewrite (validateSpeed_rejected_elevenlabs _ _ _ Hs). reflexivity.
  - intros Hp. rewrite Hp in Hs. discriminate.
Qed.

Lemma speed_error_first_witness :
  run (setStdin calmWorld StatFails) (main tooFast)
  = (Exited 1,
     [EStderr ("Error: Speed must be between 0.25 and 4.0 for OpenAI" +:+ nl)]).
Proof.
  apply (speed_error_first calmWorld tooFast); reflexivity.
Defined.

(** ** The text *)

Lemma validateSpeed_accepted_run p s w :
  speedAccepted p s = true ->
  validateSpeed p s w [] = (Done tt, speedEvents p s).
Proof. apply validateSpeed_accepted. Qed.

(** X7: once the provider, the key and the speed are accepted, an empty
    text (no argument on a terminal, an empty argument, a pipe with blank
    content) ends the run with status 1 on "No text provided" followed by
    the usage, and a pipe that cannot be read ends it on the read error;
    in both cases no synthesize function is entered. *)
Theorem text_input_errors (w : World) (c : Flags) :
  flagHelp c = false -> isProvider (providerOf w c) = true ->
  isEmpty (apiKeyOf w c) = false ->
  speedAccepted (providerOf w c) (flagSpeed c) = true ->
  (textOf w c = Some EmptyString ->
   run w (main c)
   = (Exited 1,
      speedEvents (providerOf w c) (flagSpeed c)
      ++ EStderr ("Error: No text provided" +:+ nl) :: map EStderr usageLines))
  /\ (forall data e,
        flagArgs c = [] -> stdin w = Piped data (Some e) ->
        run w (main c)
        = (Exited 1,
           speedEvents (providerOf w c) (flagSpeed c)
           ++ [EStderr ("Error reading stdin: " +:+ e +:+ nl)])).
Proof.
  intros Hh Hp Hk Hs. split.
  - intros Ht. rewrite main_run, Hh, Hp, Hk. cbn [negb].
    rewrite (validateSpeed_accepted_run _ _ w Hs).
    rewrite (getText_some w [] c _ Ht). reflexivity.
  - intros data e Ha Hin. rewrite main_run, Hh, Hp, Hk. cbn [negb].
    rewrite (validateSpeed_accepted_run _ _ w Hs).
    rewrite Ha. unfold getText, bind, ask. rewrite Hin. reflexivity.
Qed.

Lemma text_input_errors_witness :
  run calmWorld (main noText)
  = (Exited 1, EStderr ("Error: No text provided" +:+ nl) :: map EStderr usageLines)
  /\ run calmWorld (main emptyArgument)
     = (Exited 1, EStderr ("Error: No text provided" +:+ nl) :: map EStderr usageLines)
  /\ run (setStdin calmWorld (Piped [] (Some "broken pipe"))) (main noText)
     = (Exited 1, [EStderr ("Error reading stdin: broken pipe" +:+ nl)]).
Proof.
  split; [| split].
  - apply (text_input_errors calmWorld noText); reflexivity.
  - apply (text_input_errors calmWorld emptyArgument); reflexivity.
  - exact (proj2 (text_input_errors
                    (setStdin calmWorld (Piped [] (Some "broken pipe")))
                    noText eq_refl eq_refl eq_refl eq_refl)
             [] "broken pipe" eq_refl eq_refl).
Defined.







(** ** Flags that a provider does not use *)

Lemma speakOnce_deepgram k m v x s st sb output speak w h :
  speakOnce "deepgram" k m v x s st sb output speak w h
  = (r <- synthesizeDeepgram k (resolveDeepgramVoice (unicodeLower w) v) x ;;
     match r with
     | inr e => stderr ("Error synthesizing speech: " +:+ e +:+ nl) ;;; osExit 1
     | inl audioData => deliver output speak audioData
     end) w h.
Proof.
  unfold speakOnce. unfold bind at 1 3. rewrite synthesize_deepgram. reflexivity.
Qed.

Lemma speakOnce_openai_tuning k m v x s st sb st' sb' output speak w h :
  speakOnce "openai" k m v x s st sb output speak w h
  = speakOnce "openai" k m v x s st' sb' output speak w h.
Proof. reflexivity. Qed.

(** X9: the model flag and the two ElevenLabs settings play no part in a
    Deepgram run, and the two settings play none in an OpenAI run: the run
    is the same whatever values they hold. *)
Theorem flags_out_of_scope (w : World) (c : Flags) :
  (providerOf w c = "deepgram" ->
   forall model stability similarity,
     run w (main (setModel (setTuning c stability similarity) model))
     = run w (main c))
  /\ (providerOf w c = "openai" ->
      forall stability similarity,
        run w (main (setTuning c stability similarity)) = run w (main c)).
Proof.
  split.
  - intros Hp model st sb. rewrite !main_run.
    unfold apiKeyOf, modelOf, voiceOf.
    change (providerOf w (setModel (setTuning c st sb) model)) with (providerOf w c).
    cbn [setModel setTuning flagProvider flagVoice flagModel flagOutput flagSpeed
         flagSpeak flagToken flagHelp flagAll flagStability flagSimilarity flagArgs].
    rewrite Hp.
    destruct (flagHelp c); [reflexivity |].
    cbn [isProvider String.eqb Ascii.eqb Bool.eqb negb orb].
    destruct (isEmpty _); [reflexivity |].
    destruct (validateSpeed _ _ _ _) as [[[] | code] t1]; [| reflexivity].
    destruct (getText _ _ _) as [[text | code] t2]; [| reflexivity].
    destruct (isEmpty text); [reflexivity |].
    destruct (flagAll c).
    + rewrite !speakAll_other by discriminate. reflexivity.
    + rewrite !speakOnce_deepgram. reflexivity.
  - intros Hp st sb. rewrite !main_run.
    unfold apiKeyOf, modelOf, voiceOf.
    change (providerOf w (setTuning c st sb)) with (providerOf w c).
    cbn [setTuning flagProvider flagVoice flagModel flagOutput flagSpeed
         flagSpeak flagToken flagHelp flagAll flagStability flagSimilarity flagArgs].
    rewrite Hp.
    destruct (flagHelp c); [reflexivity |].
    cbn [isProvider String.eqb Ascii.eqb Bool.eqb negb orb].
    destruct (isEmpty _); [reflexivity |].
    destruct (validateSpeed _ _ _ _) as [[[] | code] t1]; [| reflexivity].
    destruct (getText _ _ _) as [[text | code] t2]; [| reflexivity].
    destruct (isEmpty text); [reflexivity |].
    destruct (flagAll c); [reflexivity |].
    rewrite (speakOnce_openai_tuning _ _ _ _ _ st sb (flagStability c) (flagSimilarity c)).
    reflexivity.
Qed.

Lemma flags_out_of_scope_witness :
  run calmWorld (main (setModel (setTuning fastDeepgram f_nan f_zero) "tts-1"))
  = run calmWorld (main fastDeepgram)
  /\ run calmWorld (main (setTuning helloWorld f_nan f_nan))
     = run calmWorld (main helloWorld).
Proof.
  split.
  - apply (proj1 (flags_out_of_scope calmWorld fastDeepgram) eq_refl).
  - apply (proj2 (flags_out_of_scope calmWorld helloWorld) eq_refl).
Defined.

(** ** What every run keeps to *)

Lemma In_http t timeout req res :
  In (EHttp timeout req res) t -> In req (httpRequests t).
Proof.
  induction t as [| e t IH]; [intros [] |].
  intros [-> | H]; [left; reflexivity |].
  destruct e; cbn [httpRequests]; try (apply IH, H). right. apply IH, H.
Qed.

Lemma In_httpRequests t req :
  In req (httpRequests t) -> exists timeout res, In (EHttp timeout req res) t.
Proof.
  induction t as [| e t IH]; [intros [] |].
  destruct e; cbn [httpRequests]; try (intros H; destruct (IH H) as (a & b & Hab);
    exists a, b; right; exact Hab).
  intros [<- | H]; [do 2 eexists; left; reflexivity |].
  destruct (IH H) as (a & b & Hab). exists a, b. right. exact Hab.
Qed.

Lemma In_synthCalls t call :
  In call (synthCalls t) -> In (ESynth call) t.
Proof.
  induction t as [| e t IH]; [intros [] |].
  destruct e; cbn [synthCalls]; try (intros H; right; apply IH, H).
  intros [<- | H]; [left; reflexivity | right; apply IH, H].
Qed.

Lemma playOrExit_observed data o t :
  playOrExit data o t ->
  synthCalls t = [] /\ httpRequests t = [] /\ fileOutputs t = []
  /\ playbacks t = [data] /\ received t = [].
Proof. destruct 1; observe_all; repeat split; apply sleeps_only. Qed.

Lemma sinkRun_observed output speak data o t :
  sinkRun output speak data o t ->
  synthCalls t = [] /\ httpRequests t = [] /\ received t = []
  /\ fileOutputs t = (if isEmpty output then [] else [(output, data, 420)])
  /\ (playbacks t = [] \/ playbacks t = [data]).
Proof.
  destruct 1 as [o t Ho P | e Ho | Ho Hs | o t Ho Hs P]; rewrite Ho;
    try (destruct (playOrExit_observed _ _ _ P) as (H1 & H2 & H3 & H4 & H5));
    observe_all; rewrite ?H1, ?H2, ?H3, ?H4, ?H5; repeat split; auto.
Qed.

Lemma onceRun_observed call output speak o t :
  onceRun call output speak o t ->
  synthCalls t = [call]
  /\ (httpRequests t = [] \/ exists req, httpRequests t = [req] /\ requestFor call req)
  /\ (length (fileOutputs t) <= 1)%nat /\ (length (playbacks t) <= 1)%nat.
Proof.
  destruct 1 as [e | req res e Hreq Hres | req res audio o t Hreq Hres S].
  - cbn. repeat split; auto.
  - cbn. repeat split; eauto.
  - destruct (sinkRun_observed _ _ _ _ _ S) as (H1 & H2 & _ & H4 & H5).
    cbn [synthCalls httpRequests fileOutputs playbacks]. rewrite H1, H2, H4.
    repeat split; eauto.
    + destruct (isEmpty output); cbn; lia.
    + destruct H5 as [-> | ->]; cbn; lia.
Qed.

Lemma keyOfCall_callOf w c text : keyOfCall (callOf w c text) = apiKeyOf w c.
Proof.
  unfold callOf, switchProvider.
  repeat match goal with |- context [if ?b then _ else _] => destruct b end;
    reflexivity.
Qed.

Lemma answered_weaken p t : answered None t -> answered p t.
Proof. destruct t as [| [] t]; cbn [answered]; tauto. Qed.

Lemma answered_app p t1 t2 :
  answered p t1 -> answered None t2 -> answered p (t1 ++ t2).
Proof.
  revert p. induction t1 as [| e t1 IH]; intros p H1 H2.
  - apply answered_weaken, H2.
  - destruct e; cbn [app answered] in *; try (apply IH; assumption).
    destruct H1 as (Hr & Ht & H1). auto.
Qed.

Lemma answered_silent p t : httpRequests t = [] -> answered p t.
Proof.
  revert p. induction t as [| e t IH]; intros p H; [exact I |].
  destruct e; cbn [httpRequests answered] in *; try (apply IH, H).
  discriminate.
Qed.

Lemma exchangeRun_answered call r t : exchangeRun call r t -> answered None t.
Proof. destruct 1; cbn [answered]; auto. Qed.

Lemma callsFor_app v t u : callsFor v (t ++ u) = callsFor v t ++ callsFor v u.
Proof.
  induction t as [| e t IH]; [reflexivity |].
  destruct e; cbn [app callsFor]; try exact IH.
  destruct (String.eqb _ v); [cbn [app]; f_equal |]; exact IH.
Qed.

Lemma callsFor_length v t :
  (length (callsFor v t) <= length (synthCalls t))%nat.
Proof.
  induction t as [| e t IH]; [cbn; lia |].
  destruct e; cbn [callsFor synthCalls]; try exact IH.
  destruct (String.eqb _ v); cbn [length]; lia.
Qed.

Lemma callsFor_other k m x s v u t :
  Forall (loopEvent k m x s v) t -> u <> v -> callsFor u t = [].
Proof.
  intros F Hu. induction F as [| e t He F IH]; [reflexivity |].
  destruct e; cbn [callsFor]; try exact IH.
  cbn [loopEvent] in He.
  assert (Hv : voiceOfCall call = v) by (destruct He as [-> | ->]; reflexivity).
  rewrite Hv. destruct (String.eqb v u) eqn:E; [| exact IH].
  apply String.eqb_eq in E. congruence.
Qed.

Lemma callsFor_same k m x s v t :
  Forall (loopEvent k m x s v) t -> callsFor v t = synthCalls t.
Proof.
  intros F. induction F as [| e t He F IH]; [reflexivity |].
  destruct e; cbn [callsFor synthCalls]; try exact IH.
  cbn [loopEvent] in He.
  assert (Hv : voiceOfCall call = v) by (destruct He as [-> | ->]; reflexivity).
  rewrite Hv, String.eqb_refl, IH. reflexivity.
Qed.

Lemma callsFor_silent v t : synthCalls t = [] -> callsFor v t = [].
Proof.
  intros H. pose proof (callsFor_length v t) as L. rewrite H in L.
  destruct (callsFor v t); [reflexivity | cbn in L; lia].
Qed.

(** Closes the goals on the requests of an iteration built from its
    pieces. *)
Ltac answered_pieces :=
  repeat match goal with
         | |- True => exact I
         | |- answered _ [] => exact I
         | H : exchangeRun _ _ ?t |- answered _ (?t ++ _) =>
             apply answered_app; [apply answered_weaken, (exchangeRun_answered _ _ _ H) |]
         | H : exchangeRun _ _ ?t |- answered _ ?t =>
             apply answered_weaken, (exchangeRun_answered _ _ _ H)
         | |- answered _ (repeat (ESleep _) _ ++ _) =>
             apply answered_app; [apply answered_silent, sleeps_only |]
         | |- answered _ (repeat (ESleep _) _) =>
             apply answered_silent, sleeps_only
         | |- answered _ ((_ :: _) ++ _) => cbn [app]
         | |- answered _ (EStderr _ :: _) => cbn [answered]
         | |- answered _ (ESleep _ :: _) => cbn [answered]
         | |- answered _ (EPlayAudio _ _ :: _) => cbn [answered]
         end.

Lemma speakVoice_answered k m x s v w h :
  exists t, speakVoice k m x s v w h = (Done tt, t) /\ answered None t.
Proof.
  unfold speakVoice. unfold bind at 1. cbn [stderr emit].
  match goal with |- context [bind (synthesizeOpenAI k m v v s) _ w ?h'] =>
    destruct (synthesizeOpenAI_exchange k m v v s w h') as (r & t & E & R) end.
  rewrite (bind_done _ _ _ _ _ _ E).
  destruct r as [audio | e].
  2:{ eexists. split; [reflexivity | answered_pieces]. }
  match goal with |- context [bind (playAudio audio) _ w ?h'] =>
    destruct (playAudio_events audio w h') as (p & tp & Ep & res & n & ->) end.
  rewrite (bind_done _ _ _ _ _ _ Ep).
  destruct p as [e |].
  { eexists. split; [reflexivity | answered_pieces]. }
  unfold bind at 1. cbn [sleep emit].
  match goal with |- context [bind (synthesizeOpenAI k m v x s) _ w ?h'] =>
    destruct (synthesizeOpenAI_exchange k m v x s w h') as (r2 & t2 & E2 & R2) end.
  rewrite (bind_done _ _ _ _ _ _ E2).
  destruct r2 as [audio2 | e].
  2:{ eexists. split; [reflexivity | answered_pieces]. }
  match goal with |- context [bind (playAudio audio2) _ w ?h'] =>
    destruct (playAudio_events audio2 w h') as (p2 & tp2 & Ep2 & res2 & n2 & ->) end.
  rewrite (bind_done _ _ _ _ _ _ Ep2).
  destruct p2 as [e |]; unfold bind; cbn [stderr sleep emit ret];
    (eexists; split; [reflexivity | answered_pieces]).
Qed.

(** The loop over a list of voices without repetition: every request
    answers the call entered just before it, and the calls made for a
    voice are its announcement, followed or not by its utterance. *)
Lemma forEach_answered k m x s voices w h :
  exists t,
    forEach voices (speakVoice k m x s) w h = (Done tt, t)
    /\ answered None t
    /\ forall u,
         (~ In u voices -> callsFor u t = [])
         /\ (NoDup voices ->
             callsFor u t = []
             \/ callsFor u t = [announcement k m s u]
             \/ callsFor u t = [announcement k m s u; utterance k m x s u]).
Proof.
  revert h. induction voices as [| v voices IH]; intros h.
  - exists []. repeat split; cbn; auto.
  - destruct (speakVoice_events k m x s v w h) as (t & E & F & L).
    destruct (speakVoice_answered k m x s v w h) as (t0 & E0 & A).
    rewrite E in E0. injection E0 as <-.
    destruct (speakVoice_spec k m x s v w h) as (ok & t1 & E1 & C).
    rewrite E in E1. injection E1 as <-.
    destruct (IH (h ++ t)) as (t' & E' & A' & C').
    exists (t ++ t'). split; [| split].
    + cbn [forEach]. rewrite (bind_done _ _ _ _ _ _ E), E'. reflexivity.
    + apply answered_app; assumption.
    + intros u. destruct (C' u) as [Cout Cdup]. rewrite callsFor_app. split.
      * intros Hu.
        rewrite (callsFor_other _ _ _ _ _ u _ F), Cout; [reflexivity | |];
          intros H; apply Hu; [right; exact H | left; symmetry; exact H].
      * intros Hd. apply NoDup_cons in Hd as [Hv Hd].
        destruct (String.eqb u v) eqn:Euv.
        -- apply String.eqb_eq in Euv as ->.
           rewrite Cout; [| intros H; apply Hv, list_elem_of_In, H].
           rewrite app_nil_r, (callsFor_same _ _ _ _ _ _ F), C.
           destruct ok; auto.
        -- apply String.eqb_neq in Euv.
           rewrite (callsFor_other _ _ _ _ _ u _ F Euv). cbn [app].
           apply Cdup, Hd.
Qed.

Lemma openAIVoices_NoDup : NoDup openAIVoices.
Proof. apply (bool_decide_unpack _). vm_compute. reflexivity. Qed.

(** The run of a demo-all invocation that passed the checks is the loop. *)
Lemma demo_all_run w c text :
  checked w c = true -> flagAll c = true -> providerOf w c = "openai" ->
  textOf w c = Some text ->
  run w (main c)
  = forEach openAIVoices
      (speakVoice (apiKeyOf w c) (modelOf w c) text (flagSpeed c)) w [].
Proof.
  intros Hc Hall Hp Htext.
  destruct (main_checked w c Hc) as (text' & Htext' & _ & Hrun).
  rewrite Htext in Htext'. injection Htext' as <-.
  rewrite Hrun, Hall, Hp. cbv zeta. rewrite speakAll_openai.
  change (speedEvents "openai" (flagSpeed c)) with (@nil event).
  destruct (forEach _ _ _ _). reflexivity.
Qed.

Lemma onceRun_answered call output speak o t :
  onceRun call output speak o t -> answered None t.
Proof.
  destruct 1 as [e | req res e Hreq Hres | req res audio o t Hreq Hres S];
    cbn [answered]; auto.
  repeat split; auto. apply answered_silent.
  apply (sinkRun_observed _ _ _ _ _ S).
Qed.

(** X10: no request is retried.  In every run each request comes right
    after the entry into the synthesize function whose request it is, so
    an entry sends at most one request, and every request has the 60
    second timeout.  A single-shot run enters a synthesize function at
    most once.  In a demo-all run the calls made for a voice are its
    announcement, followed or not by its utterance, and nothing else: at
    most two calls for a voice, at most twelve in all. *)
Theorem no_retry (w : World) (c : Flags) :
  answered None (snd (run w (main c)))
  /\ (length (httpRequests (snd (run w (main c))))
      <= length (synthCalls (snd (run w (main c)))))%nat
  /\ (flagAll c = false ->
      (length (synthCalls (snd (run w (main c)))) <= 1)%nat)
  /\ (flagAll c = true ->
      forall text v,
        textOf w c = Some text ->
        callsFor v (snd (run w (main c))) = []
        \/ callsFor v (snd (run w (main c)))
           = [announcement (apiKeyOf w c) (modelOf w c) (flagSpeed c) v]
        \/ callsFor v (snd (run w (main c)))
           = [announcement (apiKeyOf w c) (modelOf w c) (flagSpeed c) v;
              utterance (apiKeyOf w c) (modelOf w c) text (flagSpeed c) v])
  /\ (forall v,
        (length (callsFor v (snd (run w (main c)))) <= 2)%nat)
  /\ (length (synthCalls (snd (run w (main c)))) <= 2 * length openAIVoices)%nat
  /\ (forall timeout req res,
        In (EHttp timeout req res) (snd (run w (main c))) -> timeout = 60).
Proof.
  destruct (run_cases w c)
    as [(code & msgs & E)
       | [(text & o & t & Hc & Hall & Htext & E & O)
         | (text & t & Hc & Hall & Hp & Htext & E & F & L)]].
  - rewrite E; cbn [snd].
    destruct (stderr_only msgs) as (Hs & Hh & _).
    assert (Hnone : forall v, callsFor v (map EStderr msgs) = [])
      by (intros v; apply callsFor_silent, Hs).
    rewrite Hs, Hh. cbn [length].
    split; [apply answered_silent, Hh |].
    split; [lia |]. split; [lia |].
    split; [intros _ text v _; left; apply Hnone |].
    split; [intros v; rewrite Hnone; cbn; lia |].
    split; [lia |].
    intros timeout req res H. apply in_map_iff in H as (m & [=] & _).
  - rewrite E; cbn [snd].
    destruct (speedEvents_silent (providerOf w c) (flagSpeed c)) as (Hs & Hh & _).
    destruct (onceRun_observed _ _ _ _ _ O) as (Hcalls & Hreq & _).
    assert (Hone : length (synthCalls (speedEvents (providerOf w c) (flagSpeed c) ++ t))
                   = 1%nat).
    { rewrite synthCalls_app, Hs, Hcalls. reflexivity. }
    split; [apply answered_app;
            [apply answered_silent, Hh | exact (onceRun_answered _ _ _ _ _ O)] |].
    split; [rewrite Hone, httpRequests_app, Hh;
            destruct Hreq as [-> | (req & -> & _)]; cbn; lia |].
    split; [rewrite Hone; lia |].
    split; [intros Hf; rewrite Hf in Hall; discriminate |].
    split; [intros v;
            pose proof (callsFor_length v
                          (speedEvents (providerOf w c) (flagSpeed c) ++ t));
            lia |].
    split; [rewrite Hone; cbn; lia |].
    intros timeout req res H. apply in_app_or in H as [H | H].
    + destruct (speedEvents_stderr (providerOf w c) (flagSpeed c)) as [msgs Hm].
      rewrite Hm in H. apply in_map_iff in H as (m & [=] & _).
    + destruct O as [e | rq rs e _ _ | rq rs audio o t _ _ S].
      * destruct H as [[=] | [[=] | []]].
      * destruct H as [[=] | [[= -> _ _] | [[=] | []]]]. reflexivity.
      * destruct H as [[=] | [[= -> _ _] | H]]; [reflexivity |].
        apply In_http in H.
        destruct (sinkRun_observed _ _ _ _ _ S) as (_ & H2 & _).
        rewrite H2 in H. destruct H.
  - destruct (forEach_answered (apiKeyOf w c) (modelOf w c) text (flagSpeed c)
                openAIVoices w []) as (t' & E' & A & C).
    rewrite (demo_all_run w c text Hc Hall Hp Htext), E' in E.
    injection E as ->.
    rewrite (demo_all_run w c text Hc Hall Hp Htext), E'. cbn [snd].
    assert (Hshape : forall v,
              callsFor v t = []
              \/ callsFor v t
                 = [announcement (apiKeyOf w c) (modelOf w c) (flagSpeed c) v]
              \/ callsFor v t
                 = [announcement (apiKeyOf w c) (modelOf w c) (flagSpeed c) v;
                    utterance (apiKeyOf w c) (modelOf w c) text (flagSpeed c) v])
      by (intros v; apply (C v), openAIVoices_NoDup).
    split; [exact A |]. split; [lia |].
    split; [intros Hf; rewrite Hf in Hall; discriminate |].
    split; [intros _ text' v Htext'; rewrite Htext in Htext';
            injection Htext' as <-; apply Hshape |].
    split; [intros v; destruct (Hshape v) as [-> | [-> | ->]]; cbn; lia |].
    split; [lia |].
    intros timeout req res H.
    rewrite Forall_forall in F. apply list_elem_of_In in H.
    destruct (F _ H) as (v & _ & Hto & _). exact Hto.
Qed.

Lemma no_retry_witness :
  answered None (snd (run offlineWorld (main demoAll)))
  /\ (length (synthCalls (snd (run calmWorld (main helloWorld)))) <= 1)%nat
  /\ (callsFor "nova" (snd (run offlineWorld (main demoAll))) = []
      \/ callsFor "nova" (snd (run offlineWorld (main demoAll)))
         = [announcement "sk-env" "tts-1-hd" f_1_0 "nova"]
      \/ callsFor "nova" (snd (run offlineWorld (main demoAll)))
         = [announcement "sk-env" "tts-1-hd" f_1_0 "nova";
            utterance "sk-env" "tts-1-hd" "Hello" f_1_0 "nova"]).
Proof.
  split; [apply (no_retry offlineWorld demoAll) |].
  split.
  - apply (proj1 (proj2 (proj2 (no_retry calmWorld helloWorld)))). reflexivity.
  - apply (proj1 (proj2 (proj2 (proj2 (no_retry offlineWorld demoAll))))
             eq_refl "Hello" "nova" eq_refl).
Defined.

(** X11: the key that was resolved is the key of every call, and every
    request sent carries it in the header of the provider of the run,
    beside the content type: [Authorization: Bearer] for OpenAI,
    [xi-api-key] for ElevenLabs, [Authorization: Token] for Deepgram. *)
Theorem key_in_every_call (w : World) (c : Flags) :
  (forall call, In call (synthCalls (snd (run w (main c)))) ->
                keyOfCall call = apiKeyOf w c)
  /\ (forall req, In req (httpRequests (snd (run w (main c)))) ->
        isProvider (providerOf w c) = true
        /\ (providerOf w c = "openai" ->
            req_headers req
            = [("Content-Type", "application/json");
               ("Authorization", "Bearer " +:+ apiKeyOf w c)])
        /\ (providerOf w c = "elevenlabs" ->
            req_headers req
            = [("Content-Type", "application/json");
               ("xi-api-key", apiKeyOf w c)])
        /\ (providerOf w c = "deepgram" ->
            req_headers req
            = [("Content-Type", "application/json");
               ("Authorization", "Token " +:+ apiKeyOf w c)])).
Proof.
  destruct (run_cases w c)
    as [(code & msgs & E)
       | [(text & o & t & Hc & Hall & Htext & E & O)
         | (text & t & Hc & Hall & Hp & Htext & E & F & L)]];
    rewrite E; cbn [snd].
  - destruct (stderr_only msgs) as (-> & -> & _). split; intros ? [].
  - destruct (speedEvents_silent (providerOf w c) (flagSpeed c)) as (Hs & Hh & _).
    destruct (onceRun_observed _ _ _ _ _ O) as (Hcalls & Hreq & _).
    destruct (checked_parts w c Hc) as (_ & Hprov & _).
    rewrite synthCalls_app, httpRequests_app, Hs, Hh, Hcalls. cbn [app].
    split.
    + intros call [<- | []]. apply keyOfCall_callOf.
    + intros req Hin. destruct Hreq as [Hr | (rq & Hr & Hfor)];
        rewrite Hr in Hin; [destruct Hin |].
      destruct Hin as [<- | []].
      split; [exact Hprov |]. repeat split; intros Hp.
      * rewrite (callOf_openai w c text Hp) in Hfor.
        destruct Hfor as [-> _]. reflexivity.
      * rewrite (callOf_elevenlabs w c text Hp) in Hfor.
        destruct Hfor as [-> _]. reflexivity.
      * rewrite (callOf_deepgram w c text Hp) in Hfor.
        rewrite Hfor. reflexivity.
  - rewrite Forall_forall in F. split.
    + intros call Hin. apply In_synthCalls, list_elem_of_In in Hin.
      destruct (F _ Hin) as (v & _ & [-> | ->]); reflexivity.
    + intros req Hin. apply In_httpRequests in Hin as (timeout & res & Hin).
      apply list_elem_of_In in Hin.
      destruct (F _ Hin) as (v & _ & _ & _ & Hreq).
      split; [rewrite Hp; reflexivity |].
      repeat split; intros Hp'; rewrite Hp in Hp'; try discriminate.
      destruct Hreq as [-> | ->]; reflexivity.
Qed.

Lemma key_in_every_call_witness :
  keyOfCall (CallDeepgram "dg-token" "aura-luna-en" "Hi")
  = apiKeyOf calmWorld fastDeepgram
  /\ req_headers (deepgramRequest "dg-token" "aura-luna-en" "Hi")
     = [("Content-Type", "application/json");
        ("Authorization", "Token " +:+ apiKeyOf calmWorld fastDeepgram)]
  /\ req_headers (elevenLabsRequest "xi-token" "nonexistent-preset"
                    (JObject [("text", JString "Hi");
                              ("model_id", JString "eleven_multilingual_v2");
                              ("voice_settings",
                               JObject [("stability", JNumber f_0_5);
                                        ("similarity_boost", JNumber f_0_75);
                                        ("speed", JNumber f_1_0)])]))
     = [("Content-Type", "application/json");
        ("xi-api-key", apiKeyOf calmWorld rawVoice)].
Proof.
  split; [| split].
  - apply (proj1 (key_in_every_call calmWorld fastDeepgram)).
    vm_compute. left. reflexivity.
  - destruct (proj2 (key_in_every_call calmWorld fastDeepgram)
                (deepgramRequest "dg-token" "aura-luna-en" "Hi"))
      as (_ & _ & _ & H); [vm_compute; left; reflexivity |].
    apply H. reflexivity.
  - destruct (proj2 (key_in_every_call calmWorld rawVoice)
                (elevenLabsRequest "xi-token" "nonexistent-preset"
                   (JObject [("text", JString "Hi");
                             ("model_id", JString "eleven_multilingual_v2");
                             ("voice_settings",
                              JObject [("stability", JNumber f_0_5);
                                       ("similarity_boost", JNumber f_0_75);
                                       ("speed", JNumber f_1_0)])])))
      as (_ & _ & H & _); [vm_compute; left; reflexivity |].
    apply H. reflexivity.
Defined.

(** ** Saving and playing in the single-shot branch *)

Lemma In_map_EStderr msgs e :
  In e (map EStderr msgs) -> exists m, e = EStderr m.
Proof. intros H. apply in_map_iff in H as (m & <- & _). eauto. Qed.

Lemma In_sleeps ms n e : In e (repeat (ESleep ms) n) -> e = ESleep ms.
Proof. apply repeat_spec. Qed.

Lemma playOrExit_events data o t :
  playOrExit data o t ->
  (forall path d perm r, ~ In (EWriteFile path d perm r) t)
  /\ (forall d r, In (EPlayAudio d r) t ->
                  d = data /\ exists t2, t = EPlayAudio d r :: t2).
Proof.
  destruct 1 as [polls | e | e]; split.
  - intros path d perm r [[=] | H]. apply In_sleeps in H. discriminate.
  - intros d r [[= <- <-] | H]; [eauto |]. apply In_sleeps in H. discriminate.
  - intros path d perm r [[=] | [[=] | []]].
  - intros d r [[= <- <-] | [[=] | []]]. eauto.
  - intros path d perm r [[=] | [[=] | []]].
  - intros d r [[= <- <-] | [[=] | []]]. eauto.
Qed.

Lemma sinkRun_events output speak data o t :
  sinkRun output speak data o t ->
  (forall path d perm r,
     In (EWriteFile path d perm r) t ->
     path = output /\ d = data /\ perm = 420 /\ isEmpty output = false
     /\ forall e, r = Some e ->
          o = Exited 1 /\ playbacks t = []
          /\ last (messages t) = Some ("Error saving file: " +:+ e +:+ nl))
  /\ (forall d r,
        In (EPlayAudio d r) t ->
        d = data
        /\ (isEmpty output = true
            \/ speak = true
               /\ exists t2,
                    t = EWriteFile output data 420 None
                        :: EStderr ("Saved to " +:+ output +:+ nl)
                        :: EPlayAudio d r :: t2)).
Proof.
  destruct 1 as [o t Ho P | e Ho | Ho Hs | o t Ho Hs P].
  - destruct (playOrExit_events _ _ _ P) as [Hw Hp]. split.
    + intros path d perm r H. destruct (Hw _ _ _ _ H).
    + intros d r H. destruct (Hp _ _ H) as [-> _]. auto.
  - split.
    + intros path d perm r [[= <- <- <- <-] | [[=] | []]].
      do 4 (split; [auto |]). intros e' [= <-]. repeat split.
    + intros d r [[=] | [[=] | []]].
  - split.
    + intros path d perm r [[= <- <- <- <-] | [[=] | []]].
      do 4 (split; [auto |]). discriminate.
    + intros d r [[=] | [[=] | []]].
  - destruct (playOrExit_events _ _ _ P) as [Hw Hp]. split.
    + intros path d perm r [[= <- <- <- <-] | [[=] | H]].
      * do 4 (split; [auto |]). discriminate.
      * destruct (Hw _ _ _ _ H).
    + intros d r [[=] | [[=] | H]].
      destruct (Hp _ _ H) as [-> [t2 ->]]. split; [reflexivity |].
      right. split; [assumption |]. eauto.
Qed.

Lemma last_messages_app t1 t2 m :
  last (messages t2) = Some m -> last (messages (t1 ++ t2)) = Some m.
Proof. intros H. rewrite messages_app, last_app, H. reflexivity. Qed.

(** What a single-shot run is: the messages of a failed check, or the
    speed warning followed by the one call and its delivery. *)
Lemma single_shot_cases w c :
  flagAll c = false ->
  (exists code msgs, run w (main c) = (Exited code, map EStderr msgs))
  \/ (exists text o t,
        textOf w c = Some text
        /\ run w (main c) = (o, speedEvents (providerOf w c) (flagSpeed c) ++ t)
        /\ onceRun (callOf w c text) (flagOutput c) (flagSpeak c) o t).
Proof.
  intros Hall.
  destruct (run_cases w c)
    as [H | [(text & o & t & _ & _ & Htext & E & O)
            | (text & t & _ & Hall' & _)]].
  - left. exact H.
  - right. eauto 6.
  - rewrite Hall in Hall'. discriminate.
Qed.

Lemma In_speedEvents p s e :
  In e (speedEvents p s) -> exists m, e = EStderr m.
Proof.
  destruct (speedEvents_stderr p s) as [msgs ->]. apply In_map_EStderr.
Qed.

Lemma received_silent p s : received (speedEvents p s) = [].
Proof.
  destruct (speedEvents_stderr p s) as [msgs ->].
  induction msgs; [reflexivity | assumption].
Qed.

(** X12: in a single-shot run a file is written only to the path of
    [-o], with mode 0644 and exactly the audio that was received; a failed
    write ends the run with status 1 on the message of the failure, before
    anything is played; and when a path was given, a playback happens only
    with [-s] and only right after the file was written and announced. *)
Theorem save_before_play (w : World) (c : Flags) :
  flagAll c = false ->
  (forall path data perm r,
     In (EWriteFile path data perm r) (snd (run w (main c))) ->
     path = flagOutput c /\ perm = 420 /\ isEmpty (flagOutput c) = false
     /\ received (snd (run w (main c))) = [data])
  /\ (forall path data perm e,
        In (EWriteFile path data perm (Some e)) (snd (run w (main c))) ->
        fst (run w (main c)) = Exited 1
        /\ playbacks (snd (run w (main c))) = []
        /\ last (messages (snd (run w (main c))))
           = Some ("Error saving file: " +:+ e +:+ nl))
  /\ (forall data r,
        In (EPlayAudio data r) (snd (run w (main c))) ->
        received (snd (run w (main c))) = [data]
        /\ (isEmpty (flagOutput c) = true
            \/ flagSpeak c = true
               /\ exists t1 t2,
                    snd (run w (main c))
                    = t1 ++ EWriteFile (flagOutput c) data 420 None
                         :: EStderr ("Saved to " +:+ flagOutput c +:+ nl)
                         :: EPlayAudio data r :: t2)).
Proof.
  intros Hall.
  destruct (single_shot_cases w c Hall)
    as [(code & msgs & E) | (text & o & t & _ & E & O)]; rewrite E; cbn [fst snd].
  { repeat split; intros;
      match goal with H : In _ (map EStderr _) |- _ =>
        apply In_map_EStderr in H as [m [=]] end. }
  assert (Hcases :
    (forall path d perm r, ~ In (EWriteFile path d perm r) t)
    /\ (forall d r, ~ In (EPlayAudio d r) t)
    \/ exists req res audio t',
         t = ESynth (callOf w c text) :: EHttp 60 req res :: t'
         /\ interpretResponse res = inl audio
         /\ sinkRun (flagOutput c) (flagSpeak c) audio o t').
  { destruct O as [e | req res e _ _ | req res audio o t' _ Hres S].
    - left. split; intros; intros [[=] | [[=] | []]].
    - left. split; intros; intros [[=] | [[=] | [[=] | []]]].
    - right. eauto 8. }
  destruct Hcases as [[Hw Hp] | (req & res & audio & t' & -> & Hres & S)].
  { repeat split; intros;
      match goal with H : In _ (_ ++ _) |- _ =>
        apply in_app_or in H as [H | H];
          [apply In_speedEvents in H as [m [=]]
          | first [destruct (Hw _ _ _ _ H) | destruct (Hp _ _ H)]] end. }
  destruct (sinkRun_events _ _ _ _ _ S) as [Hw Hp].
  destruct (sinkRun_observed _ _ _ _ _ S) as (_ & _ & Hrec & _).
  assert (Hreceived :
    received (speedEvents (providerOf w c) (flagSpeed c)
              ++ ESynth (callOf w c text) :: EHttp 60 req res :: t') = [audio]).
  { rewrite received_app, received_silent. cbn [app received].
    rewrite Hres, Hrec. reflexivity. }
  rewrite Hreceived.
  destruct (speedEvents_silent (providerOf w c) (flagSpeed c))
    as (_ & _ & Hpb & _).
  split; [| split].
  - intros path data perm r H. apply in_app_or in H as [H | H];
      [apply In_speedEvents in H as [m [=]] |].
    destruct H as [[=] | [[=] | H]].
    destruct (Hw _ _ _ _ H) as (-> & -> & -> & Ho & _). auto.
  - intros path data perm e H. apply in_app_or in H as [H | H];
      [apply In_speedEvents in H as [m [=]] |].
    destruct H as [[=] | [[=] | H]].
    destruct (Hw _ _ _ _ H) as (_ & _ & _ & _ & Hfail).
    destruct (Hfail e eq_refl) as (-> & Hnone & Hlast).
    split; [reflexivity |]. split.
    + rewrite playbacks_app, Hpb. cbn [app playbacks]. exact Hnone.
    + apply last_messages_app. exact Hlast.
  - intros data r H. apply in_app_or in H as [H | H];
      [apply In_speedEvents in H as [m [=]] |].
    destruct H as [[=] | [[=] | H]].
    destruct (Hp _ _ H) as (-> & [Ho | (Hs & t2 & ->)]); split; auto.
    right. split; [assumption |].
    exists (speedEvents (providerOf w c) (flagSpeed c)
            ++ [ESynth (callOf w c text); EHttp 60 req res]), t2.
    rewrite <- app_assoc. reflexivity.
Qed.

Lemma save_before_play_witness :
  In (EWriteFile "out.mp3" [x49; x44; x33] 420 (Some "permission denied"))
     (snd (run readOnlyWorld (main saveAndSpeak)))
  /\ fst (run readOnlyWorld (main saveAndSpeak)) = Exited 1
  /\ playbacks (snd (run readOnlyWorld (main saveAndSpeak))) = []
  /\ last (messages (snd (run readOnlyWorld (main saveAndSpeak))))
     = Some ("Error saving file: " +:+ "permission denied" +:+ nl).
Proof.
  assert (H : In (EWriteFile "out.mp3" [x49; x44; x33] 420
                    (Some "permission denied"))
                 (snd (run readOnlyWorld (main saveAndSpeak)))).
  { vm_compute. right. right. left. reflexivity. }
  split; [exact H |].
  destruct (save_before_play readOnlyWorld saveAndSpeak eq_refl) as (_ & H2 & _).
  exact (H2 _ _ _ _ H).
Defined.

(** X13: in a single-shot run, an exchange that was not answered with
    audio (transport error, status other than 200, body that cannot be
    read) ends the run with status 1; the last message names the failure,
    and nothing is written or played. *)
Theorem failed_synthesis_reported (w : World) (c : Flags)
    (timeout : Z) (req : Request) (res : HttpOutcome) (e : string) :
  flagAll c = false ->
  In (EHttp timeout req res) (snd (run w (main c))) ->
  interpretResponse res = inr e ->
  fst (run w (main c)) = Exited 1
  /\ last (messages (snd (run w (main c))))
     = Some ("Error synthesizing speech: " +:+ e +:+ nl)
  /\ fileOutputs (snd (run w (main c))) = []
  /\ playbacks (snd (run w (main c))) = []
  /\ match res with
     | TransportError msg => e = "failed to make request: " +:+ msg
     | Response status body readErr =>
         if status =? 200 then readErr = Some e
         else e = "API error (" +:+ formatInt status +:+ "): "
                  +:+ string_of_list_byte body
     end.
Proof.
  intros Hall Hin Hres.
  assert (Hshape : match res with
     | TransportError msg => e = "failed to make request: " +:+ msg
     | Response status body readErr =>
         if status =? 200 then readErr = Some e
         else e = "API error (" +:+ formatInt status +:+ "): "
                  +:+ string_of_list_byte body
     end).
  { destruct res as [msg | status body readErr]; cbn in Hres.
    - congruence.
    - destruct (status =? 200); cbn in Hres; [| congruence].
      destruct readErr; congruence. }
  destruct (single_shot_cases w c Hall)
    as [(code & msgs & E) | (text & o & t & _ & E & O)]; rewrite E in *;
    cbn [fst snd] in *.
  { apply In_map_EStderr in Hin as [m [=]]. }
  apply in_app_or in Hin as [Hin | Hin];
    [apply In_speedEvents in Hin as [m [=]] |].
  destruct (speedEvents_silent (providerOf w c) (flagSpeed c))
    as (_ & _ & Hpb & Hf & _).
  rewrite fileOutputs_app, playbacks_app, Hf, Hpb. cbn [app].
  destruct O as [e' | rq rs e' _ Hrs | rq rs audio o t' _ Hrs S].
  - destruct Hin as [[=] | [[=] | []]].
  - destruct Hin as [[=] | [[= _ <- <-] | [[=] | []]]].
    rewrite Hres in Hrs. injection Hrs as <-.
    split; [reflexivity |]. split; [apply last_messages_app; reflexivity |].
    repeat split; assumption.
  - destruct Hin as [[=] | [[= _ <- <-] | Hin]]; [congruence |].
    apply In_http in Hin.
    destruct (sinkRun_observed _ _ _ _ _ S) as (_ & H2 & _).
    rewrite H2 in Hin. destruct Hin.
Qed.

Lemma failed_synthesis_reported_witness :
  fst (run refusingWorld (main saveAndSpeak)) = Exited 1
  /\ last (messages (snd (run refusingWorld (main saveAndSpeak))))
     = Some ("Error synthesizing speech: " +:+ "API error (401): no" +:+ nl)
  /\ fileOutputs (snd (run refusingWorld (main saveAndSpeak))) = []
  /\ playbacks (snd (run refusingWorld (main saveAndSpeak))) = [].
Proof.
  destruct (failed_synthesis_reported refusingWorld saveAndSpeak 60
              (openAIRequest "sk-env" "tts-1-hd" "alloy" "Hi" f_1_0)
              (Response 401 [x6e; x6f] None) "API error (401): no" eq_refl)
    as (H1 & H2 & H3 & H4 & _).
  - vm_compute. right. left. reflexivity.
  - reflexivity.
  - repeat split; assumption.
Defined.

(** ** The demo loop *)

(** X14: with [--all] the output path and the speak flag play no part:
    the run is the same whatever they hold, and no file is ever written.
    Every request of the loop is the OpenAI request for a preset voice,
    carrying that voice's name or the text, and every pause lasts 10, 500
    or 1000 milliseconds. *)
Theorem demo_all_sinks (w : World) (c : Flags) :
  flagAll c = true ->
  (forall output speak,
     run w (main (setSinks c output speak)) = run w (main c))
  /\ fileOutputs (snd (run w (main c))) = []
  /\ (forall req,
        In req (httpRequests (snd (run w (main c)))) ->
        exists v text,
          In v openAIVoices /\ textOf w c = Some text
          /\ (req = openAIRequest (apiKeyOf w c) (modelOf w c) v v (flagSpeed c)
              \/ req = openAIRequest (apiKeyOf w c) (modelOf w c) v text
                         (flagSpeed c)))
  /\ (forall ms, In (ESleep ms) (snd (run w (main c))) ->
                 ms = 10 \/ ms = 500 \/ ms = 1000).
Proof.
  intros Hall. split.
  { intros output speak. rewrite !main_run.
    unfold apiKeyOf, modelOf, voiceOf.
    change (providerOf w (setSinks c output speak)) with (providerOf w c).
    cbn [setSinks flagProvider flagVoice flagModel flagOutput flagSpeed
         flagSpeak flagToken flagHelp flagAll flagStability flagSimilarity
         flagArgs].
    rewrite Hall. reflexivity. }
  destruct (run_cases w c)
    as [(code & msgs & E)
       | [(text & o & t & _ & Hall' & _)
         | (text & t & Hc & _ & Hp & Htext & E & F & L)]].
  - rewrite E. cbn [snd].
    destruct (stderr_only msgs) as (_ & ->  & _).
    destruct (stderr_silent msgs) as (_ & Hf & _).
    split; [| split].
    + exact Hf.
    + intros req [].
    + intros ms H. apply In_map_EStderr in H as [m [=]].
  - rewrite Hall in Hall'. discriminate.
  - rewrite E. cbn [snd]. rewrite Forall_forall in F. split; [| split].
    + destruct (fileOutputs t) as [| [[path data] perm] l] eqn:Ef; [reflexivity |].
      exfalso. clear - Ef F.
      assert (H : exists r, In (EWriteFile path data perm r) t).
      { revert Ef. clear. induction t as [| e t IH]; [discriminate |].
        destruct e; cbn [fileOutputs]; intros H;
          try (destruct (IH H) as [r Hr]; exists r; right; exact Hr).
        injection H as -> -> -> _. eexists. left. reflexivity. }
      destruct H as [r H]. apply list_elem_of_In in H.
      destruct (F _ H) as (v & _ & []).
    + intros req H. apply In_httpRequests in H as (timeout & res & H).
      apply list_elem_of_In in H. destruct (F _ H) as (v & Hv & _ & _ & Hreq).
      exists v, text. auto.
    + intros ms H. apply list_elem_of_In in H.
      destruct (F _ H) as (v & _ & Hms). exact Hms.
Qed.

Lemma demo_all_sinks_witness :
  run calmWorld (main demoAllWithOutput) = run calmWorld (main demoAll)
  /\ fileOutputs (snd (run calmWorld (main demoAllWithOutput))) = [].
Proof.
  split.
  - apply (proj1 (demo_all_sinks calmWorld demoAll eq_refl)).
  - apply (proj1 (proj2 (demo_all_sinks calmWorld demoAllWithOutput eq_refl))).
Defined.

(** ** Numbers that reach a provider *)

Lemma SFcompare_None x y :
  SFcompare x y = None -> isNaN x = true \/ isNaN y = true.
Proof.
  destruct x as [sx | sx | | sx mx ex], y as [sy | sy | | sy my ey];
    cbn; auto; try discriminate;
    try (destruct sx; discriminate);
    try (destruct sy; discriminate);
    try (destruct sx, sy; discriminate).
Qed.

Lemma not_lt_le a b :
  isNaN a = false -> isNaN b = false ->
  Float64.lt a b = false -> Float64.le b a = true.
Proof.
  unfold Float64.lt, Float64.le, SFltb, SFleb. intros Ha Hb.
  rewrite (SFcompare_antisym a b).
  destruct (SFcompare a b) as [[] |] eqn:E; cbn; try congruence.
  apply SFcompare_None in E as [E | E]; congruence.
Qed.

Lemma accepted_within lo hi s :
  isNaN lo = false -> isNaN hi = false -> isNaN s = false ->
  negb (Float64.lt s lo || Float64.gt s hi) = true -> within lo hi s.
Proof.
  intros Hlo Hhi Hs H. apply negb_true_iff, orb_false_iff in H as [H1 H2].
  split; apply not_lt_le; assumption.
Qed.

Lemma isFinite_not_nan s : isFinite s = true -> isNaN s = false.
Proof. destruct s; cbn; congruence. Qed.

Lemma isEmptyFloat_not_nan s : isEmptyFloat s = true -> isNaN s = false.
Proof. destruct s; cbn; congruence. Qed.

(** X15: a request is sent only with numbers the provider can be given:
    for OpenAI a speed within [0.25, 4.0], for ElevenLabs a speed within
    [0.7, 1.2] and a finite stability and similarity boost.  A speed that
    is not a number passes the comparisons of the validation and is
    stopped by the encoding of the request. *)
Theorem sent_speed_in_range (w : World) (c : Flags) :
  httpRequests (snd (run w (main c))) <> [] ->
  (providerOf w c = "openai" -> within f_0_25 f_4_0 (flagSpeed c))
  /\ (providerOf w c = "elevenlabs" ->
      within f_0_7 f_1_2 (flagSpeed c)
      /\ isFinite (flagStability c) = true
      /\ isFinite (flagSimilarity c) = true).
Proof.
  intros Hsent.
  destruct (run_cases w c)
    as [(code & msgs & E)
       | [(text & o & t & Hc & Hall & Htext & E & O)
         | (text & t & Hc & Hall & Hp & Htext & E & F & L)]];
    rewrite E in Hsent; cbn [snd] in Hsent.
  - destruct (stderr_only msgs) as (_ & H & _). contradiction.
  - destruct (checked_parts w c Hc) as (_ & _ & _ & Hs & _).
    destruct (speedEvents_silent (providerOf w c) (flagSpeed c)) as (_ & Hh & _).
    destruct (onceRun_observed _ _ _ _ _ O) as (_ & Hreq & _).
    rewrite httpRequests_app, Hh in Hsent. cbn [app] in Hsent.
    destruct Hreq as [Hreq | (req & _ & Hfor)]; [contradiction |].
    split; intros Hp.
    + rewrite (callOf_openai w c text Hp) in Hfor. destruct Hfor as [_ Hfin].
      rewrite Hp in Hs. apply accepted_within; auto using isFinite_not_nan.
    + rewrite (callOf_elevenlabs w c text Hp) in Hfor.
      destruct Hfor as (_ & Hst & Hsb & Hfin).
      rewrite Hp in Hs. repeat split; try assumption;
        apply (accepted_within f_0_7 f_1_2); auto;
        destruct Hfin; auto using isFinite_not_nan, isEmptyFloat_not_nan.
  - split; intros Hp'; [| rewrite Hp in Hp'; discriminate].
    destruct (checked_parts w c Hc) as (_ & _ & _ & Hs & _).
    rewrite Hp in Hs.
    destruct (httpRequests t) as [| req l] eqn:Hreq; [contradiction |].
    assert (Hin : In req (httpRequests t)) by (rewrite Hreq; left; reflexivity).
    apply In_httpRequests in Hin as (timeout & res & Hin).
    rewrite Forall_forall in F. apply list_elem_of_In in Hin.
    destruct (F _ Hin) as (v & _ & _ & Hfin & _).
    apply accepted_within; auto using isFinite_not_nan.
Qed.

Lemma sent_speed_in_range_witness :
  within f_0_25 f_4_0 (flagSpeed helloWorld)
  /\ httpRequests (snd (run calmWorld (main nanSpeed))) = [].
Proof.
  split.
  - apply (proj1 (sent_speed_in_range calmWorld helloWorld
                    ltac:(vm_compute; discriminate)) eq_refl).
  - reflexivity.
Defined.

(** ** Voice resolution *)

(** X16: resolving a voice twice is resolving it once: the identifier a
    preset stands for is itself no preset name, so a provider-native
    identifier given with [-v] reaches the provider unchanged. *)
Theorem resolution_idempotent (lower : string -> string) (voice : string) :
  resolveElevenLabsVoice lower (resolveElevenLabsVoice lower voice)
  = resolveElevenLabsVoice lower voice
  /\ resolveDeepgramVoice lower (resolveDeepgramVoice lower voice)
     = resolveDeepgramVoice lower voice.
Proof.
  split.
  - unfold resolveElevenLabsVoice at 2 3.
    destruct (elevenLabsVoices !! ToLower lower voice) as [id |] eqn:E.
    + apply lookup_presets in E. unfold elevenLabsPresets in E. cbn [In] in E.
      repeat (destruct E as [E | E]; [injection E as _ <-; reflexivity |]).
      destruct E.
    + unfold resolveElevenLabsVoice. rewrite E. reflexivity.
  - unfold resolveDeepgramVoice at 2 3.
    destruct (deepgramVoices !! ToLower lower voice) as [id |] eqn:E.
    + apply lookup_presets in E. unfold deepgramPresets in E. cbn [In] in E.
      repeat (destruct E as [E | E]; [injection E as _ <-; reflexivity |]).
      destruct E.
    + unfold resolveDeepgramVoice. rewrite E. reflexivity.
Qed.

(** ** Exit statuses *)

Lemma playOrExit_outcome data o t :
  playOrExit data o t -> o = Done tt \/ o = Exited 1.
Proof. destruct 1; auto. Qed.

Lemma sinkRun_outcome output speak data o t :
  sinkRun output speak data o t -> o = Done tt \/ o = Exited 1.
Proof. destruct 1; eauto using playOrExit_outcome. Qed.

Lemma onceRun_outcome call output speak o t :
  onceRun call output speak o t -> o = Done tt \/ o = Exited 1.
Proof. destruct 1; eauto using sinkRun_outcome. Qed.

Lemma validateSpeed_outcome p s w h :
  fst (validateSpeed p s w h) = Done tt \/ fst (validateSpeed p s w h) = Exited 1.
Proof.
  unfold validateSpeed, switchProvider, when.
  repeat match goal with |- context [if ?b then _ else _] => destruct b end;
    cbn; auto.
Qed.

Lemma getText_outcome args w h :
  (exists text, fst (getText args w h) = Done text)
  \/ fst (getText args w h) = Exited 1
  \/ fst (getText args w h) = Exited 2 /\ args = [] /\ stdin w = StatFails.
Proof.
  unfold getText. destruct args; [| left; eexists; reflexivity].
  unfold bind, ask. destruct (stdin w) as [| | data [e |]]; cbn; eauto.
Qed.

Lemma speakOnce_outcome p k m v x s st sb output speak w h :
  isProvider p = true ->
  fst (speakOnce p k m v x s st sb output speak w h) = Done tt
  \/ fst (speakOnce p k m v x s st sb output speak w h) = Exited 1.
Proof.
  intros Hp. unfold speakOnce.
  assert (H : (exists msgs, synthesize p k m v x s st sb w h
                            = (Exited 1, map EStderr msgs))
              \/ exists call r t,
                   synthesize p k m v x s st sb w h = (Done r, t)
                   /\ exchangeRun call r t).
  { destruct (isProvider_cases _ Hp) as [-> | [-> | ->]].
    - destruct (isValidOpenAIVoice v) eqn:Hv.
      + right. rewrite (synthesize_openai _ _ _ _ _ _ _ _ _ Hv).
        destruct (synthesizeOpenAI_exchange k m v x s w h) as (r & t & E & R).
        eauto.
      + left. rewrite (synthesize_openai_invalid _ _ _ _ _ _ _ _ _ Hv).
        eexists [_]. reflexivity.
    - right. rewrite synthesize_elevenlabs.
      destruct (synthesizeElevenLabs_exchange k m
                  (resolveElevenLabsVoice (unicodeLower w) v) x s st sb w h)
        as (r & t & E & R).
      eauto.
    - right. rewrite synthesize_deepgram.
      destruct (synthesizeDeepgram_exchange k
                  (resolveDeepgramVoice (unicodeLower w) v) x w h)
        as (r & t & E & R).
      eauto. }
  destruct H as [[msgs E] | (call & r & t & E & R)].
  - rewrite (bind_exited _ _ _ _ _ _ E). auto.
  - rewrite (bind_done _ _ _ _ _ _ E).
    destruct (exchange_onceRun call r t output speak w (h ++ t) R)
      as (o & t' & -> & O).
    cbn [fst]. exact (onceRun_outcome _ _ _ _ _ O).
Qed.

Lemma speakAll_outcome p k m x s w h :
  fst (speakAll p k m x s w h) = Done tt \/ fst (speakAll p k m x s w h) = Exited 1.
Proof.
  destruct (String.eqb p "openai") eqn:Hp.
  - apply String.eqb_eq in Hp as ->. rewrite speakAll_openai.
    destruct (forEach_events k m x s openAIVoices w h) as (t & -> & _). auto.
  - apply String.eqb_neq in Hp. rewrite (speakAll_other _ _ _ _ _ _ _ Hp). auto.
Qed.

(** The exit statuses of [main], once the flags are given. *)
Lemma main_outcome (w : World) (c : Flags) :
  (fst (run w (main c)) = Exited 0 <-> flagHelp c = true)
  /\ (forall code,
        fst (run w (main c)) = Exited code ->
        code = 0 \/ code = 1
        \/ code = 2 /\ flagArgs c = [] /\ stdin w = StatFails).
Proof.
  rewrite main_run.
  destruct (flagHelp c); [split; [tauto | intros code [= <-]; auto] |].
  assert (G : forall o : Outcome unit,
             (o = Done tt \/ o = Exited 1
              \/ o = Exited 2 /\ flagArgs c = [] /\ stdin w = StatFails) ->
             (o = Exited 0 <-> false = true)
             /\ (forall code, o = Exited code ->
                   code = 0 \/ code = 1
                   \/ code = 2 /\ flagArgs c = [] /\ stdin w = StatFails)).
  { intros o [-> | [-> | (-> & Ha & Hs)]]; (split; [split; discriminate |]);
      intros code [= <-]; auto. }
  destruct (isProvider (providerOf w c)) eqn:Hp; cbn [negb]; [| apply G; auto].
  destruct (isEmpty (apiKeyOf w c)); [apply G; auto |].
  pose proof (validateSpeed_outcome (providerOf w c) (flagSpeed c) w []) as Hv.
  destruct (validateSpeed _ _ w []) as [[[] | code] t1]; cbn [fst] in *;
    [| apply G; destruct Hv as [Hv | Hv]; [discriminate | auto]].
  pose proof (getText_outcome (flagArgs c) w []) as Ht.
  destruct (getText _ w []) as [[text | code] t2]; cbn [fst] in *;
    [| apply G;
       destruct Ht as [[? Ht] | [Ht | (Ht & Ha & Hs)]];
         [discriminate | injection Ht as -> | injection Ht as ->]; auto].
  destruct (isEmpty text); [apply G; auto |].
  destruct (flagAll c).
  - pose proof (speakAll_outcome (providerOf w c) (apiKeyOf w c) (modelOf w c)
                  text (flagSpeed c) w (t1 ++ t2)) as Ho.
    destruct (speakAll _ _ _ _ _ _ _) as [o t3]. cbn [fst] in *.
    apply G. tauto.
  - pose proof (speakOnce_outcome (providerOf w c) (apiKeyOf w c) (modelOf w c)
                  (voiceOf w c) text (flagSpeed c) (flagStability c)
                  (flagSimilarity c) (flagOutput c) (flagSpeak c) w (t1 ++ t2) Hp)
      as Ho.
    destruct (speakOnce _ _ _ _ _ _ _ _ _ _ _ _) as [o t3]. cbn [fst] in *.
    apply G. tauto.
Qed.

(** X17: the exit status tells how a run of the program ended.  A
    command line the flag parser refuses ends with status 2, after the
    message of the parser and the usage.  Status 0 is set explicitly only
    by [-h].  Every other run returns from [main] or ends with status 1,
    except that a standard input that cannot be examined, when no text
    argument is given, ends the process in the runtime with status 2. *)
Theorem exit_codes (parse : list string -> Flags + string)
    (args : list string) (w : World) :
  (forall msg,
     parse args = inr msg ->
     run w (gospeak parse args)
     = (Exited 2, EStderr (msg +:+ nl) :: map EStderr usageLines))
  /\ (fst (run w (gospeak parse args)) = Exited 0
      <-> exists c, parse args = inl c /\ flagHelp c = true)
  /\ (forall code,
        fst (run w (gospeak parse args)) = Exited code ->
        code = 0 \/ code = 1
        \/ code = 2
           /\ ((exists msg, parse args = inr msg)
               \/ exists c, parse args = inl c /\ flagArgs c = []
                            /\ stdin w = StatFails)).
Proof.
  unfold gospeak. destruct (parse args) as [c | msg] eqn:Hparse.
  - destruct (main_outcome w c) as [H0 Hcode].
    split; [discriminate |]. split.
    + rewrite H0. split.
      * intros Hh. exists c. split; [reflexivity | exact Hh].
      * intros (c' & [= <-] & Hh). exact Hh.
    + intros code Hrun.
      destruct (Hcode code Hrun) as [H | [H | (H & Ha & Hs)]]; auto.
      right. right. split; [exact H |]. right. exists c. auto.
  - assert (Hrun : run w (stderr (msg +:+ nl) ;;; Usage ;;; @osExit unit 2)
                   = (Exited 2, EStderr (msg +:+ nl) :: map EStderr usageLines)).
    { unfold run, bind. cbn [stderr emit osExit]. rewrite Usage_run.
      cbn [app]. rewrite app_nil_r. reflexivity. }
    rewrite Hrun. cbn [fst]. split; [intros msg' [= <-]; reflexivity |]. split.
    + split; [discriminate | intros (c & [=] & _)].
    + intros code [= <-]. right. right. split; [reflexivity |].
      left. exists msg. reflexivity.
Qed.

Lemma exit_codes_witness :
  run calmWorld (gospeak sampleParse ["-z"])
  = (Exited 2,
     EStderr ("flag provided but not defined: -z" +:+ nl)
     :: map EStderr usageLines)
  /\ fst (run bareWorld (gospeak sampleParse ["-h"])) = Exited 0
  /\ fst (run calmWorld (gospeak sampleParse ["Hello"; "world"])) <> Exited 0.
Proof.
  split; [| split].
  - apply (proj1 (exit_codes sampleParse ["-z"] calmWorld)). reflexivity.
  - apply (proj1 (proj2 (exit_codes sampleParse ["-h"] bareWorld))).
    eexists. split; reflexivity.
  - intros H.
    apply (proj1 (proj2 (exit_codes sampleParse ["Hello"; "world"] calmWorld)))
      in H.
    destruct H as (c & Hc & Hh). injection Hc as <-. discriminate.
Defined.

(** ** The earlier revisions of main *)

Lemma forEach_stderr lines w h :
  forEach lines stderr w h = (Done tt, map EStderr lines).
Proof.
  revert h. induction lines as [| l lines IH]; intros h; [reflexivity |].
  cbn [forEach]. unfold bind at 1. cbn [stderr emit]. rewrite IH. reflexivity.
Qed.

(** The run of the first [main] as the sequence of its checks. *)
Lemma V1_main_run w c :
  run w (V1.main c) =
    let apiKey := if isEmpty (V1.flagToken c) then getenv w "OPENAI_API_KEY"
                  else V1.flagToken c in
    if V1.flagHelp c then (Exited 0, map EStderr V1.usageLines)
    else if isEmpty apiKey then
      (Exited 1,
       [EStderr ("Error: OPENAI_API_KEY environment variable not set and --token not provided"
                 +:+ nl)])
    else if Float64.lt (V1.flagSpeed c) f_0_25 || Float64.gt (V1.flagSpeed c) f_4_0
    then (Exited 1, [EStderr ("Error: Speed must be between 0.25 and 4.0" +:+ nl)])
    else
      match getText (V1.flagArgs c) w [] with
      | (Exited code, t2) => (Exited code, t2)
      | (Done text, t2) =>
          if isEmpty text then
            (Exited 1,
             t2 ++ EStderr ("Error: No text provided" +:+ nl)
                   :: map EStderr V1.usageLines)
          else
            let (o, t3) :=
              (if V1.flagAll c then
                 forEach V1.validVoices
                   (V1.speakVoice apiKey (V1.flagModel c) text (V1.flagSpeed c))
               else
                 V1.speakOnce apiKey (V1.flagModel c) (V1.flagVoice c) text
                   (V1.flagSpeed c) (V1.flagOutput c) (V1.flagSpeak c))
                w t2 in
            (o, t2 ++ t3)
      end.
Proof.
  cbv zeta. unfold run, V1.main.
  unfold bind at 1. destruct (V1.flagHelp c).
  { cbn [when]. unfold bind at 1. unfold V1.Usage. rewrite forEach_stderr.
    cbn [osExit]. rewrite app_nil_r. reflexivity. }
  cbn [when ret]. unfold bind at 1. cbn [ask].
  unfold bind at 1.
  destruct (isEmpty (if isEmpty (V1.flagToken c) then getenv w "OPENAI_API_KEY"
                     else V1.flagToken c)); cbn [when ret]; [reflexivity |].
  unfold bind at 1.
  destruct (Float64.lt (V1.flagSpeed c) f_0_25 || Float64.gt (V1.flagSpeed c) f_4_0);
    cbn [when ret]; [reflexivity |].
  cbn [app]. unfold bind at 1.
  destruct (getText _ w []) as [[text | code] t2]; [| reflexivity].
  unfold bind at 1. destruct (isEmpty text); cbn [when ret].
  - unfold bind. cbn [stderr emit osExit]. unfold V1.Usage.
    rewrite forEach_stderr. cbn [app]. rewrite !app_nil_r. reflexivity.
  - cbn [app]. rewrite !app_nil_r.
    destruct (V1.flagAll c);
      [destruct (forEach _ _ _ _) | destruct (V1.speakOnce _ _ _ _ _ _ _ _ _)];
      reflexivity.
Qed.

Lemma bind_run {A B} (m1 m2 : M A) (f : A -> M B) w h :
  m1 w h = m2 w h -> bind m1 f w h = bind m2 f w h.
Proof. intros E. unfold bind. rewrite E. reflexivity. Qed.

Lemma V1_speakOnce_valid k m v x s st sb output speak w h :
  V1.isValidVoice v = true ->
  V1.speakOnce k m v x s output speak w h
  = speakOnce "openai" k m v x s st sb output speak w h.
Proof.
  intros Hv. unfold V1.speakOnce, speakOnce.
  rewrite (bind_run _ _ _ _ _ (synthesize_openai k m v x s st sb w h Hv)).
  unfold bind at 1. rewrite Hv. cbn [negb when ret app]. rewrite app_nil_r.
  change (V1.synthesize k m v x s) with (synthesizeOpenAI k m v x s).
  destruct (bind (synthesizeOpenAI k m v x s) _ w h). reflexivity.
Qed.

Lemma V1_speakOnce_invalid k m v x s output speak w h :
  V1.isValidVoice v = false ->
  V1.speakOnce k m v x s output speak w h
  = (Exited 1,
     [EStderr ("Error: Invalid voice '" +:+ v +:+ "'. Valid voices: "
               +:+ Join V1.validVoices ", " +:+ nl)]).
Proof.
  intros Hv. unfold V1.speakOnce. unfold bind at 1. rewrite Hv. reflexivity.
Qed.

Lemma speakOnce_openai_invalid k m v x s st sb output speak w h :
  isValidOpenAIVoice v = false ->
  speakOnce "openai" k m v x s st sb output speak w h
  = (Exited 1,
     [EStderr ("Error: Invalid OpenAI voice '" +:+ v +:+ "'. Valid voices: "
               +:+ Join openAIVoices ", " +:+ nl)]).
Proof.
  intros Hv. unfold speakOnce.
  rewrite (bind_exited _ _ _ _ _ _ (synthesize_openai_invalid _ _ _ _ _ _ _ _ _ Hv)).
  reflexivity.
Qed.

Lemma getText_done w h c text t :
  getText (flagArgs c) w h = (Done text, t) -> textOf w c = Some text.
Proof.
  unfold textOf, getText. destruct (flagArgs c) as [| a l].
  - unfold bind, ask. cbn [app].
    destruct (stdin w) as [| | data [e |]]; try discriminate;
      intros [= <- _]; reflexivity.
  - intros [= <- _]. reflexivity.
Qed.

Lemma effects_stderr msgs : effects (map EStderr msgs) = [].
Proof. apply (stderr_silent msgs). Qed.

Lemma apiKeyOf_upgrade w c :
  apiKeyOf w (upgrade c)
  = if isEmpty (V1.flagToken c) then getenv w "OPENAI_API_KEY"
    else V1.flagToken c.
Proof. reflexivity. Qed.

Lemma validateSpeed_openai s w h :
  validateSpeed "openai" s w h
  = if Float64.lt s f_0_25 || Float64.gt s f_4_0
    then (Exited 1,
          [EStderr ("Error: Speed must be between 0.25 and 4.0 for OpenAI" +:+ nl)])
    else (Done tt, []).
Proof.
  unfold validateSpeed, switchProvider.
  change (String.eqb "openai" "openai") with true. cbv iota.
  destruct (_ || _); reflexivity.
Qed.

(** X18: the last revision keeps the behaviour of the first.  A command
    line of the first revision that names its voice and model ends with
    the same status and has the same effects (calls, requests, playbacks,
    pauses, file outputs) under the last revision; the whole run, messages
    included, is the same unless it ends on the usage text, the speed
    error or the invalid-voice error, whose wording changed. *)
Theorem v1_compatible (w : World) (c : V1.Flags) :
  isEmpty (V1.flagVoice c) = false -> isEmpty (V1.flagModel c) = false ->
  fst (run w (V1.main c)) = fst (run w (main (upgrade c)))
  /\ effects (snd (run w (V1.main c))) = effects (snd (run w (main (upgrade c))))
  /\ (checked w (upgrade c) = true ->
      V1.flagAll c = true \/ V1.isValidVoice (V1.flagVoice c) = true ->
      run w (V1.main c) = run w (main (upgrade c))).
Proof.
  intros Hvoice Hmodel.
  assert (Hm : modelOf w (upgrade c) = V1.flagModel c).
  { unfold modelOf, defaultModel. cbn [upgrade flagModel]. rewrite Hmodel.
    reflexivity. }
  assert (Hv : voiceOf w (upgrade c) = V1.flagVoice c).
  { unfold voiceOf, defaultVoice. cbn [upgrade flagVoice]. rewrite Hvoice.
    reflexivity. }
  assert (Hcommon :
    forall text h,
      isEmpty text = false ->
      let old :=
        (if V1.flagAll c then
           forEach V1.validVoices
             (V1.speakVoice (apiKeyOf w (upgrade c)) (V1.flagModel c) text
                (V1.flagSpeed c))
         else
           V1.speakOnce (apiKeyOf w (upgrade c)) (V1.flagModel c)
             (V1.flagVoice c) text (V1.flagSpeed c) (V1.flagOutput c)
             (V1.flagSpeak c)) w h in
      let new :=
        (if V1.flagAll c then
           speakAll "openai" (apiKeyOf w (upgrade c)) (V1.flagModel c) text
             (V1.flagSpeed c)
         else
           speakOnce "openai" (apiKeyOf w (upgrade c)) (V1.flagModel c)
             (V1.flagVoice c) text (V1.flagSpeed c) f_0_5 f_0_75
             (V1.flagOutput c) (V1.flagSpeak c)) w h in
      fst old = fst new /\ effects (snd old) = effects (snd new)
      /\ (V1.flagAll c = true \/ V1.isValidVoice (V1.flagVoice c) = true ->
          old = new)).
  { intros text h Htext. cbv zeta. destruct (V1.flagAll c).
    - rewrite speakAll_openai. repeat split; reflexivity.
    - destruct (V1.isValidVoice (V1.flagVoice c)) eqn:Hvalid.
      + rewrite (V1_speakOnce_valid _ _ _ _ _ f_0_5 f_0_75 _ _ _ _ Hvalid).
        repeat split; reflexivity.
      + rewrite (V1_speakOnce_invalid _ _ _ _ _ _ _ _ _ Hvalid),
          (speakOnce_openai_invalid _ _ _ _ _ _ _ _ _ _ _ Hvalid).
        repeat split; try reflexivity. intros [H | H]; discriminate. }
  rewrite V1_main_run, main_run. cbv zeta.
  rewrite Hm, Hv, apiKeyOf_upgrade.
  change (providerOf w (upgrade c)) with "openai".
  rewrite validateSpeed_openai.
  unfold checked.
  cbn [upgrade flagHelp flagArgs flagAll flagSpeed flagOutput flagSpeak
       flagStability flagSimilarity].
  change (providerOf w (upgrade c)) with "openai".
  change (isProvider "openai") with true.
  rewrite apiKeyOf_upgrade in Hcommon |- *. unfold speedAccepted, switchProvider.
  change (String.eqb "openai" "openai") with true. cbv iota. cbn [negb andb].
  destruct (V1.flagHelp c).
  { cbn [fst snd]. rewrite !effects_stderr. repeat split. discriminate. }
  destruct (isEmpty (if isEmpty (V1.flagToken c) then _ else _)).
  { repeat split. }
  destruct (Float64.lt (V1.flagSpeed c) f_0_25 || Float64.gt (V1.flagSpeed c) f_4_0).
  { repeat split. discriminate. }
  cbn [negb andb].
  destruct (getText (V1.flagArgs c) w []) as [[text | code] t2] eqn:Etext.
  2:{ repeat split. }
  cbn [app].
  destruct (isEmpty text) eqn:Hempty.
  { cbn [fst snd]. rewrite !effects_app.
    change (EStderr ("Error: No text provided" +:+ nl) :: map EStderr V1.usageLines)
      with (map EStderr (("Error: No text provided" +:+ nl) :: V1.usageLines)).
    change (EStderr ("Error: No text provided" +:+ nl) :: map EStderr usageLines)
      with (map EStderr (("Error: No text provided" +:+ nl) :: usageLines)).
    rewrite !effects_stderr. repeat split.
    intros Hc _. exfalso.
    apply (getText_done w [] (upgrade c)) in Etext.
    unfold hasText in Hc. rewrite Etext, Hempty in Hc. discriminate. }
  destruct (Hcommon text t2 Hempty) as (H1 & H2 & H3). cbv zeta in H1, H2, H3.
  destruct (if V1.flagAll c then forEach _ _ else V1.speakOnce _ _ _ _ _ _ _) as [o t3].
  destruct (if V1.flagAll c then speakAll _ _ _ _ _ else speakOnce _ _ _ _ _ _ _ _ _ _)
    as [o' t3'].
  cbn [fst snd] in *. rewrite !effects_app, H1, H2.
  repeat split. intros _ Hor. specialize (H3 Hor). injection H3 as -> ->.
  reflexivity.
Qed.

Lemma v1_compatible_witness :
  run calmWorld (V1.main (V1.defaultFlags ["Hello"; "world"]))
  = run calmWorld (main helloWorld).
Proof.
  destruct (v1_compatible calmWorld (V1.defaultFlags ["Hello"; "world"])
              eq_refl eq_refl) as (_ & _ & H).
  apply H; [reflexivity | right; reflexivity].
Defined.

(** The run of the second [main] as the sequence of its checks, for a
    provider it knows. *)
Lemma V2_main_run w c :
  V2.isProvider (providerOf w c) = true ->
  run w (V2.main c) =
    if flagHelp c then (Exited 0, map EStderr V2.usageLines)
    else if isEmpty (apiKeyOf w c) then
      (Exited 1,
       [EStderr ("Error: " +:+ envVarOf (providerOf w c)
                 +:+ " environment variable not set and --token not provided"
                 +:+ nl)])
    else
      match validateSpeed (providerOf w c) (flagSpeed c) w [] with
      | (Exited code, t1) => (Exited code, t1)
      | (Done _, t1) =>
          match getText (flagArgs c) w [] with
          | (Exited code, t2) => (Exited code, t1 ++ t2)
          | (Done text, t2) =>
              if isEmpty text then
                (Exited 1,
                 t1 ++ t2 ++ EStderr ("Error: No text provided" +:+ nl)
                            :: map EStderr V2.usageLines)
              else
                let (o, t3) :=
                  (if flagAll c then
                     speakAll (providerOf w c) (apiKeyOf w c) (modelOf w c) text
                       (flagSpeed c)
                   else
                     speakOnce (providerOf w c) (apiKeyOf w c) (modelOf w c)
                       (voiceOf w c) text (flagSpeed c) (flagStability c)
                       (flagSimilarity c) (flagOutput c) (flagSpeak c))
                    w (t1 ++ t2) in
                (o, t1 ++ t2 ++ t3)
          end
      end.
Proof.
  intros Hp. unfold run, V2.main.
  unfold bind at 1. destruct (flagHelp c).
  { cbn [when]. unfold bind at 1. unfold V2.Usage. rewrite forEach_stderr.
    cbn [osExit]. rewrite app_nil_r. reflexivity. }
  cbn [when ret]. unfold bind at 1. cbn [ask]. fold (providerOf w c).
  unfold bind at 1. rewrite Hp. cbn [negb when ret].
  unfold bind at 1. cbn [ask].
  unfold apiKeyOf, modelOf, voiceOf, defaultVoice, defaultModel.
  unfold V2.isProvider in Hp. apply orb_true_iff in Hp as [Hp | Hp];
    apply String.eqb_eq in Hp; rewrite Hp;
    unfold V2.ifOpenAI, switchProvider;
    cbn [String.eqb Ascii.eqb Bool.eqb];
    (unfold bind at 1;
     match goal with |- context [when (isEmpty ?k)] => destruct (isEmpty k) end;
     cbn [when ret]; [reflexivity |]);
    cbn [app]; unfold bind at 1;
    match goal with |- context [V2.validateSpeed ?p ?s] =>
      change (V2.validateSpeed p s) with (validateSpeed p s) end.
  all: match goal with |- context [validateSpeed ?p ?s ?w0 []] =>
         destruct (validateSpeed p s w0 []) as [[[] | code] t1] end;
       [| reflexivity].
  all: unfold bind at 1; rewrite getText_run;
       destruct (getText _ _ []) as [[text | code] t2]; [| reflexivity].
  all: unfold bind at 1; destruct (isEmpty text); cbn [when ret];
       [unfold bind; cbn [stderr emit osExit]; unfold V2.Usage;
        rewrite forEach_stderr; cbn [app]; rewrite !app_nil_r; reflexivity |].
  all: cbn [app]; rewrite !app_nil_r; destruct (flagAll c).
  all: try (change V2.speakAll with speakAll;
            destruct (speakAll _ _ _ _ _ _ _); reflexivity).
  all: unfold speakOnce;
       match goal with |- context [bind (V2.synthesize ?p ?k ?m ?v ?x ?s ?st ?sb) ?f ?w0 ?h] =>
         change (V2.synthesize p k m v x s st sb) with (synthesize p k m v x s st sb);
         destruct (bind (synthesize p k m v x s st sb) f w0 h)
       end; reflexivity.
Qed.

(** X19: the last revision keeps the behaviour of the second for the two
    providers the second knows: the same status and the same effects, and
    the same run, messages included, unless it ends on the usage text,
    which names Deepgram since.  Any other provider, Deepgram included,
    the second revision refuses before anything else. *)
Theorem v2_compatible (w : World) (c : Flags) :
  (V2.isProvider (providerOf w c) = true ->
   fst (run w (V2.main c)) = fst (run w (main c))
   /\ effects (snd (run w (V2.main c))) = effects (snd (run w (main c)))
   /\ (flagHelp c = false -> hasText w c = true ->
       run w (V2.main c) = run w (main c)))
  /\ (V2.isProvider (providerOf w c) = false -> flagHelp c = false ->
      run w (V2.main c)
      = (Exited 1,
         [EStderr ("Error: Invalid provider '" +:+ providerOf w c
                   +:+ "'. Use 'openai' or 'elevenlabs'" +:+ nl)])).
Proof.
  split.
  - intros Hp. rewrite (V2_main_run w c Hp), main_run.
    assert (Hp3 : isProvider (providerOf w c) = true).
    { unfold isProvider. unfold V2.isProvider in Hp. rewrite Hp. reflexivity. }
    rewrite Hp3. cbn [negb].
    destruct (flagHelp c).
    { cbn [fst snd]. rewrite !effects_stderr. repeat split. discriminate. }
    destruct (isEmpty (apiKeyOf w c)); [repeat split |].
    destruct (validateSpeed _ _ w []) as [[[] | code] t1]; [| repeat split].
    destruct (getText _ w []) as [[text | code] t2] eqn:Etext; [| repeat split].
    destruct (isEmpty text) eqn:Hempty; [| repeat split].
    cbn [fst snd]. rewrite !effects_app.
    change (EStderr ("Error: No text provided" +:+ nl) :: map EStderr V2.usageLines)
      with (map EStderr (("Error: No text provided" +:+ nl) :: V2.usageLines)).
    change (EStderr ("Error: No text provided" +:+ nl) :: map EStderr usageLines)
      with (map EStderr (("Error: No text provided" +:+ nl) :: usageLines)).
    rewrite !effects_stderr. repeat split.
    intros _ Ht. exfalso. apply getText_done in Etext.
    unfold hasText in Ht. rewrite Etext, Hempty in Ht. discriminate.
  - intros Hp Hh. unfold run, V2.main.
    unfold bind at 1. rewrite Hh. cbn [when ret].
    unfold bind at 1. cbn [ask]. fold (providerOf w c).
    unfold bind at 1. rewrite Hp. reflexivity.
Qed.

Lemma v2_compatible_witness :
  run calmWorld (V2.main rawVoice) = run calmWorld (main rawVoice)
  /\ run calmWorld (V2.main fastDeepgram)
     = (Exited 1,
        [EStderr ("Error: Invalid provider '" +:+ "deepgram"
                  +:+ "'. Use 'openai' or 'elevenlabs'" +:+ nl)]).
Proof.
  split.
  - destruct (proj1 (v2_compatible calmWorld rawVoice) eq_refl) as (_ & _ & H).
    apply H; reflexivity.
  - apply (proj2 (v2_compatible calmWorld fastDeepgram)); reflexivity.
Defined.

(** ** Defaults *)

(** X20: without [-v] and [-m] a single-shot run that passed the checks
    is never refused for its voice and calls the provider with the
    defaults: OpenAI with voice alloy and model tts-1-hd, ElevenLabs with
    the identifier of rachel and model eleven_multilingual_v2, Deepgram
    with aura-asteria-en. *)
Theorem defaults_applied (w : World) (c : Flags) (text : string) :
  checked w c = true -> flagAll c = false ->
  isEmpty (flagVoice c) = true -> isEmpty (flagModel c) = true ->
  textOf w c = Some text ->
  synthCalls (snd (run w (main c)))
  = [switchProvider (providerOf w c)
       (CallOpenAI (apiKeyOf w c) "tts-1-hd" "alloy" text (flagSpeed c))
       (CallElevenLabs (apiKeyOf w c) "eleven_multilingual_v2"
          "21m00Tcm4TlvDq8ikWAM" text (flagSpeed c) (flagStability c)
          (flagSimilarity c))
       (CallDeepgram (apiKeyOf w c) "aura-asteria-en" text)
       (CallDeepgram (apiKeyOf w c) "aura-asteria-en" text)].
Proof.
  intros Hc Hall Hv Hm Htext.
  destruct (checked_parts w c Hc) as (_ & Hp & _).
  assert (Hvoice : voiceOf w c
                   = switchProvider (providerOf w c) "alloy" "rachel"
                       "aura-asteria-en" (flagVoice c)).
  { unfold voiceOf, defaultVoice. rewrite Hv. reflexivity. }
  assert (Hmodel : modelOf w c
                   = switchProvider (providerOf w c) "tts-1-hd"
                       "eleven_multilingual_v2" EmptyString (flagModel c)).
  { unfold modelOf, defaultModel. rewrite Hm. reflexivity. }
  assert (Hvalid : providerOf w c = "openai" ->
                   isValidOpenAIVoice (voiceOf w c) = true).
  { intros E. rewrite Hvoice, E. reflexivity. }
  destruct (single_shot_shape w c text Hc Hall Htext Hvalid) as (o & t & E & O).
  rewrite E. cbn [snd].
  destruct (speedEvents_silent (providerOf w c) (flagSpeed c)) as (Hs & _).
  destruct (onceRun_observed _ _ _ _ _ O) as (Hcalls & _).
  rewrite synthCalls_app, Hs, Hcalls. cbn [app]. f_equal.
  unfold callOf. rewrite Hvoice, Hmodel.
  destruct (isProvider_cases _ Hp) as [Ep | [Ep | Ep]]; rewrite Ep; reflexivity.
Qed.

Lemma defaults_applied_witness :
  synthCalls (snd (run calmWorld (main helloWorld)))
  = [CallOpenAI "sk-env" "tts-1-hd" "alloy" "Hello world" f_1_0].
Proof.
  exact (defaults_applied calmWorld helloWorld "Hello world"
           eq_refl eq_refl eq_refl eq_refl eq_refl).
Defined.
